(** * Triddle backend: forms, questions, responses and analytics

    A shallow embedding of the Express/Prisma controllers

      - [src/controllers/form.controller.js]
      - [src/controllers/question.controller.js]
      - [src/controllers/response.controller.js]

    over the relational schema of [prisma/schema.prisma].

    Modelling conventions.

    - The database is a record of tables; a table is the list of its rows.
      [findFirst]/[findUnique] return the first row of the list that matches,
      [findMany] the matching rows in list order, [orderBy] is a stable
      sort of them.  Deleting rows cascades along the [onDelete: Cascade]
      relations of the schema.
    - A request field is a JavaScript value that may be missing.  Prisma
      reads a missing ([undefined]) field of a [data] argument as "leave the
      column alone" in [update] and as "use the column default" in [create],
      and a [null] as the SQL NULL; [field] keeps the three cases apart.
    - Identifiers come from [uuid()]/[uuidv4()].  The generator is the
      function [uuid] applied to the number of identifiers drawn so far,
      which the database record carries in [seed].
    - The clock reading of a request is an argument [now] of its handler
      (milliseconds since the epoch).
    - Requests are served one at a time; a transaction is a function on
      the store.  The interactive transaction of [updateForm] can be
      refused: its writes are then rolled back as a whole.
    - [order] is a 32-bit [Int] column.  Orders are integers here and
      [fits_Int] is the range of the column.  [updateForm] stores the
      orders the client sends: a write outside the column is refused and
      the request answered 500.  [createQuestion], [reorderQuestions] and
      [deleteQuestion] are followed on orders inside the column; what is
      proved of them on a store that may hold the largest value of the
      column says so in its premises.
    - Request payloads are typed: a required column is given with its type.
    - Numbers are IEEE 754 binary64, as in JavaScript: primitive floats,
      whose operations [FloatAxioms] specifies by those of [SpecFloat].
    - The [createdAt]/[updatedAt] columns of forms, questions and answers
      and [visitedAt] of visits are written by the store and read by none
      of the handlers below; they are left out of the rows. *)

From Stdlib Require Import String List ZArith Bool Lia Permutation Sorted.
From Stdlib Require Import DecimalString DecimalNat.
From Stdlib Require Import Floats.PrimFloat Floats.FloatOps Floats.SpecFloat Uint63.
From Stdlib Require Import Floats.FloatAxioms Reals Lra.
Import ListNotations.

Local Open Scope string_scope.
Local Open Scope list_scope.

(** ** JavaScript values at the boundary *)

(** A property of a request body: absent, [null], or a value. *)
Inductive field (A : Type) : Type :=
| Undefined
| Null
| Val (a : A).

Arguments Undefined {A}.
Arguments Null {A}.
Arguments Val {A} a.

(** What Prisma [create] stores in a nullable column. *)
Definition created {A : Type} (f : field A) : option A :=
  match f with
  | Val a => Some a
  | Undefined | Null => None
  end.

(** What Prisma [update] stores in a nullable column holding [old]. *)
Definition updated {A : Type} (f : field A) (old : option A) : option A :=
  match f with
  | Undefined => old
  | Null => None
  | Val a => Some a
  end.

(** [update] on a required column: a missing field keeps the column. *)
Definition assigned {A : Type} (f : option A) (old : A) : A :=
  match f with
  | Some a => a
  | None => old
  end.

(** [x || d] on strings: the empty string is falsy. *)
Definition or_string (x : option string) (d : string) : string :=
  match x with
  | Some s => if (s =? "")%string then d else s
  | None => d
  end.

(** [x || d] on booleans. *)
Definition or_bool (x : option bool) (d : bool) : bool :=
  match x with
  | Some true => true
  | Some false | None => d
  end.

(** JSON documents ([Json] columns and the payload fields stored in them). *)
#[local] Unset Elimination Schemes.
Inductive Json : Type :=
| JNull
| JBool (b : bool)
| JNumber (x : float)
| JString (s : string)
| JArray (l : list Json)
| JObject (kv : list (string * Json)).
#[local] Set Elimination Schemes.

(** Truthiness of a JSON value that may be absent. *)
Definition truthy (j : option Json) : bool :=
  match j with
  | None | Some JNull | Some (JBool false) => false
  | Some (JNumber x) => negb (PrimFloat.eqb x 0%float || PrimFloat.is_nan x)
  | Some (JString s) => negb (s =? "")%string
  | Some _ => true
  end.

Fixpoint assoc (k : string) (kv : list (string * Json)) : option Json :=
  match kv with
  | [] => None
  | (k', v) :: r => if (k =? k')%string then Some v else assoc k r
  end.

(** [j.k]: property access on a truthy value. *)
Definition prop (k : string) (j : Json) : option Json :=
  match j with
  | JObject kv => assoc k kv
  | _ => None
  end.

(** An object literal [{k: v, ...}]; a key whose value is [undefined] is not
    serialised. *)
Definition object (kv : list (string * option Json)) : Json :=
  JObject (flat_map (fun p => match snd p with
                              | Some v => [(fst p, v)]
                              | None => []
                              end) kv).

(** ** The schema *)

Module Form.
Record t : Type := mk {
  id : string;
  title : string;
  description : option string;
  isPublished : bool;
  userId : string
}.
End Form.

Module Theme.
Record t : Type := mk {
  id : string;
  formId : string;
  primaryColor : string;
  backgroundColor : string;
  fontFamily : string
}.
End Theme.

Module FormSettings.
Record t : Type := mk {
  id : string;
  formId : string;
  requireSignIn : bool;
  limitOneResponsePerUser : bool;
  showProgressBar : bool;
  shuffleQuestions : bool;
  confirmationMessage : string;
  redirectUrl : option string;
  notifyOnSubmission : bool
}.
End FormSettings.

Module NotificationEmail.
Record t : Type := mk {
  id : string;
  email : string;
  formSettingsId : string
}.
End NotificationEmail.

Module Question.
Record t : Type := mk {
  id : string;
  formId : string;
  title : string;
  description : option string;
  type : string;
  isRequired : bool;
  options : option Json;
  order : Z;  (* [Int]: the database holds it when [fits_Int] *)
  validation : option Json
}.

Definition with_order (o : Z) (q : t) : t :=
  mk (id q) (formId q) (title q) (description q) (type q) (isRequired q)
     (options q) o (validation q).

Definition with_options (o : option Json) (q : t) : t :=
  mk (id q) (formId q) (title q) (description q) (type q) (isRequired q)
     o (order q) (validation q).
End Question.

Module ConditionalLogic.
Record t : Type := mk {
  id : string;
  questionId : string;
  enabled : bool
}.
End ConditionalLogic.

Module ConditionalRule.
Record t : Type := mk {
  id : string;
  conditionalLogicId : string;
  targetQuestionId : string;
  operator : string;
  value : option string;
  action : string
}.
End ConditionalRule.

Module Response.
Record t : Type := mk {
  id : string;
  formId : string;
  respondentId : string;
  isCompleted : bool;
  startedAt : Z;
  completedAt : option Z
}.
End Response.

Module Answer.
Record t : Type := mk {
  id : string;
  questionId : string;
  responseId : string;
  value : option string;
  fileUrl : option string
}.
End Answer.

Module FormVisit.
Record t : Type := mk {
  id : string;
  formId : string;
  ipAddress : option string;
  userAgent : option string;
  referrer : option string
}.
End FormVisit.

(** The store: one list of rows per table, and the number of identifiers the
    uuid generator has handed out. *)
Record DB : Type := mkDB {
  forms : list Form.t;
  themes : list Theme.t;
  formSettings : list FormSettings.t;
  notificationEmails : list NotificationEmail.t;
  questions : list Question.t;
  conditionalLogics : list ConditionalLogic.t;
  conditionalRules : list ConditionalRule.t;
  responses : list Response.t;
  answers : list Answer.t;
  formVisits : list FormVisit.t;
  seed : nat
}.

Definition emptyDB : DB := mkDB [] [] [] [] [] [] [] [] [] [] 0.

Definition set_forms (x : list Form.t) (d : DB) : DB :=
  mkDB x (themes d) (formSettings d) (notificationEmails d) (questions d)
       (conditionalLogics d) (conditionalRules d) (responses d) (answers d)
       (formVisits d) (seed d).

Definition set_themes (x : list Theme.t) (d : DB) : DB :=
  mkDB (forms d) x (formSettings d) (notificationEmails d) (questions d)
       (conditionalLogics d) (conditionalRules d) (responses d) (answers d)
       (formVisits d) (seed d).

Definition set_formSettings (x : list FormSettings.t) (d : DB) : DB :=
  mkDB (forms d) (themes d) x (notificationEmails d) (questions d)
       (conditionalLogics d) (conditionalRules d) (responses d) (answers d)
       (formVisits d) (seed d).

Definition set_notificationEmails (x : list NotificationEmail.t) (d : DB) : DB :=
  mkDB (forms d) (themes d) (formSettings d) x (questions d)
       (conditionalLogics d) (conditionalRules d) (responses d) (answers d)
       (formVisits d) (seed d).

Definition set_questions (x : list Question.t) (d : DB) : DB :=
  mkDB (forms d) (themes d) (formSettings d) (notificationEmails d) x
       (conditionalLogics d) (conditionalRules d) (responses d) (answers d)
       (formVisits d) (seed d).

Definition set_conditionalLogics (x : list ConditionalLogic.t) (d : DB) : DB :=
  mkDB (forms d) (themes d) (formSettings d) (notificationEmails d)
       (questions d) x (conditionalRules d) (responses d) (answers d)
       (formVisits d) (seed d).

Definition set_conditionalRules (x : list ConditionalRule.t) (d : DB) : DB :=
  mkDB (forms d) (themes d) (formSettings d) (notificationEmails d)
       (questions d) (conditionalLogics d) x (responses d) (answers d)
       (formVisits d) (seed d).

Definition set_responses (x : list Response.t) (d : DB) : DB :=
  mkDB (forms d) (themes d) (formSettings d) (notificationEmails d)
       (questions d) (conditionalLogics d) (conditionalRules d) x (answers d)
       (formVisits d) (seed d).

Definition set_answers (x : list Answer.t) (d : DB) : DB :=
  mkDB (forms d) (themes d) (formSettings d) (notificationEmails d)
       (questions d) (conditionalLogics d) (conditionalRules d) (responses d)
       x (formVisits d) (seed d).

Definition set_formVisits (x : list FormVisit.t) (d : DB) : DB :=
  mkDB (forms d) (themes d) (formSettings d) (notificationEmails d)
       (questions d) (conditionalLogics d) (conditionalRules d) (responses d)
       (answers d) x (seed d).

Definition set_seed (n : nat) (d : DB) : DB :=
  mkDB (forms d) (themes d) (formSettings d) (notificationEmails d)
       (questions d) (conditionalLogics d) (conditionalRules d) (responses d)
       (answers d) (formVisits d) n.

(** ** Query helpers *)

(** Membership of a string in a list of strings ([Array.includes], [notIn]). *)
Definition includes (l : list string) (s : string) : bool :=
  existsb (String.eqb s) l.

(** [orderBy: { key: 'asc' }]: stable insertion sort on an integer key. *)
Fixpoint insert_asc {A : Type} (key : A -> Z) (x : A) (l : list A) : list A :=
  match l with
  | [] => [x]
  | y :: r => if (key x <=? key y)%Z then x :: l else y :: insert_asc key x r
  end.

Definition orderBy {A : Type} (key : A -> Z) (l : list A) : list A :=
  fold_right (insert_asc key) [] l.

(** [Array.prototype.findIndex]: the first position that satisfies [p], or
    [-1]. *)
Fixpoint findIndex {A : Type} (p : A -> bool) (l : list A) : Z :=
  match l with
  | [] => -1
  | x :: r => if p x then 0
              else let i := findIndex p r in
                   if (i <? 0)%Z then -1 else (i + 1)%Z
  end.

(** [l[i]], [undefined] out of range. *)
Definition at_index {A : Type} (l : list A) (i : Z) : option A :=
  if (i <? 0)%Z then None else nth_error l (Z.to_nat i).

(** The rows of a form's [questions] relation. *)
Definition questions_of (d : DB) (formId : string) : list Question.t :=
  filter (fun q => (Question.formId q =? formId)%string) (questions d).

(** [include: { questions: { orderBy: { order: 'asc' } } }]. *)
Definition questions_asc (d : DB) (formId : string) : list Question.t :=
  orderBy Question.order (questions_of d formId).

(** ** Replies *)

(** [res.status(s).json({status: 'success', ...})] against
    [res.status(s).json({status: 'error', message})]. *)
Inductive reply (A : Type) : Type :=
| Success (status : nat) (data : A)
| Failure (status : nat) (message : string).

Arguments Success {A} status data.
Arguments Failure {A} status message.

(** ** The response controller *)

Module StartData.
Record t : Type := mk {
  response_id : string;
  response_respondentId : string;
  form_id : string;
  form_title : string;
  form_description : option string;
  questionCount : nat;
  firstQuestion : option Question.t
}.
End StartData.

Module SubmitBody.
(** [const { questionId, value, fileUrl } = req.body] *)
Record t : Type := mk {
  questionId : option string;
  value : field string;
  fileUrl : field string
}.
End SubmitBody.

Module SubmitData.
Record t : Type := mk {
  answer : Answer.t;
  nextQuestion : option Question.t;
  isLastQuestion : bool
}.
End SubmitData.

Module AnswerView.
Record t : Type := mk {
  questionId : string;
  questionTitle : string;
  questionType : string;
  value : option string;
  fileUrl : option string
}.
End AnswerView.

Module ResponseView.
Record t : Type := mk {
  id : string;
  respondentId : string;
  formTitle : string;
  formDescription : option string;
  isCompleted : bool;
  startedAt : Z;
  completedAt : option Z;
  answers : list AnswerView.t
}.
End ResponseView.

(** [q.id === questionId], where [questionId] may be missing from the body. *)
Definition id_is (questionId : option string) (q : Question.t) : bool :=
  match questionId with
  | Some s => (Question.id q =? s)%string
  | None => false
  end.

(** [prisma.answer.update({ where: { id }, data: { value, fileUrl } })] *)
Definition answer_update (id : string) (value fileUrl : field string)
    (a : Answer.t) : Answer.t :=
  if (Answer.id a =? id)%string
  then Answer.mk (Answer.id a) (Answer.questionId a) (Answer.responseId a)
                 (updated value (Answer.value a))
                 (updated fileUrl (Answer.fileUrl a))
  else a.

(** [prisma.response.update({ where: { id },
      data: { isCompleted: true, completedAt: new Date() } })] *)
Definition response_complete (id : string) (now : Z) (r : Response.t)
    : Response.t :=
  if (Response.id r =? id)%string
  then Response.mk (Response.id r) (Response.formId r)
                   (Response.respondentId r) true (Response.startedAt r)
                   (Some now)
  else r.

(** All of an option list, or nothing when one element is missing: a
    [map] whose callback dereferences a relation. *)
Fixpoint all_some {A : Type} (l : list (option A)) : option (list A) :=
  match l with
  | [] => Some []
  | None :: _ => None
  | Some a :: r => match all_some r with
                   | Some r' => Some (a :: r')
                   | None => None
                   end
  end.

(** ** Payloads and views of the form and question controllers *)

Module ThemeBody.
Record t : Type := mk {
  primaryColor : option string;
  backgroundColor : option string;
  fontFamily : option string
}.
End ThemeBody.

Module SettingsBody.
Record t : Type := mk {
  requireSignIn : option bool;
  limitOneResponsePerUser : option bool;
  showProgressBar : option bool;
  shuffleQuestions : option bool;
  confirmationMessage : option string;
  redirectUrl : field string;
  notifyOnSubmission : option bool;
  notificationEmails : option (list string)
}.
End SettingsBody.

Module RuleBody.
Record t : Type := mk {
  questionId : string;
  operator : string;
  value : field string;
  action : option string
}.
End RuleBody.

Module LogicBody.
Record t : Type := mk {
  enabled : bool;
  rules : option (list RuleBody.t)
}.
End LogicBody.

Module QuestionEntry.
(** One element of the [questions] array of an update request. *)
Record t : Type := mk {
  id : option string;
  type : string;
  title : string;
  description : field string;
  isRequired : option bool;
  order : Z;
  validation : option Json;
  options : option Json;
  conditionalLogic : option LogicBody.t
}.
End QuestionEntry.

Module CreateFormBody.
Record t : Type := mk {
  title : string;
  description : field string;
  isPublished : option bool;
  theme : option ThemeBody.t;
  settings : option SettingsBody.t
}.
End CreateFormBody.

Module UpdateFormBody.
Record t : Type := mk {
  title : option string;
  description : field string;
  isPublished : option bool;
  theme : option ThemeBody.t;
  settings : option SettingsBody.t;
  questions : option (list QuestionEntry.t)
}.
End UpdateFormBody.

Module QuestionBody.
(** Body of [createQuestion] and [updateQuestion]. *)
Record t : Type := mk {
  title : option string;
  description : field string;
  type : option string;
  isRequired : option bool;
  options : option Json;
  validation : option Json
}.
End QuestionBody.

Module FormView.
(** A form with its theme, settings (with e-mails) and questions (with
    conditional logic and rules). *)
Record t : Type := mk {
  form : Form.t;
  theme : option Theme.t;
  settings : option (FormSettings.t * list NotificationEmail.t);
  questions : list (Question.t
                    * option (ConditionalLogic.t * list ConditionalRule.t))
}.
End FormView.

(** [['multipleChoice', 'checkboxes', 'dropdown']] *)
Definition choice_types : list string :=
  ["multipleChoice"; "checkboxes"; "dropdown"].

(** [question.id && question.id.startsWith('question-')
      && question.id.length > 9] *)
Definition is_existing_id (id : option string) : bool :=
  match id with
  | Some s => negb (s =? "")%string && String.prefix "question-" s
              && (9 <? Z.of_nat (String.length s))%Z
  | None => false
  end.

(** [questions.map(q => q.id).filter(id => id && id.startsWith('question-'))] *)
Definition update_ids (entries : list QuestionEntry.t) : list string :=
  flat_map (fun q => match QuestionEntry.id q with
                     | Some s => if negb (s =? "")%string
                                    && String.prefix "question-" s
                                 then [s] else []
                     | None => []
                     end) entries.

(** [question.validation ? { min, max, pattern } : null] *)
Definition pick_validation (v : option Json) : option Json :=
  match v with
  | Some j => if truthy v
              then Some (object [("min", prop "min" j); ("max", prop "max" j);
                                 ("pattern", prop "pattern" j)])
              else None
  | None => None
  end.

(** A JSON value handed to a nullable [Json] column. *)
Definition json_column (v : option Json) : option Json :=
  match v with
  | Some JNull | None => None
  | Some j => Some j
  end.

(** [v ? JSON.parse(JSON.stringify(v)) : old] *)
Definition json_or (v : option Json) (old : option Json) : option Json :=
  if truthy v then v else old.

(** [deleteMany] on questions, with the cascade of the schema: the
    conditional logic and the answers of a deleted question go with it, and
    the rules of a deleted conditional logic. *)
Definition delete_questions (p : Question.t -> bool) (d : DB) : DB :=
  let gone := map Question.id (filter p (questions d)) in
  let gone_logic :=
    map ConditionalLogic.id
        (filter (fun l => includes gone (ConditionalLogic.questionId l))
                (conditionalLogics d)) in
  set_questions (filter (fun q => negb (p q)) (questions d))
    (set_conditionalLogics
       (filter (fun l => negb (includes gone (ConditionalLogic.questionId l)))
               (conditionalLogics d))
       (set_conditionalRules
          (filter (fun r => negb (includes gone_logic
                                    (ConditionalRule.conditionalLogicId r)))
                  (conditionalRules d))
          (set_answers
             (filter (fun a => negb (includes gone (Answer.questionId a)))
                     (answers d)) d))).

(** [prisma.conditionalRule.deleteMany({ where: { conditionalLogicId } })] *)
Definition delete_rules (logicId : string) (d : DB) : DB :=
  set_conditionalRules
    (filter (fun r => negb (ConditionalRule.conditionalLogicId r =? logicId)%string)
            (conditionalRules d)) d.

(** [prisma.conditionalLogic.update({ where: { id }, data: { enabled } })] *)
Definition logic_enable (id : string) (enabled : bool) (d : DB) : DB :=
  set_conditionalLogics
    (map (fun l => if (ConditionalLogic.id l =? id)%string
                   then ConditionalLogic.mk (ConditionalLogic.id l)
                          (ConditionalLogic.questionId l) enabled
                   else l)
         (conditionalLogics d)) d.

(** The reloaded form of [getForm], [updateForm] and [getFormToFill]. *)
Definition loadForm (d : DB) (id : string) : option FormView.t :=
  match find (fun f => (Form.id f =? id)%string) (forms d) with
  | None => None
  | Some f =>
      Some (FormView.mk f
              (find (fun t => (Theme.formId t =? id)%string) (themes d))
              (match find (fun s => (FormSettings.formId s =? id)%string)
                          (formSettings d) with
               | Some s =>
                   Some (s, filter (fun e => (NotificationEmail.formSettingsId e
                                              =? FormSettings.id s)%string)
                                   (notificationEmails d))
               | None => None
               end)
              (map (fun q =>
                      (q, match find (fun l => (ConditionalLogic.questionId l
                                                =? Question.id q)%string)
                                     (conditionalLogics d) with
                          | Some l =>
                              Some (l, filter (fun r =>
                                                 (ConditionalRule.conditionalLogicId r
                                                  =? ConditionalLogic.id l)%string)
                                              (conditionalRules d))
                          | None => None
                          end))
                   (questions_asc d id)))
  end.

(** ** Numbers *)

(** A count as a JavaScript number (exact below 2^53). *)
Definition number (n : nat) : float :=
  PrimFloat.of_uint63 (Uint63.of_Z (Z.of_nat n)).

(** [Math.round]: the integer nearest to [x], ties towards +infinity; NaN,
    the infinities and the zeros are returned as they are, and a negative
    [x] that rounds to zero gives [-0].  A finite [x] is [+/- m * 2^e]; for
    [e < 0] the result is [floor (x + 1/2)], computed on integers. *)
Definition Math_round (x : float) : float :=
  match Prim2SF x with
  | S754_finite s m e =>
      if (0 <=? e)%Z then x
      else
        let k := (- e)%Z in
        let twice := if s then (- (2 * Z.pos m))%Z else (2 * Z.pos m)%Z in
        let n := ((twice + 2 ^ k) / 2 ^ (k + 1))%Z in
        if (n =? 0)%Z then (if s then PrimFloat.opp 0%float else 0%float)
        else if (n <? 0)%Z
             then PrimFloat.opp (PrimFloat.of_uint63 (Uint63.of_Z (- n)))
             else PrimFloat.of_uint63 (Uint63.of_Z n)
  | _ => x
  end.

Module QuestionStat.
Record t : Type := mk {
  id : string;
  title : string;
  type : string;
  responses : nat;
  dropoffRate : float
}.
End QuestionStat.

Module Analytics.
Record t : Type := mk {
  visits : nat;
  responses : nat;
  completionRate : float;
  questions : list QuestionStat.t
}.
End Analytics.

(** [_count: { select: { answers: true } }] *)
Definition count_answers (d : DB) (q : Question.t) : nat :=
  length (filter (fun a => (Answer.questionId a =? Question.id q)%string)
                 (answers d)).

(** [prisma.question.update({ where: { id }, data: { order } })] *)
Definition order_update (id : string) (order : Z) (q : Question.t)
    : Question.t :=
  if (Question.id q =? id)%string then Question.with_order order q else q.

(** [for (const [index, question] of remainingQuestions.entries())]: the
    question at position [index] is moved to [base + index]. *)
Fixpoint renumber (base : Z) (index : nat) (remaining : list Question.t)
    (rows : list Question.t) : list Question.t :=
  match remaining with
  | [] => rows
  | question :: rest =>
      renumber base (S index) rest
        (map (order_update (Question.id question) (base + Z.of_nat index)%Z)
             rows)
  end.

(** Deleting a form row, with the cascade of the schema. *)
Definition delete_form (id : string) (d : DB) : DB :=
  let d := delete_questions (fun q => (Question.formId q =? id)%string) d in
  let gone_responses :=
    map Response.id
        (filter (fun r => (Response.formId r =? id)%string) (responses d)) in
  let gone_settings :=
    map FormSettings.id
        (filter (fun s => (FormSettings.formId s =? id)%string)
                (formSettings d)) in
  let keep {A : Type} (formId : A -> string) :=
    filter (fun x => negb (formId x =? id)%string) in
  set_forms (keep Form.id (forms d))
    (set_themes (keep Theme.formId (themes d))
       (set_formSettings (keep FormSettings.formId (formSettings d))
          (set_notificationEmails
             (filter (fun e => negb (includes gone_settings
                                       (NotificationEmail.formSettingsId e)))
                     (notificationEmails d))
             (set_responses (keep Response.formId (responses d))
                (set_answers
                   (filter (fun a => negb (includes gone_responses
                                             (Answer.responseId a)))
                           (answers d))
                   (set_formVisits (keep FormVisit.formId (formVisits d))
                      d)))))).

Section Controllers.

(** The uuid generator: its [n]-th identifier. *)
Variable uuid : nat -> string.

(** [startResponse], POST /api/responses/start/:formId *)
Definition startResponse (d : DB) (formId : string) (now : Z)
    : reply StartData.t * DB :=
  match find (fun f => (Form.id f =? formId)%string && Form.isPublished f)
             (forms d) with
  | None => (Failure 404 "Form not found or not published", d)
  | Some form =>
      let form_questions := questions_asc d (Form.id form) in
      let respondentId := uuid (seed d) in
      let response :=
        Response.mk (uuid (S (seed d))) formId respondentId false now None in
      let d' := set_seed (S (S (seed d)))
                  (set_responses (responses d ++ [response]) d) in
      (Success 201
         (StartData.mk (Response.id response)
            (Response.respondentId response)
            (Form.id form) (Form.title form) (Form.description form)
            (length form_questions)
            (if (0 <? Z.of_nat (length form_questions))%Z
             then at_index form_questions 0 else None)),
       d')
  end.

(** The upsert of [submitAnswer]: the answer of the pair is looked up, then
    updated or created. *)
Definition upsert_answer (d : DB) (responseId questionId : string)
    (value fileUrl : field string) : Answer.t * DB :=
  let existingAnswer :=
    find (fun a => (Answer.responseId a =? responseId)%string
                   && (Answer.questionId a =? questionId)%string)
         (answers d) in
  match existingAnswer with
  | Some existing =>
      (answer_update (Answer.id existing) value fileUrl existing,
       set_answers
         (map (answer_update (Answer.id existing) value fileUrl) (answers d)) d)
  | None =>
      let a := Answer.mk (uuid (seed d)) questionId responseId
                 (created value) (created fileUrl) in
      (a, set_seed (S (seed d)) (set_answers (answers d ++ [a]) d))
  end.

(** [submitAnswer], POST /api/responses/:responseId/answers.  The form of
    a response is a required relation; only its question rows are read. *)
Definition submitAnswer (d : DB) (responseId : string) (body : SubmitBody.t)
    (now : Z) : reply SubmitData.t * DB :=
  match find (fun r => (Response.id r =? responseId)%string)
             (responses d) with
  | None => (Failure 404 "Response not found", d)
  | Some response =>
      let form_questions := questions_asc d (Response.formId response) in
      match find (id_is (SubmitBody.questionId body)) form_questions with
      | None => (Failure 404 "Question not found in this form", d)
      | Some question =>
          let '(answer, d1) :=
            upsert_answer d responseId (Question.id question)
              (SubmitBody.value body) (SubmitBody.fileUrl body) in
          let currentQuestionIndex :=
            findIndex (id_is (SubmitBody.questionId body)) form_questions in
          let n := Z.of_nat (length form_questions) in
          let nextQuestion :=
            if (currentQuestionIndex <? n - 1)%Z
            then at_index form_questions (currentQuestionIndex + 1)
            else None in
          let isLastQuestion := (currentQuestionIndex =? n - 1)%Z in
          let d2 :=
            if isLastQuestion
            then set_responses
                   (map (response_complete responseId now) (responses d1)) d1
            else d1 in
          (Success 200 (SubmitData.mk answer nextQuestion isLastQuestion), d2)
      end
  end.

(** [getResponse], GET /api/responses/:id?respondentId=...  Reading the
    title of a missing form or question throws, and the error handler
    answers 500. *)
Definition getResponse (d : DB) (id : string) (respondentId : option string)
    : reply ResponseView.t :=
  match respondentId with
  | None => Failure 400 "Respondent ID is required"
  | Some rid =>
      if (rid =? "")%string then Failure 400 "Respondent ID is required"
      else
        match find (fun r => (Response.id r =? id)%string
                             && (Response.respondentId r =? rid)%string)
                   (responses d) with
        | None => Failure 404 "Response not found"
        | Some response =>
            let form := find (fun f => (Form.id f =? Response.formId response)%string)
                             (forms d) in
            let rows := filter (fun a => (Answer.responseId a =? Response.id response)%string)
                               (answers d) in
            let views :=
              all_some
                (map (fun a =>
                        match find (fun q => (Question.id q =? Answer.questionId a)%string)
                                   (questions d) with
                        | Some q =>
                            Some (AnswerView.mk (Answer.questionId a)
                                    (Question.title q) (Question.type q)
                                    (Answer.value a) (Answer.fileUrl a))
                        | None => None
                        end) rows) in
            match form, views with
            | Some f, Some vs =>
                Success 200
                  (ResponseView.mk (Response.id response)
                     (Response.respondentId response)
                     (Form.title f) (Form.description f)
                     (Response.isCompleted response)
                     (Response.startedAt response)
                     (Response.completedAt response) vs)
            | _, _ => Failure 500 "Cannot read properties of null"
            end
        end
  end.

(** *** The form controller *)

(** Draw an identifier. *)
Definition fresh (d : DB) : string * DB :=
  (uuid (seed d), set_seed (S (seed d)) d).

Definition create_theme (formId : string) (theme : ThemeBody.t) (d : DB) : DB :=
  let '(id, d) := fresh d in
  set_themes
    (themes d ++
     [Theme.mk id formId
        (or_string (ThemeBody.primaryColor theme) "#3b82f6")
        (or_string (ThemeBody.backgroundColor theme) "#f8fafc")
        (or_string (ThemeBody.fontFamily theme) "Inter, sans-serif")]) d.

Definition create_emails (settingsId : string) (emails : list string)
    (d : DB) : DB :=
  fold_left
    (fun d email =>
       let '(id, d) := fresh d in
       set_notificationEmails
         (notificationEmails d ++ [NotificationEmail.mk id email settingsId]) d)
    emails d.

(** The [formSettings.create] of both [createForm] and [updateForm]; only
    the latter passes the e-mails on. *)
Definition create_settings (formId : string) (settings : SettingsBody.t)
    (with_emails : bool) (d : DB) : DB :=
  let '(id, d) := fresh d in
  let d :=
    set_formSettings
      (formSettings d ++
       [FormSettings.mk id formId
          (or_bool (SettingsBody.requireSignIn settings) false)
          (or_bool (SettingsBody.limitOneResponsePerUser settings) false)
          (or_bool (SettingsBody.showProgressBar settings) true)
          (or_bool (SettingsBody.shuffleQuestions settings) false)
          (or_string (SettingsBody.confirmationMessage settings)
             "Thank you for your submission!")
          (Some (or_string (created (SettingsBody.redirectUrl settings)) ""))
          (or_bool (SettingsBody.notifyOnSubmission settings) false)]) d in
  match SettingsBody.notificationEmails settings with
  | Some emails => if with_emails then create_emails id emails d else d
  | None => d
  end.

(** [createForm], POST /api/forms *)
Definition createForm (d : DB) (userId : string) (body : CreateFormBody.t)
    : reply Form.t * DB :=
  let '(id, d) := fresh d in
  let form :=
    Form.mk id (CreateFormBody.title body)
      (created (CreateFormBody.description body))
      (or_bool (CreateFormBody.isPublished body) false) userId in
  let d := set_forms (forms d ++ [form]) d in
  let d := match CreateFormBody.theme body with
           | Some theme => create_theme id theme d
           | None => d
           end in
  let d := match CreateFormBody.settings body with
           | Some settings => create_settings id settings false d
           | None => d
           end in
  (Success 201 form, d).

(** [prisma.form.update({ where: { id },
      data: { title, description, isPublished: isPublished || false } })] *)
Definition form_update (id : string) (body : UpdateFormBody.t) (f : Form.t)
    : Form.t :=
  if (Form.id f =? id)%string
  then Form.mk (Form.id f)
         (assigned (UpdateFormBody.title body) (Form.title f))
         (updated (UpdateFormBody.description body) (Form.description f))
         (or_bool (UpdateFormBody.isPublished body) false)
         (Form.userId f)
  else f.

Definition theme_update (formId : string) (theme : ThemeBody.t) (t : Theme.t)
    : Theme.t :=
  if (Theme.formId t =? formId)%string
  then Theme.mk (Theme.id t) (Theme.formId t)
         (or_string (ThemeBody.primaryColor theme) "#3b82f6")
         (or_string (ThemeBody.backgroundColor theme) "#f8fafc")
         (or_string (ThemeBody.fontFamily theme) "Inter, sans-serif")
  else t.

Definition settings_update (formId : string) (settings : SettingsBody.t)
    (s : FormSettings.t) : FormSettings.t :=
  if (FormSettings.formId s =? formId)%string
  then FormSettings.mk (FormSettings.id s) (FormSettings.formId s)
         (assigned (SettingsBody.requireSignIn settings)
            (FormSettings.requireSignIn s))
         (assigned (SettingsBody.limitOneResponsePerUser settings)
            (FormSettings.limitOneResponsePerUser s))
         (assigned (SettingsBody.showProgressBar settings)
            (FormSettings.showProgressBar s))
         (assigned (SettingsBody.shuffleQuestions settings)
            (FormSettings.shuffleQuestions s))
         (assigned (SettingsBody.confirmationMessage settings)
            (FormSettings.confirmationMessage s))
         (updated (SettingsBody.redirectUrl settings)
            (FormSettings.redirectUrl s))
         (assigned (SettingsBody.notifyOnSubmission settings)
            (FormSettings.notifyOnSubmission s))
  else s.

(** [prisma.conditionalRule.createMany] *)
Definition create_rules (logicId : string) (rules : list RuleBody.t)
    (d : DB) : DB :=
  fold_left
    (fun d rule =>
       let '(id, d) := fresh d in
       set_conditionalRules
         (conditionalRules d ++
          [ConditionalRule.mk id logicId (RuleBody.questionId rule)
             (RuleBody.operator rule) (created (RuleBody.value rule))
             (match RuleBody.action rule with
              | Some a => a
              | None => "show"
              end)]) d)
    rules d.

(** [conditionalLogic.create({ data: { questionId, enabled: true } })]
    followed by its rules. *)
Definition create_logic (questionId : string) (logic : LogicBody.t) (d : DB)
    : DB :=
  let '(id, d) := fresh d in
  let d := set_conditionalLogics
             (conditionalLogics d ++ [ConditionalLogic.mk id questionId true])
             d in
  match LogicBody.rules logic with
  | Some rules => create_rules id rules d
  | None => d
  end.

(** The update of an existing question inside [updateForm]. *)
Definition question_update (question : QuestionEntry.t) (id : string)
    (q : Question.t) : Question.t :=
  if (Question.id q =? id)%string
  then Question.mk (Question.id q) (Question.formId q)
         (QuestionEntry.title question)
         (updated (QuestionEntry.description question) (Question.description q))
         (QuestionEntry.type question)
         (assigned (QuestionEntry.isRequired question) (Question.isRequired q))
         (Question.options q)
         (QuestionEntry.order question)
         (pick_validation (QuestionEntry.validation question))
  else q.

Definition options_update (options : option Json) (id : string)
    (q : Question.t) : Question.t :=
  if (Question.id q =? id)%string then Question.with_options options q else q.

(** The tri-state transition of the conditional logic of an existing
    question. *)
Definition update_logic (questionId : string) (logic : LogicBody.t) (d : DB)
    : DB :=
  let existingLogic :=
    find (fun l => (ConditionalLogic.questionId l =? questionId)%string)
         (conditionalLogics d) in
  match existingLogic, LogicBody.enabled logic with
  | Some existing, true =>
      let d := logic_enable (ConditionalLogic.id existing) true d in
      let d := delete_rules (ConditionalLogic.id existing) d in
      match LogicBody.rules logic with
      | Some rules => create_rules (ConditionalLogic.id existing) rules d
      | None => d
      end
  | None, true => create_logic questionId logic d
  | Some existing, false =>
      let d := logic_enable (ConditionalLogic.id existing) false d in
      delete_rules (ConditionalLogic.id existing) d
  | None, false => d
  end.

(** The body of [for (const question of questions)]. *)
Definition process_question (formId : string) (d : DB)
    (question : QuestionEntry.t) : DB :=
  if is_existing_id (QuestionEntry.id question) then
    let id := match QuestionEntry.id question with
              | Some s => s
              | None => ""
              end in
    match find (fun q => (Question.id q =? id)%string) (questions d) with
    | None => d
    | Some existingQuestion =>
        let d := set_questions
                   (map (question_update question id) (questions d)) d in
        let d :=
          if includes choice_types (QuestionEntry.type question)
             && truthy (QuestionEntry.options question)
          then set_questions
                 (map (options_update (QuestionEntry.options question) id)
                      (questions d)) d
          else d in
        match QuestionEntry.conditionalLogic question with
        | Some logic => update_logic id logic d
        | None => d
        end
    end
  else
    let '(id, d) := fresh d in
    let newQuestion :=
      Question.mk id formId (QuestionEntry.title question)
        (created (QuestionEntry.description question))
        (QuestionEntry.type question)
        (or_bool (QuestionEntry.isRequired question) false)
        (if includes choice_types (QuestionEntry.type question)
         then json_column (QuestionEntry.options question) else None)
        (QuestionEntry.order question)
        (pick_validation (QuestionEntry.validation question)) in
    let d := set_questions (questions d ++ [newQuestion]) d in
    match QuestionEntry.conditionalLogic question with
    | Some logic =>
        if LogicBody.enabled logic then create_logic id logic d else d
    | None => d
    end.

(** The question part of [updateForm]: every entry in turn, then the
    removal of the questions the payload no longer names. *)
Definition reconcile_questions (formId : string)
    (entries : list QuestionEntry.t) (d : DB) : DB :=
  let d := fold_left (process_question formId) entries d in
  let questionIds := update_ids entries in
  if (0 <? Z.of_nat (length questionIds))%Z
  then delete_questions
         (fun q => (Question.formId q =? formId)%string
                   && negb (includes questionIds (Question.id q))) d
  else d.

(** The theme and settings part of [updateForm]. *)
Definition reconcile_theme (id : string) (existing : option Theme.t)
    (theme : option ThemeBody.t) (d : DB) : DB :=
  match theme, existing with
  | Some theme, Some _ => set_themes (map (theme_update id theme) (themes d)) d
  | Some theme, None => create_theme id theme d
  | None, _ => d
  end.

Definition reconcile_settings (id : string) (existing : option FormSettings.t)
    (settings : option SettingsBody.t) (d : DB) : DB :=
  match settings, existing with
  | Some settings, Some old =>
      let d := set_formSettings
                 (map (settings_update id settings) (formSettings d)) d in
      match SettingsBody.notificationEmails settings with
      | Some emails =>
          let d := set_notificationEmails
                     (filter (fun e => negb (NotificationEmail.formSettingsId e
                                             =? FormSettings.id old)%string)
                             (notificationEmails d)) d in
          if (0 <? Z.of_nat (length emails))%Z
          then create_emails (FormSettings.id old) emails d else d
      | None => d
      end
  | Some settings, None => create_settings id settings true d
  | None, _ => d
  end.

(** The first writes of the transaction of [updateForm]: the fields of the
    form, then its theme and its settings, which were read with the form. *)
Definition reconcile_fields (d : DB) (id : string) (body : UpdateFormBody.t)
    : DB :=
  let existingTheme :=
    find (fun t => (Theme.formId t =? id)%string) (themes d) in
  let existingSettings :=
    find (fun s => (FormSettings.formId s =? id)%string) (formSettings d) in
  let d := set_forms (map (form_update id body) (forms d)) d in
  let d := reconcile_theme id existingTheme (UpdateFormBody.theme body) d in
  reconcile_settings id existingSettings (UpdateFormBody.settings body) d.

(** [order Int] of the schema is a 32-bit column: a [question.create] or
    [question.update] whose [order] lies outside it is refused. *)
Definition fits_Int (order : Z) : bool :=
  (-2147483648 <=? order)%Z && (order <=? 2147483647)%Z.

(** Whether the body of the loop writes the [order] of the entry: always for
    an entry taken for a new question, and for an entry taken for an existing
    one when [findUnique] finds the row. *)
Definition writes_order (d : DB) (question : QuestionEntry.t) : bool :=
  if is_existing_id (QuestionEntry.id question) then
    let id := match QuestionEntry.id question with
              | Some s => s
              | None => ""
              end in
    match find (fun q => (Question.id q =? id)%string) (questions d) with
    | None => false
    | Some existingQuestion => true
    end
  else true.

(** Whether every write of the loop goes through: the entries are taken in
    turn, each on the rows its predecessors left. *)
Fixpoint accepted (formId : string) (entries : list QuestionEntry.t) (d : DB)
    : bool :=
  match entries with
  | [] => true
  | question :: rest =>
      (negb (writes_order d question) || fits_Int (QuestionEntry.order question))
      && accepted formId rest (process_question formId d question)
  end.

(** Whether the transaction of [updateForm] commits. *)
Definition commits (d : DB) (id : string) (body : UpdateFormBody.t) : bool :=
  match UpdateFormBody.questions body with
  | Some entries => accepted id entries (reconcile_fields d id body)
  | None => true
  end.

(** [updateForm], PUT /api/forms/:id.  The writes run in one interactive
    transaction: when one of them is refused the transaction is rolled back,
    nothing is written and the error handler answers 500. *)
Definition updateForm (d : DB) (id userId : string) (body : UpdateFormBody.t)
    : reply (option FormView.t) * DB :=
  match find (fun f => (Form.id f =? id)%string
                       && (Form.userId f =? userId)%string) (forms d) with
  | None => (Failure 404 "Form not found", d)
  | Some existingForm =>
      let fields := reconcile_fields d id body in
      match UpdateFormBody.questions body with
      | Some entries =>
          if accepted id entries fields
          then
            let d := reconcile_questions id entries fields in
            (Success 200 (loadForm d id), d)
          else (Failure 500 "Value out of range for the type", d)
      | None => (Success 200 (loadForm fields id), fields)
      end
  end.

(** [publishForm], PUT /api/forms/:id/publish *)
Definition publishForm (d : DB) (id userId : string) : reply Form.t * DB :=
  match find (fun f => (Form.id f =? id)%string
                       && (Form.userId f =? userId)%string) (forms d) with
  | None => (Failure 404 "Form not found", d)
  | Some existingForm =>
      if (Z.of_nat (length (questions_of d (Form.id existingForm))) =? 0)%Z
      then (Failure 400 "Cannot publish a form with no questions", d)
      else
        let publish f :=
          if (Form.id f =? id)%string
          then Form.mk (Form.id f) (Form.title f) (Form.description f) true
                 (Form.userId f)
          else f in
        (Success 200 (publish existingForm),
         set_forms (map publish (forms d)) d)
  end.

(** [deleteForm], DELETE /api/forms/:id *)
Definition deleteForm (d : DB) (id userId : string) : reply unit * DB :=
  match find (fun f => (Form.id f =? id)%string
                       && (Form.userId f =? userId)%string) (forms d) with
  | None => (Failure 404 "Form not found", d)
  | Some existingForm => (Success 200 tt, delete_form id d)
  end.

Definition create_visit (formId : string)
    (ipAddress userAgent referrer : option string) (d : DB) : DB :=
  let '(id, d) := fresh d in
  set_formVisits
    (formVisits d ++ [FormVisit.mk id formId ipAddress userAgent referrer]) d.

(** [getFormToFill], GET /api/forms/:id/fill *)
Definition getFormToFill (d : DB) (id : string)
    (ipAddress userAgent referrer : option string)
    : reply FormView.t * DB :=
  match loadForm d id with
  | None => (Failure 404 "Form not found", d)
  | Some view =>
      if negb (Form.isPublished (FormView.form view))
      then (Failure 403 "This form is not published and cannot be filled", d)
      else
        (Success 200
           (FormView.mk (FormView.form view) (FormView.theme view) None
              (FormView.questions view)),
         create_visit id ipAddress userAgent referrer d)
  end.

(** [trackFormVisit], POST /api/forms/:id/visit *)
Definition trackFormVisit (d : DB) (id : string)
    (ipAddress userAgent referrer : option string) : reply unit * DB :=
  match find (fun f => (Form.id f =? id)%string && Form.isPublished f)
             (forms d) with
  | None => (Failure 404 "Form not found or not published", d)
  | Some form =>
      (Success 200 tt, create_visit id ipAddress userAgent referrer d)
  end.

(** [getFormAnalytics], GET /api/forms/:id/analytics *)
Definition getFormAnalytics (d : DB) (id userId : string)
    : reply Analytics.t :=
  match find (fun f => (Form.id f =? id)%string
                       && (Form.userId f =? userId)%string) (forms d) with
  | None => Failure 404 "Form not found"
  | Some form =>
      let visitsCount :=
        length (filter (fun v => (FormVisit.formId v =? id)%string)
                       (formVisits d)) in
      let responses :=
        filter (fun r => (Response.formId r =? id)%string) (responses d) in
      let responsesCount := length responses in
      let completed := length (filter Response.isCompleted responses) in
      let completionRate :=
        if (0 <? Z.of_nat (length responses))%Z
        then (number completed / number (length responses) * 100)%float
        else 0%float in
      let questions := questions_asc d id in
      let questionsWithDropoff :=
        match questions with
        | [] => []
        | first :: _ =>
            let firstQuestionResponses := count_answers d first in
            map (fun q =>
                   QuestionStat.mk (Question.id q) (Question.title q)
                     (Question.type q) (count_answers d q)
                     (if (0 <? Z.of_nat firstQuestionResponses)%Z
                      then ((number firstQuestionResponses
                             - number (count_answers d q))
                            / number firstQuestionResponses * 100)%float
                      else 0%float))
                questions
        end in
      Success 200
        (Analytics.mk visitsCount responsesCount
           (Math_round (completionRate * 100) / 100)%float
           questionsWithDropoff)
  end.

(** *** The question controller *)

(** [createQuestion], POST /api/forms/:formId/questions.  [title] and
    [type] are required columns: Prisma rejects a [create] without them
    and the error handler answers 500.  The new order is one more than the
    highest stored one, taken to fit the column: the [create] after a
    stored order 2147483647, which the database refuses, is outside what
    is followed here. *)
Definition createQuestion (d : DB) (formId userId : string)
    (body : QuestionBody.t) : reply Question.t * DB :=
  match find (fun f => (Form.id f =? formId)%string
                       && (Form.userId f =? userId)%string) (forms d) with
  | None => (Failure 404 "Form not found", d)
  | Some form =>
      let highestOrder :=
        at_index (orderBy (fun q => (- Question.order q)%Z)
                          (questions_of d formId)) 0 in
      let nextOrder := match highestOrder with
                       | Some q => (Question.order q + 1)%Z
                       | None => 0%Z
                       end in
      match QuestionBody.title body, QuestionBody.type body with
      | Some title, Some type =>
          let '(id, d) := fresh d in
          let question :=
            Question.mk id formId title
              (created (QuestionBody.description body)) type
              (or_bool (QuestionBody.isRequired body) false)
              (json_or (QuestionBody.options body) None)
              nextOrder
              (json_or (QuestionBody.validation body) None) in
          (Success 201 question, set_questions (questions d ++ [question]) d)
      | _, _ => (Failure 500 "Invalid prisma.question.create() invocation", d)
      end
  end.

(** [updateQuestion], PUT /api/forms/:formId/questions/:id *)
Definition updateQuestion (d : DB) (formId id userId : string)
    (body : QuestionBody.t) : reply Question.t * DB :=
  match find (fun f => (Form.id f =? formId)%string
                       && (Form.userId f =? userId)%string) (forms d) with
  | None => (Failure 404 "Form not found", d)
  | Some form =>
      match find (fun q => (Question.id q =? id)%string
                           && (Question.formId q =? formId)%string)
                 (questions d) with
      | None => (Failure 404 "Question not found", d)
      | Some existingQuestion =>
          let update q :=
            if (Question.id q =? id)%string
            then Question.mk (Question.id q) (Question.formId q)
                   (assigned (QuestionBody.title body) (Question.title q))
                   (updated (QuestionBody.description body)
                      (Question.description q))
                   (assigned (QuestionBody.type body) (Question.type q))
                   (assigned (QuestionBody.isRequired body)
                      (Question.isRequired existingQuestion))
                   (json_or (QuestionBody.options body)
                      (Question.options existingQuestion))
                   (Question.order q)
                   (json_or (QuestionBody.validation body)
                      (Question.validation existingQuestion))
            else q in
          (Success 200 (update existingQuestion),
           set_questions (map update (questions d)) d)
      end
  end.

(** [deleteQuestion], DELETE /api/forms/:formId/questions/:id.  The delete
    and each [update] of the renumbering are awaited one after the other,
    outside any transaction; the orders written are taken to fit the
    column. *)
Definition deleteQuestion (d : DB) (formId id userId : string)
    : reply unit * DB :=
  match find (fun f => (Form.id f =? formId)%string
                       && (Form.userId f =? userId)%string) (forms d) with
  | None => (Failure 404 "Form not found", d)
  | Some form =>
      match find (fun q => (Question.id q =? id)%string
                           && (Question.formId q =? formId)%string)
                 (questions d) with
      | None => (Failure 404 "Question not found", d)
      | Some existingQuestion =>
          let d := delete_questions (fun q => (Question.id q =? id)%string) d in
          let remainingQuestions :=
            orderBy Question.order
              (filter (fun q => (Question.formId q =? formId)%string
                                && (Question.order existingQuestion
                                    <? Question.order q)%Z)
                      (questions d)) in
          (Success 200 tt,
           set_questions
             (renumber (Question.order existingQuestion) 0
                remainingQuestions (questions d)) d)
      end
  end.

(** [reorderQuestions], PUT /api/forms/:formId/questions/reorder.  The
    updates run as one transaction: an [update] of a row that does not
    exist throws, nothing is written and the error handler answers 500.
    The orders sent are taken to fit the column. *)
Definition reorderQuestions (d : DB) (formId userId : string)
    (items : list (string * Z)) : reply unit * DB :=
  match find (fun f => (Form.id f =? formId)%string
                       && (Form.userId f =? userId)%string) (forms d) with
  | None => (Failure 404 "Form not found", d)
  | Some form =>
      if forallb (fun item => includes (map Question.id (questions d))
                                       (fst item)) items
      then (Success 200 tt,
            set_questions
              (fold_left (fun rows item =>
                            map (order_update (fst item) (snd item)) rows)
                         items (questions d)) d)
      else (Failure 500 "Record to update not found", d)
  end.

End Controllers.

(** ** Further handlers and middleware *)

Module ResponseRow.
(** One element of the reply of [getFormResponses]; [answers] is the object
    keyed by question title. *)
Record t : Type := mk {
  id : string;
  respondentId : string;
  isCompleted : bool;
  startedAt : Z;
  completedAt : option Z;
  answers : list (string * (option string * string))
}.
End ResponseRow.

(** [obj[key] = cell] on a plain object, kept as the list of its own
    properties in order of first assignment (integer-like keys, which
    JavaScript enumerates first, are not moved).  Assigning to [__proto__]
    sets the prototype and adds no property. *)
Fixpoint set_property {V : Type} (key : string) (cell : V)
    (obj : list (string * V)) : list (string * V) :=
  match obj with
  | [] => if (key =? "__proto__")%string then [] else [(key, cell)]
  | (k, v) :: rest =>
      if (key =? "__proto__")%string then obj
      else if (k =? key)%string then (k, cell) :: rest
           else (k, v) :: set_property key cell rest
  end.

(** [obj[key]] on own properties. *)
Fixpoint get_property {V : Type} (key : string) (obj : list (string * V))
    : option V :=
  match obj with
  | [] => None
  | (k, v) :: rest => if (k =? key)%string then Some v
                      else get_property key rest
  end.

(** The answers of a response joined with their questions
    ([include: { answers: { include: { question: true } } }]); a missing
    question is [None]. *)
Definition answers_with_question (d : DB) (responseId : string)
    : list (Answer.t * option Question.t) :=
  map (fun a => (a, find (fun q => (Question.id q =? Answer.questionId a)%string)
                         (questions d)))
      (filter (fun a => (Answer.responseId a =? responseId)%string)
              (answers d)).

(** [response.answers.forEach(answer => { answersMap[answer.question.title]
      = { value, type } })]; reading the title of a missing question
    throws. *)
Fixpoint answersMap (rows : list (Answer.t * option Question.t))
    (obj : list (string * (option string * string)))
    : option (list (string * (option string * string))) :=
  match rows with
  | [] => Some obj
  | (a, Some q) :: rest =>
      answersMap rest
        (set_property (Question.title q) (Answer.value a, Question.type q) obj)
  | (_, None) :: _ => None
  end.

(** [getForm], GET /api/forms/:id: the form of the caller with its theme,
    settings, questions and number of responses. *)
Definition getForm (d : DB) (id userId : string)
    : reply (FormView.t * nat) :=
  match find (fun f => (Form.id f =? id)%string
                       && (Form.userId f =? userId)%string) (forms d) with
  | None => Failure 404 "Form not found"
  | Some form =>
      Success 200
        (FormView.mk form
           (find (fun t => (Theme.formId t =? Form.id form)%string) (themes d))
           (match find (fun s => (FormSettings.formId s =? Form.id form)%string)
                       (formSettings d) with
            | Some s =>
                Some (s, filter (fun e => (NotificationEmail.formSettingsId e
                                           =? FormSettings.id s)%string)
                                (notificationEmails d))
            | None => None
            end)
           (map (fun q =>
                   (q, match find (fun l => (ConditionalLogic.questionId l
                                             =? Question.id q)%string)
                                  (conditionalLogics d) with
                       | Some l =>
                           Some (l, filter (fun r =>
                                              (ConditionalRule.conditionalLogicId r
                                               =? ConditionalLogic.id l)%string)
                                           (conditionalRules d))
                       | None => None
                       end))
                (questions_asc d (Form.id form))),
         length (filter (fun r => (Response.formId r =? Form.id form)%string)
                        (responses d)))
  end.

(** [getFormResponseCount], GET /api/forms/:id/responses/count *)
Definition getFormResponseCount (d : DB) (id userId : string) : reply nat :=
  match find (fun f => (Form.id f =? id)%string
                       && (Form.userId f =? userId)%string) (forms d) with
  | None => Failure 404 "Form not found"
  | Some form =>
      Success 200
        (length (filter (fun r => (Response.formId r =? id)%string)
                        (responses d)))
  end.

(** [getFormResponses], GET /api/forms/:id/responses: the responses of the
    form, latest start first, each with its answers keyed by question
    title.  An answer whose question is missing makes the handler throw, and
    the error handler answers 500. *)
Definition getFormResponses (d : DB) (id userId : string)
    : reply (list ResponseRow.t) :=
  match find (fun f => (Form.id f =? id)%string
                       && (Form.userId f =? userId)%string) (forms d) with
  | None => Failure 404 "Form not found"
  | Some form =>
      let responses :=
        orderBy (fun r => (- Response.startedAt r)%Z)
                (filter (fun r => (Response.formId r =? id)%string)
                        (responses d)) in
      match all_some
              (map (fun response =>
                      match answersMap
                              (answers_with_question d (Response.id response))
                              [] with
                      | Some obj =>
                          Some (ResponseRow.mk (Response.id response)
                                  (Response.respondentId response)
                                  (Response.isCompleted response)
                                  (Response.startedAt response)
                                  (Response.completedAt response) obj)
                      | None => None
                      end) responses) with
      | Some formattedResponses => Success 200 formattedResponses
      | None => Failure 500 "Cannot read properties of null"
      end
  end.

(** *** The error handler *)

Module Err.
(** An error object as [errorHandler] reads it. *)
Record t : Type := mk {
  message : string;
  statusCode : option Z;
  errors : option Json;
  stack : option string
}.
End Err.

Module ErrorReply.
(** [res.status(status).json({ status: 'error', message, errors, stack })];
    a key that is not set is [None]. *)
Record t : Type := mk {
  status : Z;
  message : string;
  errors : option Json;
  stack : option string
}.
End ErrorReply.

(** [errorHandler] of [middleware/errorHandler.js]; [NODE_ENV] is the
    environment variable, when set. *)
Definition errorHandler (NODE_ENV : option string) (err : Err.t)
    : ErrorReply.t :=
  let production :=
    match NODE_ENV with
    | Some env => (env =? "production")%string
    | None => false
    end in
  let statusCode :=
    match Err.statusCode err with
    | Some z => if (z =? 0)%Z then 500%Z else z
    | None => 500%Z
    end in
  ErrorReply.mk statusCode
    (if production && (statusCode =? 500)%Z
     then "An unexpected error occurred" else Err.message err)
    (if truthy (Err.errors err) then Err.errors err else None)
    (if negb production then Err.stack err else None).

(** *** The authentication middleware *)

Module User.
(** [select: { id: true, email: true, name: true }] *)
Record t : Type := mk {
  id : string;
  email : string;
  name : option string
}.
End User.

(** What [verifyToken] does with a token: the decoded payload with its
    [userId], if any, or one of the errors it throws. *)
Inductive verification : Type :=
| Payload (userId : option string)
| JsonWebTokenError
| TokenExpiredError
| OtherError.

(** Where [authenticate] ends: [next()] with [req.user] set, a 401 reply,
    or [next(error)]. *)
Inductive authentication : Type :=
| Next (user : User.t)
| Unauthorized (message : string)
| NextError.

(** The first segment of [s.split(' ')] and the segments after it. *)
Fixpoint split_space_from (s : string) : string * list string :=
  match s with
  | EmptyString => (EmptyString, [])
  | String c rest =>
      let '(head, tail) := split_space_from rest in
      if Ascii.eqb c (Ascii.ascii_of_nat 32) then (EmptyString, head :: tail)
      else (String c head, tail)
  end.

(** [s.split(' ')] *)
Definition split_space (s : string) : list string :=
  fst (split_space_from s) :: snd (split_space_from s).

(** [authenticate] of [middleware/auth.js]; [verifyToken] and the lookup of
    the user row are the collaborators it calls. *)
Definition authenticate (verifyToken : string -> verification)
    (findUser : string -> option User.t) (authorization : option string)
    : authentication :=
  match authorization with
  | None => Unauthorized "Authentication required"
  | Some authHeader =>
      if (authHeader =? "")%string || negb (String.prefix "Bearer " authHeader)
      then Unauthorized "Authentication required"
      else
        match nth_error (split_space authHeader) 1 with
        | None => Unauthorized "Invalid token format"
        | Some token =>
            if (token =? "")%string then Unauthorized "Invalid token format"
            else
              match verifyToken token with
              | Payload (Some userId) =>
                  if (userId =? "")%string then Unauthorized "Invalid token"
                  else match findUser userId with
                       | Some user => Next user
                       | None => Unauthorized "User not found"
                       end
              | Payload None => Unauthorized "Invalid token"
              | JsonWebTokenError | TokenExpiredError =>
                  Unauthorized "Invalid or expired token"
              | OtherError => NextError
              end
        end
  end.

(** ** The life of a store *)

(** One request to a handler that may write. *)
Inductive request : Type :=
| CreateForm (userId : string) (body : CreateFormBody.t)
| UpdateForm (id userId : string) (body : UpdateFormBody.t)
| DeleteForm (id userId : string)
| PublishForm (id userId : string)
| GetFormToFill (id : string) (ipAddress userAgent referrer : option string)
| TrackFormVisit (id : string) (ipAddress userAgent referrer : option string)
| CreateQuestion (formId userId : string) (body : QuestionBody.t)
| UpdateQuestion (formId id userId : string) (body : QuestionBody.t)
| DeleteQuestion (formId id userId : string)
| ReorderQuestions (formId userId : string) (items : list (string * Z))
| StartResponse (formId : string)
| SubmitAnswer (responseId : string) (body : SubmitBody.t).

(** The store after a request served at time [now]. *)
Definition handle (uuid : nat -> string) (d : DB) (now : Z) (r : request)
    : DB :=
  match r with
  | CreateForm userId body => snd (createForm uuid d userId body)
  | UpdateForm id userId body => snd (updateForm uuid d id userId body)
  | DeleteForm id userId => snd (deleteForm d id userId)
  | PublishForm id userId => snd (publishForm d id userId)
  | GetFormToFill id ip ua ref => snd (getFormToFill uuid d id ip ua ref)
  | TrackFormVisit id ip ua ref => snd (trackFormVisit uuid d id ip ua ref)
  | CreateQuestion formId userId body =>
      snd (createQuestion uuid d formId userId body)
  | UpdateQuestion formId id userId body =>
      snd (updateQuestion d formId id userId body)
  | DeleteQuestion formId id userId => snd (deleteQuestion d formId id userId)
  | ReorderQuestions formId userId items =>
      snd (reorderQuestions d formId userId items)
  | StartResponse formId => snd (startResponse uuid d formId now)
  | SubmitAnswer responseId body => snd (submitAnswer uuid d responseId body now)
  end.

(** The stores that requests can build, with the time of the last request:
    a store without responses and answers, then any requests, served at
    clock readings that never go back. *)
Inductive reachable (uuid : nat -> string) : Z -> DB -> Prop :=
| reachable_init (t : Z) (d : DB) :
    responses d = [] -> answers d = [] -> reachable uuid t d
| reachable_step (t : Z) (d : DB) (now : Z) (r : request) :
    reachable uuid t d -> (t <= now)%Z ->
    reachable uuid now (handle uuid d now r).

(** The rows of the answer a response holds for a question. *)
Definition answers_for (d : DB) (responseId questionId : string)
    : list Answer.t :=
  filter (fun a => (Answer.responseId a =? responseId)%string
                   && (Answer.questionId a =? questionId)%string)
         (answers d).

(** Orders that are [0, 1, ..., N-1] in some arrangement. *)
Definition dense (orders : list Z) : Prop :=
  Permutation orders (map Z.of_nat (seq 0 (length orders))).

(** ** The Conditional Logic Engine of the specification *)

Module Engine.

(** The answers collected so far: question id and submitted value. *)
Definition answers_so_far (d : DB) (responseId : string)
    : list (string * option string) :=
  map (fun a => (Answer.questionId a, Answer.value a))
      (filter (fun a => (Answer.responseId a =? responseId)%string)
              (answers d)).

Fixpoint lookup (questionId : string) (m : list (string * option string))
    : option (option string) :=
  match m with
  | [] => None
  | (k, v) :: r => if (k =? questionId)%string then Some v
                   else lookup questionId r
  end.

Definition same (a b : option string) : bool :=
  match a, b with
  | Some x, Some y => (x =? y)%string
  | None, None => true
  | _, _ => false
  end.

(** Modelled from the spec: the rule evaluation of section 4.1, which no
    source file implements.  A rule on a question that has no answer yet
    is not satisfied; the operators are [equals] and [notEquals]. *)
Definition satisfied (m : list (string * option string))
    (rule : ConditionalRule.t) : bool :=
  match lookup (ConditionalRule.targetQuestionId rule) m with
  | None => false
  | Some v =>
      if (ConditionalRule.operator rule =? "equals")%string
      then same v (ConditionalRule.value rule)
      else if (ConditionalRule.operator rule =? "notEquals")%string
           then negb (same v (ConditionalRule.value rule))
           else false
  end.

(** Modelled from the spec: visibility as in section 4.1, which no source
    file implements.  A question without conditional logic, or with
    disabled logic, is visible; with enabled logic it is visible when all
    its [show] rules are satisfied (a rule with another action does
    nothing). *)
Definition visible (d : DB) (m : list (string * option string))
    (q : Question.t) : bool :=
  match find (fun l => (ConditionalLogic.questionId l =? Question.id q)%string)
             (conditionalLogics d) with
  | None => true
  | Some l =>
      if ConditionalLogic.enabled l
      then forallb (satisfied m)
             (filter (fun r => (ConditionalRule.conditionalLogicId r
                                =? ConditionalLogic.id l)%string
                               && (ConditionalRule.action r =? "show")%string)
                     (conditionalRules d))
      else true
  end.

(** Modelled from the spec: the next question as section 4.2 words it,
    the first visible question of the ascending list strictly after the
    order of [current]; [submitAnswer] has its own way. *)
Definition nextQuestion (d : DB) (responseId : string)
    (form_questions : list Question.t) (current : Question.t)
    : option Question.t :=
  find (fun q => (Question.order current <? Question.order q)%Z
                 && visible d (answers_so_far d responseId) q)
       form_questions.

(** Modelled from the spec: the first question as section 4.2 words it,
    the first question visible with no answers so far; [startResponse] has
    its own way. *)
Definition firstQuestion (d : DB) (form_questions : list Question.t)
    : option Question.t :=
  find (visible d []) form_questions.

End Engine.

(** ** The claims of the specification that the controllers do not meet *)

(** Section 4.2, next question: what [submitAnswer] returns is what the
    engine selects, and [isLastQuestion] says that nothing is selected. *)
Definition next_question_as_specified (uuid : nat -> string) (d : DB)
    (responseId : string) (body : SubmitBody.t) (now : Z) : Prop :=
  forall response question data d',
    find (fun r => (Response.id r =? responseId)%string) (responses d)
      = Some response ->
    find (id_is (SubmitBody.questionId body))
         (questions_asc d (Response.formId response)) = Some question ->
    submitAnswer uuid d responseId body now = (Success 200 data, d') ->
    SubmitData.nextQuestion data
      = Engine.nextQuestion d' responseId
          (questions_asc d (Response.formId response)) question
    /\ (SubmitData.isLastQuestion data = true
        <-> SubmitData.nextQuestion data = None).

(** Section 4.2, start: the first question returned is the first one the
    engine shows with no answers. *)
Definition first_question_as_specified (uuid : nat -> string) (d : DB)
    (formId : string) (now : Z) : Prop :=
  forall data d',
    startResponse uuid d formId now = (Success 201 data, d') ->
    StartData.firstQuestion data
      = Engine.firstQuestion d (questions_asc d formId).

(** Section 4.3 step 4: after [updateForm] with a [questions] array, every
    question left in the form is named by the update identifiers of the
    batch. *)
Definition removal_as_specified (uuid : nat -> string) (d : DB)
    (id userId : string) (body : UpdateFormBody.t) : Prop :=
  forall entries view d',
    UpdateFormBody.questions body = Some entries ->
    updateForm uuid d id userId body = (Success 200 view, d') ->
    forall q, In q (questions d') -> Question.formId q = id ->
              In (Question.id q) (update_ids entries).

(** Section 4.2, upsert: after [submitAnswer] the pair has one answer, and it
    holds the value and the file reference of the call (nothing where the
    call had none). *)
Definition overwrite_as_specified (uuid : nat -> string) (d : DB)
    (responseId : string) (body : SubmitBody.t) (now : Z) : Prop :=
  forall data d',
    submitAnswer uuid d responseId body now = (Success 200 data, d') ->
    exists a,
      answers_for d' responseId (Answer.questionId (SubmitData.answer data))
        = [a]
      /\ Answer.value a = created (SubmitBody.value body)
      /\ Answer.fileUrl a = created (SubmitBody.fileUrl body).

(** ** Sample data *)

Module Sample.

Definition uuid (n : nat) : string :=
  "id-" ++ NilEmpty.string_of_uint (Nat.to_uint n).

Definition text (id : string) (formId : string) (order : Z) : Question.t :=
  Question.mk id formId id None "shortText" false None order None.

Definition answer (questionId : string) (value fileUrl : field string)
    : SubmitBody.t :=
  SubmitBody.mk (Some questionId) value fileUrl.

(** Form F of the scenario: Q1, then Q2 shown if Q1 is "yes", then Q3. *)
Definition F : Form.t := Form.mk "F" "Survey" None true "owner".
Definition Q1 : Question.t := text "Q1" "F" 0.
Definition Q2 : Question.t := text "Q2" "F" 1.
Definition Q3 : Question.t := text "Q3" "F" 2.
Definition Q4 : Question.t := text "Q4" "F" 3.

Definition scenario : DB :=
  mkDB [F] [] [] [] [Q1; Q2; Q3]
       [ConditionalLogic.mk "L2" "Q2" true]
       [ConditionalRule.mk "R1" "L2" "Q1" "equals" (Some "yes") "show"]
       [] [] [] 0.

(** The scenario after [StartResponse(F)]: the response is ["id-1"]. *)
Definition started : DB := snd (startResponse uuid scenario "F" 1000).

(** The scenario after Q1 is then answered "a" with the file "u". *)
Definition answered : DB :=
  snd (submitAnswer uuid started "id-1" (answer "Q1" (Val "a") (Val "u")) 1001).

(** The scenario after Q3, the last question, is answered right after the
    start. *)
Definition finished : DB :=
  snd (submitAnswer uuid started "id-1" (answer "Q3" (Val "x") Undefined) 1002).

(** A form whose first question waits for an answer to the second. *)
Definition gated : DB :=
  mkDB [F] [] [] [] [Q1; Q2]
       [ConditionalLogic.mk "L1" "Q1" true]
       [ConditionalRule.mk "R1" "L1" "Q2" "equals" (Some "yes") "show"]
       [] [] [] 0.

(** Four questions at orders 0 to 3, stored out of order. *)
Definition four : DB :=
  mkDB [F] [] [] [] [Q3; Q1; Q4; Q2] [] [] [] [] [] 0.

(** An update request that names no question. *)
Definition no_questions : UpdateFormBody.t :=
  UpdateFormBody.mk None Undefined None None None (Some []).

(** An update request that keeps the question ["question-1"] only. *)
Definition keep_one : UpdateFormBody.t :=
  UpdateFormBody.mk None Undefined None None None
    (Some [QuestionEntry.mk (Some "question-1") "shortText" "One" Undefined
             None 0 None None None]).

(** A draft with the two questions ["question-1"] and ["question-2"],
    the second with conditional logic. *)
Definition draft : DB :=
  mkDB [Form.mk "F" "Survey" None true "owner"] [] [] []
       [text "question-1" "F" 0; text "question-2" "F" 1]
       [ConditionalLogic.mk "L2" "question-2" true]
       [ConditionalRule.mk "R1" "L2" "question-1" "equals" (Some "yes") "show"]
       [] [] [] 0.

(** Form F with ten visits and four responses, two of them completed; Q1
    has three answers, Q2 one and Q3 two. *)
Definition polled : DB :=
  mkDB [F] [] [] [] [Q1; Q2; Q3] [] []
       [Response.mk "r1" "F" "a" true 10 (Some 20%Z);
        Response.mk "r2" "F" "b" false 11 None;
        Response.mk "r3" "F" "c" true 12 (Some 30%Z);
        Response.mk "r4" "F" "d" false 13 None]
       [Answer.mk "a1" "Q1" "r1" (Some "yes") None;
        Answer.mk "a2" "Q2" "r1" (Some "x") None;
        Answer.mk "a3" "Q3" "r1" (Some "y") None;
        Answer.mk "a4" "Q1" "r2" (Some "no") None;
        Answer.mk "a5" "Q1" "r3" (Some "no") None;
        Answer.mk "a6" "Q3" "r3" (Some "z") None]
       (map (fun n => FormVisit.mk (uuid n) "F" None None None) (seq 0 10))
       10.

(** A request to create a published form. *)
Definition published_form : CreateFormBody.t :=
  CreateFormBody.mk "Survey" Undefined (Some true) None None.

(** A store with one unpublished form that has no question, and an update
    request that sets its [isPublished] flag. *)
Definition blank : DB :=
  mkDB [Form.mk "E" "Empty" None false "owner"] [] [] [] [] [] [] [] [] [] 0.

Definition publish_by_update : UpdateFormBody.t :=
  UpdateFormBody.mk None Undefined (Some true) None None None.

(** The published form F with the single question Q1. *)
Definition single : DB := mkDB [F] [] [] [] [Q1] [] [] [] [] [] 0.

End Sample.

(** ** Predicates on stores and lists *)

(** Ascending in the key. *)
Definition ascending {A : Type} (key : A -> Z) : list A -> Prop :=
  StronglySorted (fun a b => (key a <= key b)%Z).

(** The tables of forms, responses and answers are the same in both
    stores. *)
Definition same_core (d d' : DB) : Prop :=
  forms d' = forms d /\ responses d' = responses d /\ answers d' = answers d.

(** [l'] is [l] with some rows deleted. *)
Definition kept {A : Type} (l l' : list A) : Prop :=
  exists p, l' = filter p l.

(** Responses and answers are as before, up to deleted rows. *)
Definition quiet (d d' : DB) : Prop :=
  kept (responses d) (responses d') /\ kept (answers d) (answers d').

(** At most one answer row for a response and a question. *)
Definition one_answer_per_pair (d : DB) : Prop :=
  forall responseId questionId,
    length (answers_for d responseId questionId) <= 1.

(** No response started after [t]; a completed response has a completion
    time, not before its start. *)
Definition timely (t : Z) (d : DB) : Prop :=
  forall r, In r (responses d) ->
    (Response.startedAt r <= t)%Z
    /\ (Response.isCompleted r = true ->
        exists c, Response.completedAt r = Some c
                  /\ (Response.startedAt r <= c)%Z).

(** [k] hundredths is a value of the percentage [100 * c / n] rounded to
    two decimals: [k] is an integer nearest to [10000 * c / n]. *)
Definition nearest_hundredths (c n : nat) (k : Z) : bool :=
  (Z.abs (2 * k * Z.of_nat n - 20000 * Z.of_nat c) <=? Z.of_nat n)%Z.

(** The completion rate that [getFormAnalytics] reports for [c] completed
    responses out of [n]. *)
Definition reported_rate (c n : nat) : float :=
  (Math_round (number c / number n * 100 * 100) / 100)%float.

(** Every respondent identifier in the store is one the generator has
    handed out. *)
Definition drawn (uuid : nat -> string) (d : DB) : Prop :=
  forall r, In r (responses d) ->
    exists n, n < seed d /\ Response.respondentId r = uuid n.

(** Position of the first occurrence of an identifier. *)
Fixpoint position (s : string) (l : list string) : option nat :=
  match l with
  | [] => None
  | x :: r => if (x =? s)%string then Some 0 else option_map S (position s r)
  end.

(** A boolean test that the strings of a list are pairwise different. *)
Fixpoint distinct (l : list string) : bool :=
  match l with
  | [] => true
  | x :: r => negb (includes r x) && distinct r
  end.

(** The status code of a reply. *)
Definition status {A : Type} (r : reply A) : nat :=
  match r with
  | Success code _ => code
  | Failure code _ => code
  end.

(** The status code a request is answered with. *)
Definition answered_with (uuid : nat -> string) (d : DB) (now : Z)
    (r : request) : nat :=
  match r with
  | CreateForm userId body => status (fst (createForm uuid d userId body))
  | UpdateForm id userId body => status (fst (updateForm uuid d id userId body))
  | DeleteForm id userId => status (fst (deleteForm d id userId))
  | PublishForm id userId => status (fst (publishForm d id userId))
  | GetFormToFill id ip ua ref =>
      status (fst (getFormToFill uuid d id ip ua ref))
  | TrackFormVisit id ip ua ref =>
      status (fst (trackFormVisit uuid d id ip ua ref))
  | CreateQuestion formId userId body =>
      status (fst (createQuestion uuid d formId userId body))
  | UpdateQuestion formId id userId body =>
      status (fst (updateQuestion d formId id userId body))
  | DeleteQuestion formId id userId =>
      status (fst (deleteQuestion d formId id userId))
  | ReorderQuestions formId userId items =>
      status (fst (reorderQuestions d formId userId items))
  | StartResponse formId => status (fst (startResponse uuid d formId now))
  | SubmitAnswer responseId body =>
      status (fst (submitAnswer uuid d responseId body now))
  end.

(** The store after a sequence of requests, each with its clock reading. *)
Definition handle_all (uuid : nat -> string) (d : DB)
    (requests : list (Z * request)) : DB :=
  fold_left (fun d r => handle uuid d (fst r) (snd r)) requests d.

(** A foreign key: the column [key] of every row names a row of the
    target table. *)
Definition refers {A B : Type} (key : A -> string) (rows : list A)
    (id : B -> string) (targets : list B) : Prop :=
  forall x, In x rows -> In (key x) (map id targets).

(** The foreign keys of [schema.prisma]. *)
Definition linked (d : DB) : Prop :=
  refers Theme.formId (themes d) Form.id (forms d)
  /\ refers FormSettings.formId (formSettings d) Form.id (forms d)
  /\ refers NotificationEmail.formSettingsId (notificationEmails d)
            FormSettings.id (formSettings d)
  /\ refers Question.formId (questions d) Form.id (forms d)
  /\ refers ConditionalLogic.questionId (conditionalLogics d)
            Question.id (questions d)
  /\ refers ConditionalRule.conditionalLogicId (conditionalRules d)
            ConditionalLogic.id (conditionalLogics d)
  /\ refers Response.formId (responses d) Form.id (forms d)
  /\ refers Answer.questionId (answers d) Question.id (questions d)
  /\ refers Answer.responseId (answers d) Response.id (responses d)
  /\ refers FormVisit.formId (formVisits d) Form.id (forms d).

(** A boolean test of [linked]. *)
Definition refersb {A B : Type} (key : A -> string) (rows : list A)
    (id : B -> string) (targets : list B) : bool :=
  forallb (fun x => includes (map id targets) (key x)) rows.

Definition linkedb (d : DB) : bool :=
  refersb Theme.formId (themes d) Form.id (forms d)
  && refersb FormSettings.formId (formSettings d) Form.id (forms d)
  && refersb NotificationEmail.formSettingsId (notificationEmails d)
             FormSettings.id (formSettings d)
  && refersb Question.formId (questions d) Form.id (forms d)
  && refersb ConditionalLogic.questionId (conditionalLogics d)
             Question.id (questions d)
  && refersb ConditionalRule.conditionalLogicId (conditionalRules d)
             ConditionalLogic.id (conditionalLogics d)
  && refersb Response.formId (responses d) Form.id (forms d)
  && refersb Answer.questionId (answers d) Question.id (questions d)
  && refersb Answer.responseId (answers d) Response.id (responses d)
  && refersb FormVisit.formId (formVisits d) Form.id (forms d).

(** The row of a question after the updates of [reorderQuestions]: the
    last item that names it gives its order. *)
Definition reordered (items : list (string * Z)) (q : Question.t)
    : Question.t :=
  match find (fun item => (fst item =? Question.id q)%string) (rev items) with
  | Some item => Question.with_order (snd item) q
  | None => q
  end.

(** The question row that [updateForm] creates for an entry it takes for a
    new question. *)
Definition new_question (id formId : string) (question : QuestionEntry.t)
    : Question.t :=
  Question.mk id formId (QuestionEntry.title question)
    (created (QuestionEntry.description question))
    (QuestionEntry.type question)
    (or_bool (QuestionEntry.isRequired question) false)
    (if includes choice_types (QuestionEntry.type question)
     then json_column (QuestionEntry.options question) else None)
    (QuestionEntry.order question)
    (pick_validation (QuestionEntry.validation question)).

(** ** Further stores and requests *)

Module Cases.

(** Two forms of two owners, one question each. *)
Definition G : Form.t := Form.mk "G" "Other survey" None true "other".

Definition two_owners : DB :=
  mkDB [Sample.F; G] [] [] []
       [Sample.Q1; Sample.text "QG" "G" 0] [] [] [] [] [] 0.

(** A new order for each question of [Sample.four], in the sequence of the
    stored rows. *)
Definition turned : list (string * Z) :=
  [("Q3", 0%Z); ("Q1", 1%Z); ("Q4", 2%Z); ("Q2", 3%Z)].

(** A request to add a question. *)
Definition added : QuestionBody.t :=
  QuestionBody.mk (Some "New") Undefined (Some "shortText") None None None.

(** A request to retitle a question, with [options: null]. *)
Definition retitled : QuestionBody.t :=
  QuestionBody.mk (Some "Renamed") Undefined None None (Some JNull) None.

(** An update request that sends the first question of the scenario back
    under its stored identifier. *)
Definition resent : UpdateFormBody.t :=
  UpdateFormBody.mk None Undefined (Some true) None None
    (Some [QuestionEntry.mk (Some "Q1") "shortText" "Q1" Undefined None 0
             None None None]).

(** Settings that ask for no progress bar and name an e-mail. *)
Definition quiet_settings : SettingsBody.t :=
  SettingsBody.mk None None (Some false) None None Undefined None
    (Some ["a@example.org"]).

Definition with_settings : CreateFormBody.t :=
  CreateFormBody.mk "Survey" Undefined None None (Some quiet_settings).

(** Form F with settings and one notification e-mail, and an update that
    names two others. *)
Definition notified : DB :=
  mkDB [Sample.F] []
       [FormSettings.mk "S1" "F" false false true false "Thanks" None true]
       [NotificationEmail.mk "E1" "old@example.org" "S1"]
       [Sample.Q1] [] [] [] [] [] 0.

Definition renotified : UpdateFormBody.t :=
  UpdateFormBody.mk None Undefined (Some true) None
    (Some (SettingsBody.mk None None None None None Undefined None
             (Some ["new@example.org"; "other@example.org"])))
    None.

(** Form F with two questions of the same title, both answered by the
    response r1. *)
Definition same_titles : DB :=
  mkDB [Sample.F] [] [] []
       [Question.mk "Q1" "F" "Name" None "shortText" false None 0 None;
        Question.mk "Q2" "F" "Name" None "paragraph" false None 1 None]
       [] []
       [Response.mk "r1" "F" "a" true 10 (Some 20%Z)]
       [Answer.mk "a1" "Q1" "r1" (Some "first") None;
        Answer.mk "a2" "Q2" "r1" (Some "second") None]
       [] 0.

(** An unpublished form with two questions. *)
Definition pending : DB :=
  mkDB [Form.mk "F" "Survey" None false "owner"] [] [] []
       [Sample.Q1; Sample.Q2] [] [] [] [] [] 0.

(** A token check that knows one token, and a user table with one user. *)
Definition verifyToken (token : string) : verification :=
  if (token =? "good")%string then Payload (Some "u1") else JsonWebTokenError.

Definition findUser (id : string) : option User.t :=
  if (id =? "u1")%string then Some (User.mk "u1" "u1@example.org" None)
  else None.

(** An update that says nothing of [isPublished] and sends two new
    questions, the second with an [order] one above the 32-bit column. *)
Definition beyond : UpdateFormBody.t :=
  UpdateFormBody.mk None Undefined None None None
    (Some [QuestionEntry.mk None "shortText" "First" Undefined None 0
             None None None;
           QuestionEntry.mk None "shortText" "Far" Undefined None 2147483648
             None None None]).

(** An update of the draft that keeps ["question-1"] and sends a new
    question with an [order] one above the 32-bit column. *)
Definition keep_one_beyond : UpdateFormBody.t :=
  UpdateFormBody.mk None Undefined None None None
    (Some [QuestionEntry.mk (Some "question-1") "shortText" "One" Undefined
             None 0 None None None;
           QuestionEntry.mk None "shortText" "Far" Undefined None 2147483648
             None None None]).

(** Two errors without a status code of their own. *)
Definition failure : Err.t :=
  Err.mk "connect ECONNREFUSED 10.0.0.5:5432" None None (Some "at query").

Definition other_failure : Err.t :=
  Err.mk "Cannot read properties of null" (Some 500%Z) None None.

End Cases.

(** ** Double precision *)

(** The operations on numbers are those of [SpecFloat] at [prec = 53] and
    [emax = 1024].  Their rounding is followed on the real numbers. *)

(** [2^e] as a real number. *)
Definition bpow (e : Z) : R := powerRZ 2 e.


(** A positive normal number: 53 binary digits, an exponent between [lo]
    and [hi], and its value. *)
Definition normal (lo hi : Z) (f : spec_float) (v : R) : Prop :=
  exists m e,
    f = S754_finite false m e /\ digits2_pos m = 53%positive
    /\ (lo <= e <= hi)%Z /\ v = (IZR (Zpos m) * bpow e)%R.

(** * Properties *)

(** ** Lists, searching and sorting *)

Section Lists.

Context {A : Type}.

Lemma find_findIndex (p : A -> bool) (l : list A) (x : A) :
  find p l = Some x ->
  exists i, findIndex p l = Z.of_nat i /\ nth_error l i = Some x.
Proof.
  induction l as [|y r IH]; simpl; [discriminate|].
  destruct (p y) eqn:Hy.
  - intros [= ->]. exists 0. split; reflexivity.
  - intros H. destruct (IH H) as (i & Hi & Hn).
    exists (S i). rewrite Hi. split; [|exact Hn].
    destruct (Z.of_nat i <? 0)%Z eqn:E; [apply Z.ltb_lt in E|]; lia.
Qed.

Lemma find_exists (p : A -> bool) (l : list A) :
  (exists x, In x l /\ p x = true) -> exists y, find p l = Some y.
Proof.
  intros (x & Hx & Hp). destruct (find p l) as [y|] eqn:E; [now exists y|].
  rewrite (find_none _ _ E x Hx) in Hp. discriminate.
Qed.

Lemma filter_find_none (p : A -> bool) (l : list A) :
  find p l = None -> filter p l = [].
Proof.
  induction l as [|y r IH]; simpl; [reflexivity|].
  destruct (p y); [discriminate|exact IH].
Qed.

Lemma filter_find_some (p : A -> bool) (l : list A) (x : A) :
  find p l = Some x -> exists r, filter p l = x :: r.
Proof.
  induction l as [|y r IH]; simpl; [discriminate|].
  destruct (p y).
  - intros [= ->]. now exists (filter p r).
  - exact IH.
Qed.

Lemma filter_filter_length (p q : A -> bool) (l : list A) :
  length (filter p (filter q l)) <= length (filter p l).
Proof.
  induction l as [|y r IH]; simpl; [lia|].
  destruct (q y); simpl; destruct (p y); simpl; lia.
Qed.

Lemma filter_comm (p q : A -> bool) (l : list A) :
  filter p (filter q l) = filter q (filter p l).
Proof.
  induction l as [|y r IH]; simpl; [reflexivity|].
  destruct (q y) eqn:Hq, (p y) eqn:Hp; simpl;
    rewrite ?Hq, ?Hp, IH; reflexivity.
Qed.

Lemma filter_all (p : A -> bool) (l : list A) :
  (forall x, In x l -> p x = true) -> filter p l = l.
Proof.
  induction l as [|y r IH]; simpl; intros H; [reflexivity|].
  rewrite (H y (or_introl eq_refl)). f_equal. apply IH. intros x Hx.
  apply H. now right.
Qed.

Lemma filter_perm (p : A -> bool) (l l' : list A) :
  Permutation l l' -> Permutation (filter p l) (filter p l').
Proof.
  induction 1 as [|x l l' _ IH|x y l|l l' l'' _ IH1 _ IH2]; simpl.
  - constructor.
  - destruct (p x); [now constructor|exact IH].
  - destruct (p x), (p y); try reflexivity. apply perm_swap.
  - now transitivity (filter p l').
Qed.

Variable key : A -> Z.

Lemma insert_asc_perm (x : A) (l : list A) :
  Permutation (insert_asc key x l) (x :: l).
Proof.
  induction l as [|y r IH]; simpl; [reflexivity|].
  destruct (key x <=? key y)%Z; [reflexivity|].
  rewrite IH. apply perm_swap.
Qed.

Lemma orderBy_perm (l : list A) : Permutation (orderBy key l) l.
Proof.
  induction l as [|x r IH]; simpl; [constructor|].
  rewrite insert_asc_perm. now constructor.
Qed.

Lemma orderBy_In (l : list A) (x : A) : In x (orderBy key l) <-> In x l.
Proof.
  split; apply Permutation_in; [|symmetry]; apply orderBy_perm.
Qed.

Lemma insert_asc_sorted (x : A) (l : list A) :
  ascending key l -> ascending key (insert_asc key x l).
Proof.
  induction 1 as [|y r Hs IH Hall]; simpl.
  - repeat constructor.
  - destruct (key x <=? key y)%Z eqn:E.
    + apply Z.leb_le in E. constructor; [now constructor|].
      constructor; [exact E|].
      eapply Forall_impl; [|exact Hall]. simpl. intros; lia.
    + apply Z.leb_gt in E. constructor; [exact IH|].
      rewrite Forall_forall. intros z Hz.
      apply (Permutation_in _ (insert_asc_perm x r)) in Hz.
      destruct Hz as [<-|Hz]; [lia|].
      rewrite Forall_forall in Hall. now apply Hall.
Qed.

Lemma orderBy_sorted (l : list A) : ascending key (orderBy key l).
Proof.
  induction l as [|x r IH]; simpl; [constructor|].
  now apply insert_asc_sorted.
Qed.

(** An ascending list is the only ascending arrangement of its keys. *)
Lemma ascending_keys_unique (l l' : list A) :
  ascending key l -> ascending key l' ->
  Permutation (map key l) (map key l') -> map key l = map key l'.
Proof.
  intros Hl. revert l'.
  induction Hl as [|x r Hs IH Hall]; intros l' Hl' HP.
  - apply Permutation_nil in HP. now rewrite HP.
  - destruct Hl' as [|y r' Hs' Hall'].
    + symmetry in HP. now apply Permutation_nil in HP.
    + simpl in *.
      assert (Hxy : key x = key y).
      { rewrite Forall_forall in Hall, Hall'.
        assert (Hx : In (key x) (key y :: map key r'))
          by (eapply Permutation_in; [exact HP|now left]).
        assert (Hy : In (key y) (key x :: map key r))
          by (eapply Permutation_in; [symmetry; exact HP|now left]).
        destruct Hx as [Hx|Hx]; [now symmetry|].
        destruct Hy as [Hy|Hy]; [exact Hy|].
        apply in_map_iff in Hx. destruct Hx as (a & Ha & Hina).
        apply in_map_iff in Hy. destruct Hy as (b & Hb & Hinb).
        specialize (Hall b Hinb). specialize (Hall' a Hina). lia. }
      rewrite Hxy in *. f_equal. apply IH; [exact Hs'|].
      now apply Permutation_cons_inv in HP.
Qed.

End Lists.

Lemma includes_In (l : list string) (s : string) :
  includes l s = true <-> In s l.
Proof.
  unfold includes. rewrite existsb_exists. split.
  - intros (x & Hx & E). apply String.eqb_eq in E. now subst.
  - intros H. exists s. split; [exact H|apply String.eqb_refl].
Qed.

Lemma at_index_nat {A : Type} (l : list A) (i : nat) :
  at_index l (Z.of_nat i) = nth_error l i.
Proof.
  unfold at_index. destruct (Z.of_nat i <? 0)%Z eqn:E.
  - apply Z.ltb_lt in E. lia.
  - now rewrite Nat2Z.id.
Qed.

Lemma questions_asc_In (d : DB) (formId : string) (q : Question.t) :
  In q (questions_asc d formId)
  <-> In q (questions d) /\ Question.formId q = formId.
Proof.
  unfold questions_asc, questions_of. rewrite orderBy_In, filter_In.
  now rewrite String.eqb_eq.
Qed.

(** ** Answering a question *)

Section Submit.

Variable uuid : nat -> string.

(** The two ways [submitAnswer] fails. *)
Lemma submitAnswer_no_response (d : DB) (responseId : string)
    (body : SubmitBody.t) (now : Z) :
  find (fun r => (Response.id r =? responseId)%string) (responses d) = None ->
  submitAnswer uuid d responseId body now
  = (Failure 404 "Response not found", d).
Proof. unfold submitAnswer. now intros ->. Qed.

Lemma submitAnswer_no_question (d : DB) (responseId : string)
    (body : SubmitBody.t) (now : Z) (response : Response.t) :
  find (fun r => (Response.id r =? responseId)%string) (responses d)
    = Some response ->
  find (id_is (SubmitBody.questionId body))
       (questions_asc d (Response.formId response)) = None ->
  submitAnswer uuid d responseId body now
  = (Failure 404 "Question not found in this form", d).
Proof. unfold submitAnswer. now intros -> ->. Qed.

(** What [submitAnswer] does when the response and the question are found:
    [i] is the position of the question in the ascending list. *)
Lemma submitAnswer_found (d : DB) (responseId : string) (body : SubmitBody.t)
    (now : Z) (response : Response.t) (question : Question.t) :
  find (fun r => (Response.id r =? responseId)%string) (responses d)
    = Some response ->
  find (id_is (SubmitBody.questionId body))
       (questions_asc d (Response.formId response)) = Some question ->
  let form_questions := questions_asc d (Response.formId response) in
  let up := upsert_answer uuid d responseId (Question.id question)
              (SubmitBody.value body) (SubmitBody.fileUrl body) in
  exists i,
    findIndex (id_is (SubmitBody.questionId body)) form_questions = Z.of_nat i
    /\ nth_error form_questions i = Some question
    /\ submitAnswer uuid d responseId body now
       = (Success 200
            (SubmitData.mk (fst up) (nth_error form_questions (S i))
               (S i =? length form_questions)%nat),
          if (S i =? length form_questions)%nat
          then set_responses
                 (map (response_complete responseId now) (responses (snd up)))
                 (snd up)
          else snd up).
Proof.
  intros Hr Hq form_questions up. subst form_questions up.
  destruct (find_findIndex _ _ _ Hq) as (i & Hi & Hn).
  exists i. split; [exact Hi|]. split; [exact Hn|].
  unfold submitAnswer. rewrite Hr, Hq. cbv zeta. rewrite Hi.
  destruct (upsert_answer uuid d responseId (Question.id question)
              (SubmitBody.value body) (SubmitBody.fileUrl body))
    as [answer d1].
  simpl fst; simpl snd.
  set (form_questions := questions_asc d (Response.formId response)) in *.
  assert (Hlt : i < length form_questions)
    by (apply nth_error_Some; congruence).
  assert (Hlast : ((Z.of_nat i =? Z.of_nat (length form_questions) - 1)%Z
                   = (S i =? length form_questions)%nat)).
  { destruct (S i =? length form_questions)%nat eqn:E.
    - apply Nat.eqb_eq in E. apply Z.eqb_eq. lia.
    - apply Nat.eqb_neq in E. apply Z.eqb_neq. lia. }
  rewrite Hlast.
  replace (Z.of_nat i + 1)%Z with (Z.of_nat (S i)) by lia.
  rewrite at_index_nat.
  destruct (Z.of_nat i <? Z.of_nat (length form_questions) - 1)%Z eqn:E.
  - reflexivity.
  - apply Z.ltb_ge in E.
    assert (Hn' : nth_error form_questions (S i) = None)
      by (apply nth_error_None; lia).
    rewrite Hn'. reflexivity.
Qed.

(** C1 (as amended).  When the response and the question are found,
    [submitAnswer] answers 200 and [nextQuestion] is the question that
    follows the answered one in the form's list sorted by ascending order,
    whatever conditional logic it carries, or null when the answered
    question is the last of the list; [isLastQuestion] is true exactly when
    [nextQuestion] is null. *)
Theorem submitAnswer_next_in_sequence (d : DB) (responseId : string)
    (body : SubmitBody.t) (now : Z) (response : Response.t)
    (question : Question.t) :
  find (fun r => (Response.id r =? responseId)%string) (responses d)
    = Some response ->
  find (id_is (SubmitBody.questionId body))
       (questions_asc d (Response.formId response)) = Some question ->
  exists i data d',
    submitAnswer uuid d responseId body now = (Success 200 data, d')
    /\ findIndex (id_is (SubmitBody.questionId body))
         (questions_asc d (Response.formId response)) = Z.of_nat i
    /\ nth_error (questions_asc d (Response.formId response)) i = Some question
    /\ SubmitData.nextQuestion data
       = nth_error (questions_asc d (Response.formId response)) (S i)
    /\ (SubmitData.isLastQuestion data = true
        <-> SubmitData.nextQuestion data = None).
Proof.
  intros Hr Hq.
  destruct (submitAnswer_found d responseId body now _ _ Hr Hq)
    as (i & Hi & Hn & E).
  eexists i, _, _. split; [exact E|]. split; [exact Hi|]. split; [exact Hn|].
  split; [reflexivity|].
  cbn [SubmitData.isLastQuestion SubmitData.nextQuestion].
  rewrite Nat.eqb_eq, nth_error_None.
  assert (i < length (questions_asc d (Response.formId response)))
    by (apply nth_error_Some; congruence).
  lia.
Qed.

End Submit.

(** In the scenario, answering Q1 with "no" is followed by Q2, the question
    whose rule asks for "yes". *)
Lemma submitAnswer_next_in_sequence_witness :
  exists i data d',
    submitAnswer Sample.uuid Sample.started "id-1"
      (Sample.answer "Q1" (Val "no") Undefined) 1001 = (Success 200 data, d')
    /\ findIndex (id_is (Some "Q1")) (questions_asc Sample.started "F")
       = Z.of_nat i
    /\ nth_error (questions_asc Sample.started "F") i = Some Sample.Q1
    /\ SubmitData.nextQuestion data
       = nth_error (questions_asc Sample.started "F") (S i)
    /\ (SubmitData.isLastQuestion data = true
        <-> SubmitData.nextQuestion data = None).
Proof.
  apply (submitAnswer_next_in_sequence Sample.uuid Sample.started "id-1"
           (Sample.answer "Q1" (Val "no") Undefined) 1001
           (Response.mk "id-1" "F" "id-0" false 1000 None) Sample.Q1).
  - reflexivity.
  - reflexivity.
Defined.

(** C1 (as stated) fails on the scenario of the specification: after
    SubmitAnswer(Q1, "no") the engine selects Q3, and [submitAnswer] returns
    Q2 with [isLastQuestion = false]. *)
Lemma next_question_ignores_logic :
  (exists data d',
      submitAnswer Sample.uuid Sample.started "id-1"
        (Sample.answer "Q1" (Val "no") Undefined) 1001 = (Success 200 data, d')
      /\ SubmitData.nextQuestion data = Some Sample.Q2
      /\ SubmitData.isLastQuestion data = false
      /\ Engine.nextQuestion d' "id-1" (questions_asc Sample.started "F")
           Sample.Q1 = Some Sample.Q3)
  /\ ~ next_question_as_specified Sample.uuid Sample.started "id-1"
         (Sample.answer "Q1" (Val "no") Undefined) 1001.
Proof.
  split.
  - eexists _, _. split; [reflexivity|]. now vm_compute.
  - intros H.
    destruct (H (Response.mk "id-1" "F" "id-0" false 1000 None) Sample.Q1
                (SubmitData.mk
                   (Answer.mk "id-2" "Q1" "id-1" (Some "no") None)
                   (Some Sample.Q2) false)
                (snd (submitAnswer Sample.uuid Sample.started "id-1"
                        (Sample.answer "Q1" (Val "no") Undefined) 1001))
                eq_refl eq_refl eq_refl) as [Hn _].
    vm_compute in Hn. discriminate Hn.
Qed.

(** ** Who may answer *)

(** C9.  [submitAnswer] takes a response id and a body with [questionId],
    [value] and [fileUrl]: no respondent identifier.  It answers 404 exactly
    when the response does not exist or the question is not one of the
    response's form; otherwise it answers 200 and the answer it returns is
    stored for that response and question, with the [value] and the
    [fileUrl] of the body (a field the body leaves out keeps what the pair
    had before, nothing on a first answer): when the pair had an answer,
    the rows with its identifier are overwritten, and otherwise the answer
    is added as a new row.  [getResponse] answers 200 only when the
    respondent identifier of the query is the one stored with the
    response. *)
Theorem submitAnswer_needs_no_respondent (uuid : nat -> string) (d : DB)
    (responseId : string) (body : SubmitBody.t) (now : Z) :
  ((exists message,
       fst (submitAnswer uuid d responseId body now) = Failure 404 message)
   <-> ~ (exists response question,
            find (fun r => (Response.id r =? responseId)%string) (responses d)
              = Some response
            /\ In question (questions d)
            /\ Question.formId question = Response.formId response
            /\ SubmitBody.questionId body = Some (Question.id question)))
  /\ (forall response question,
        find (fun r => (Response.id r =? responseId)%string) (responses d)
          = Some response ->
        In question (questions d) ->
        Question.formId question = Response.formId response ->
        SubmitBody.questionId body = Some (Question.id question) ->
        let before :=
          find (fun a => (Answer.responseId a =? responseId)%string
                         && (Answer.questionId a =? Question.id question)%string)
               (answers d) in
        exists data,
          fst (submitAnswer uuid d responseId body now) = Success 200 data
          /\ In (SubmitData.answer data)
                (answers (snd (submitAnswer uuid d responseId body now)))
          /\ Answer.responseId (SubmitData.answer data) = responseId
          /\ Answer.questionId (SubmitData.answer data) = Question.id question
          /\ Answer.value (SubmitData.answer data)
             = updated (SubmitBody.value body)
                 (match before with
                  | Some old => Answer.value old
                  | None => None
                  end)
          /\ Answer.fileUrl (SubmitData.answer data)
             = updated (SubmitBody.fileUrl body)
                 (match before with
                  | Some old => Answer.fileUrl old
                  | None => None
                  end)
          /\ (forall v, SubmitBody.value body = Val v ->
                        Answer.value (SubmitData.answer data) = Some v)
          /\ (forall u, SubmitBody.fileUrl body = Val u ->
                        Answer.fileUrl (SubmitData.answer data) = Some u)
          /\ match before with
             | Some old =>
                 Answer.id (SubmitData.answer data) = Answer.id old
                 /\ answers (snd (submitAnswer uuid d responseId body now))
                    = map (fun a =>
                             if (Answer.id a =? Answer.id old)%string
                             then Answer.mk (Answer.id a) (Answer.questionId a)
                                    (Answer.responseId a)
                                    (updated (SubmitBody.value body)
                                       (Answer.value a))
                                    (updated (SubmitBody.fileUrl body)
                                       (Answer.fileUrl a))
                             else a)
                          (answers d)
             | None =>
                 answers (snd (submitAnswer uuid d responseId body now))
                 = answers d ++ [SubmitData.answer data]
             end)
  /\ (forall id respondentId view,
        getResponse d id respondentId = Success 200 view ->
        exists response,
          In response (responses d)
          /\ Response.id response = id
          /\ respondentId = Some (Response.respondentId response)).
Proof.
  assert (Hfound : forall response question,
             find (fun r => (Response.id r =? responseId)%string) (responses d)
               = Some response ->
             In question (questions d) ->
             Question.formId question = Response.formId response ->
             SubmitBody.questionId body = Some (Question.id question) ->
             exists question',
               find (id_is (SubmitBody.questionId body))
                    (questions_asc d (Response.formId response))
                 = Some question'
               /\ Question.id question' = Question.id question).
  { intros response question Hr Hin Hf Hb.
    destruct (find_exists (id_is (SubmitBody.questionId body))
                (questions_asc d (Response.formId response))) as [q' E].
    - exists question. split; [now apply questions_asc_In|].
      rewrite Hb. simpl. apply String.eqb_refl.
    - exists q'. split; [exact E|]. apply find_some in E.
      destruct E as [_ E]. rewrite Hb in E. simpl in E.
      now apply String.eqb_eq in E. }
  split; [|split].
  - split.
    + intros [message E] (response & question & Hr & Hin & Hf & Hb).
      destruct (Hfound _ _ Hr Hin Hf Hb) as (q' & Hq & _).
      destruct (submitAnswer_found uuid d responseId body now _ _ Hr Hq)
        as (i & _ & _ & E').
      rewrite E' in E. discriminate E.
    + intros Hnone.
      destruct (find (fun r => (Response.id r =? responseId)%string)
                     (responses d)) as [response|] eqn:Hr.
      * destruct (find (id_is (SubmitBody.questionId body))
                       (questions_asc d (Response.formId response)))
          as [question|] eqn:Hq.
        -- exfalso. apply Hnone. exists response, question.
           apply find_some in Hq. destruct Hq as [Hin Hid].
           apply questions_asc_In in Hin. destruct Hin as [Hin Hf].
           repeat split; try assumption.
           unfold id_is in Hid. destruct (SubmitBody.questionId body) as [s|];
             [|discriminate]. apply String.eqb_eq in Hid. now subst.
        -- rewrite (submitAnswer_no_question uuid d responseId body now _ Hr Hq).
           now eexists.
      * rewrite (submitAnswer_no_response uuid d responseId body now Hr).
        now eexists.
  - intros response question Hr Hin Hf Hb.
    destruct (Hfound _ _ Hr Hin Hf Hb) as (q' & Hq & Hid).
    destruct (submitAnswer_found uuid d responseId body now _ _ Hr Hq)
      as (i & _ & _ & E).
    rewrite E. eexists. split; [reflexivity|].
    cbn [fst snd SubmitData.answer]. rewrite Hid.
    assert (Hans : forall d1, answers
              (if (S i =? length (questions_asc d (Response.formId response)))%nat
               then set_responses
                      (map (response_complete responseId now) (responses d1)) d1
               else d1) = answers d1)
      by (intros d1; destruct (_ =? _)%nat; reflexivity).
    rewrite Hans. unfold upsert_answer.
    destruct (find _ (answers d)) as [existing|] eqn:Hex.
    + apply find_some in Hex. destruct Hex as [Hex Hp].
      apply andb_true_iff in Hp. destruct Hp as [Hp1 Hp2].
      apply String.eqb_eq in Hp1, Hp2.
      cbn [fst snd answers set_answers]. split; [now apply in_map|].
      unfold answer_update at 1 2 3 4 5 6 7. rewrite String.eqb_refl.
      cbn [Answer.responseId Answer.questionId Answer.value Answer.fileUrl
           Answer.id].
      split; [exact Hp1|]. split; [exact Hp2|].
      split; [reflexivity|]. split; [reflexivity|].
      split; [now intros v ->|]. split; [now intros u ->|].
      split; reflexivity.
    + cbn [fst snd answers set_answers set_seed Answer.responseId
           Answer.questionId Answer.value Answer.fileUrl].
      split; [apply in_or_app; right; now left|].
      split; [reflexivity|]. split; [reflexivity|].
      split; [now destruct (SubmitBody.value body)|].
      split; [now destruct (SubmitBody.fileUrl body)|].
      split; [now intros v ->|]. split; [now intros u ->|].
      reflexivity.
  - clear Hfound. intros id respondentId view. unfold getResponse.
    destruct respondentId as [rid|]; [|discriminate].
    destruct (rid =? "")%string; [discriminate|].
    destruct (find _ (responses d)) as [response|] eqn:E; [|discriminate].
    intros _. apply find_some in E. destruct E as [Hin Hp].
    apply andb_true_iff in Hp. destruct Hp as [Hp1 Hp2].
    apply String.eqb_eq in Hp1, Hp2. exists response. now subst.
Qed.

(** In the scenario, where the respondent of the response ["id-1"] has
    answered Q1 with "a" and the file "u", a request that carries the
    response id and no respondent identifier overwrites the value with "b";
    the file, which it leaves out, stays. *)
Lemma submitAnswer_needs_no_respondent_witness :
  exists data,
    fst (submitAnswer Sample.uuid Sample.answered "id-1"
           (Sample.answer "Q1" (Val "b") Undefined) 1003) = Success 200 data
    /\ Answer.value (SubmitData.answer data) = Some "b"
    /\ Answer.fileUrl (SubmitData.answer data) = Some "u"
    /\ answers Sample.answered
       = [Answer.mk "id-2" "Q1" "id-1" (Some "a") (Some "u")]
    /\ answers (snd (submitAnswer Sample.uuid Sample.answered "id-1"
                       (Sample.answer "Q1" (Val "b") Undefined) 1003))
       = [Answer.mk "id-2" "Q1" "id-1" (Some "b") (Some "u")].
Proof.
  destruct (proj1 (proj2 (submitAnswer_needs_no_respondent Sample.uuid
                            Sample.answered "id-1"
                            (Sample.answer "Q1" (Val "b") Undefined) 1003))
              (Response.mk "id-1" "F" "id-0" false 1000 None) Sample.Q1
              eq_refl (or_introl eq_refl) eq_refl eq_refl)
    as (data & E & _ & _ & _ & Hv & Hu & _ & _ & _ & Hrows).
  exists data. split; [exact E|]. split; [exact Hv|]. split; [exact Hu|].
  split; [reflexivity|exact Hrows].
Defined.

(** ** What a helper leaves alone *)

Lemma same_core_refl (d : DB) : same_core d d.
Proof. now repeat split. Qed.

Lemma same_core_trans (d1 d2 d3 : DB) :
  same_core d1 d2 -> same_core d2 d3 -> same_core d1 d3.
Proof.
  intros (F1 & R1 & A1) (F2 & R2 & A2). repeat split; congruence.
Qed.

Lemma same_core_fold {A : Type} (f : DB -> A -> DB) (l : list A) (d : DB) :
  (forall d x, same_core d (f d x)) -> same_core d (fold_left f l d).
Proof.
  intros Hf. revert d. induction l as [|x r IH]; intros d; simpl.
  - apply same_core_refl.
  - eapply same_core_trans; [apply Hf|apply IH].
Qed.

Section Frames.

Variable uuid : nat -> string.

Lemma create_theme_core formId theme d :
  same_core d (create_theme uuid formId theme d).
Proof. now repeat split. Qed.

Lemma create_emails_core settingsId emails d :
  same_core d (create_emails uuid settingsId emails d).
Proof. apply same_core_fold. intros; now repeat split. Qed.

Lemma create_settings_core formId settings with_emails d :
  same_core d (create_settings uuid formId settings with_emails d).
Proof.
  unfold create_settings, fresh. cbv zeta.
  destruct (SettingsBody.notificationEmails settings) as [emails|];
    [destruct with_emails|]; try now repeat split.
  eapply same_core_trans; [|apply create_emails_core]. now repeat split.
Qed.

Lemma reconcile_theme_core id existing theme d :
  same_core d (reconcile_theme uuid id existing theme d).
Proof.
  unfold reconcile_theme. destruct theme, existing; try apply same_core_refl.
  - now repeat split.
  - apply create_theme_core.
Qed.

Lemma reconcile_settings_core id existing settings d :
  same_core d (reconcile_settings uuid id existing settings d).
Proof.
  unfold reconcile_settings.
  destruct settings as [settings|], existing as [old|];
    try apply same_core_refl; [|apply create_settings_core].
  destruct (SettingsBody.notificationEmails settings) as [emails|];
    [|now repeat split].
  destruct (0 <? Z.of_nat (length emails))%Z; [|now repeat split].
  eapply same_core_trans; [|apply create_emails_core]. now repeat split.
Qed.

Lemma create_rules_core logicId rules d :
  same_core d (create_rules uuid logicId rules d).
Proof. apply same_core_fold. intros; now repeat split. Qed.

Lemma create_logic_core questionId logic d :
  same_core d (create_logic uuid questionId logic d).
Proof.
  unfold create_logic, fresh. cbv zeta.
  destruct (LogicBody.rules logic) as [rules|]; [|now repeat split].
  eapply same_core_trans; [|apply create_rules_core]. now repeat split.
Qed.

Lemma update_logic_core questionId logic d :
  same_core d (update_logic uuid questionId logic d).
Proof.
  unfold update_logic.
  destruct (find _ (conditionalLogics d)) as [existing|],
           (LogicBody.enabled logic); try apply same_core_refl.
  - destruct (LogicBody.rules logic) as [rules|]; [|now repeat split].
    eapply same_core_trans; [|apply create_rules_core]. now repeat split.
  - now repeat split.
  - apply create_logic_core.
Qed.

Lemma process_question_core formId d question :
  same_core d (process_question uuid formId d question).
Proof.
  unfold process_question.
  destruct (is_existing_id (QuestionEntry.id question)).
  - destruct (find _ (questions d)) as [existingQuestion|];
      [|apply same_core_refl].
    cbv zeta.
    destruct (QuestionEntry.conditionalLogic question) as [logic|].
    + eapply same_core_trans; [|apply update_logic_core].
      destruct (_ && _); now repeat split.
    + destruct (_ && _); now repeat split.
  - unfold fresh. cbv zeta.
    destruct (QuestionEntry.conditionalLogic question) as [logic|];
      [destruct (LogicBody.enabled logic)|]; try now repeat split.
    eapply same_core_trans; [|apply create_logic_core]. now repeat split.
Qed.

Lemma create_visit_core formId ip ua ref d :
  same_core d (create_visit uuid formId ip ua ref d).
Proof. now repeat split. Qed.

End Frames.

(** ** What a request does to responses and answers *)

Lemma kept_refl {A : Type} (l : list A) : kept l l.
Proof.
  exists (fun _ => true). symmetry. now apply filter_all.
Qed.

Lemma kept_filter {A : Type} (p : A -> bool) (l : list A) :
  kept l (filter p l).
Proof. now exists p. Qed.

Lemma kept_trans {A : Type} (l1 l2 l3 : list A) :
  kept l1 l2 -> kept l2 l3 -> kept l1 l3.
Proof.
  intros [p ->] [q ->]. exists (fun x => p x && q x).
  induction l1 as [|x r IH]; simpl; [reflexivity|].
  destruct (p x); simpl; [destruct (q x)|]; now rewrite IH.
Qed.

Lemma kept_In {A : Type} (l l' : list A) (x : A) :
  kept l l' -> In x l' -> In x l.
Proof. intros [p ->] H. now apply filter_In in H. Qed.

Lemma quiet_refl (d : DB) : quiet d d.
Proof. split; apply kept_refl. Qed.

Lemma quiet_trans (d1 d2 d3 : DB) : quiet d1 d2 -> quiet d2 d3 -> quiet d1 d3.
Proof. intros [R1 A1] [R2 A2]. split; eapply kept_trans; eassumption. Qed.

Lemma quiet_same (d d' : DB) :
  responses d' = responses d -> answers d' = answers d -> quiet d d'.
Proof. intros R A. split; [rewrite R|rewrite A]; apply kept_refl. Qed.

Lemma same_core_quiet (d d' : DB) : same_core d d' -> quiet d d'.
Proof. intros (_ & R & A). now apply quiet_same. Qed.

Lemma delete_questions_quiet (p : Question.t -> bool) (d : DB) :
  quiet d (delete_questions p d).
Proof. split; [apply kept_refl|apply kept_filter]. Qed.

Lemma delete_form_quiet (id : string) (d : DB) : quiet d (delete_form id d).
Proof.
  unfold delete_form. cbv zeta.
  eapply quiet_trans; [apply (delete_questions_quiet
                                (fun q => (Question.formId q =? id)%string))|].
  split; apply kept_filter.
Qed.

Section Requests.

Variable uuid : nat -> string.

Lemma reconcile_questions_quiet formId entries d :
  quiet d (reconcile_questions uuid formId entries d).
Proof.
  unfold reconcile_questions. cbv zeta.
  assert (H : quiet d (fold_left (process_question uuid formId) entries d))
    by (apply same_core_quiet, same_core_fold; intros;
        apply process_question_core).
  destruct (0 <? _)%Z; [|exact H].
  eapply quiet_trans; [exact H|apply delete_questions_quiet].
Qed.

Lemma reconcile_questions_forms formId entries d :
  forms (reconcile_questions uuid formId entries d) = forms d.
Proof.
  unfold reconcile_questions. cbv zeta.
  assert (H : forms (fold_left (process_question uuid formId) entries d)
              = forms d)
    by (apply (same_core_fold (process_question uuid formId));
        intros; apply process_question_core).
  destruct (0 <? _)%Z; [|exact H]. exact H.
Qed.

Lemma createForm_quiet d userId body :
  quiet d (snd (createForm uuid d userId body)).
Proof.
  unfold createForm, fresh. cbv zeta. cbn [snd].
  eapply quiet_trans; [|destruct (CreateFormBody.settings body);
                         [apply same_core_quiet, create_settings_core
                         |apply quiet_refl]].
  eapply quiet_trans; [|destruct (CreateFormBody.theme body);
                         [apply same_core_quiet, create_theme_core
                         |apply quiet_refl]].
  now apply quiet_same.
Qed.

Lemma reconcile_fields_forms d id body :
  forms (reconcile_fields uuid d id body) = map (form_update id body) (forms d)
  /\ responses (reconcile_fields uuid d id body) = responses d
  /\ answers (reconcile_fields uuid d id body) = answers d.
Proof.
  unfold reconcile_fields. cbv zeta.
  set (d1 := set_forms (map (form_update id body) (forms d)) d).
  destruct (reconcile_theme_core uuid id
              (find (fun t => (Theme.formId t =? id)%string) (themes d))
              (UpdateFormBody.theme body) d1) as (F2 & R2 & A2).
  destruct (reconcile_settings_core uuid id
              (find (fun s => (FormSettings.formId s =? id)%string)
                    (formSettings d))
              (UpdateFormBody.settings body)
              (reconcile_theme uuid id
                 (find (fun t => (Theme.formId t =? id)%string) (themes d))
                 (UpdateFormBody.theme body) d1)) as (F3 & R3 & A3).
  rewrite F3, R3, A3, F2, R2, A2. now repeat split.
Qed.

(** The store after [updateForm]: the store before it, or the one the
    transaction wrote. *)
Lemma updateForm_written d id userId body :
  snd (updateForm uuid d id userId body) = d
  \/ snd (updateForm uuid d id userId body)
     = match UpdateFormBody.questions body with
       | Some entries =>
           reconcile_questions uuid id entries (reconcile_fields uuid d id body)
       | None => reconcile_fields uuid d id body
       end.
Proof.
  unfold updateForm.
  destruct (find _ (forms d)); [|now left]. cbv zeta.
  destruct (UpdateFormBody.questions body) as [entries|]; [|now right].
  destruct (accepted uuid id entries _); [now right|now left].
Qed.

Lemma updateForm_quiet d id userId body :
  quiet d (snd (updateForm uuid d id userId body)).
Proof.
  destruct (updateForm_written d id userId body) as [-> | ->];
    [apply quiet_refl|].
  eapply quiet_trans;
    [|destruct (UpdateFormBody.questions body);
      [apply reconcile_questions_quiet|apply quiet_refl]].
  destruct (reconcile_fields_forms d id body) as (_ & R & A).
  now apply quiet_same.
Qed.

Lemma deleteQuestion_quiet d formId id userId :
  quiet d (snd (deleteQuestion d formId id userId)).
Proof.
  unfold deleteQuestion.
  destruct (find _ (forms d)); [|apply quiet_refl].
  destruct (find _ (questions d)); [|apply quiet_refl]. cbv zeta. cbn [snd].
  eapply quiet_trans;
    [apply (delete_questions_quiet (fun q => (Question.id q =? id)%string))|].
  now apply quiet_same.
Qed.

(** Every request but [StartResponse] and [SubmitAnswer] leaves responses
    and answers as they are, up to cascaded deletions. *)
Lemma handle_quiet d now r :
  match r with
  | StartResponse _ | SubmitAnswer _ _ => True
  | _ => quiet d (handle uuid d now r)
  end.
Proof.
  destruct r; try exact I; cbn [handle].
  - apply createForm_quiet.
  - apply updateForm_quiet.
  - unfold deleteForm. destruct (find _ (forms d));
      [apply delete_form_quiet|apply quiet_refl].
  - unfold publishForm. destruct (find _ (forms d)); [|apply quiet_refl].
    destruct (_ =? 0)%Z; now apply quiet_same.
  - unfold getFormToFill. destruct (loadForm d id); [|apply quiet_refl].
    destruct (negb _); [apply quiet_refl|].
    apply same_core_quiet, create_visit_core.
  - unfold trackFormVisit. destruct (find _ (forms d)); [|apply quiet_refl].
    apply same_core_quiet, create_visit_core.
  - unfold createQuestion. destruct (find _ (forms d)); [|apply quiet_refl].
    cbv zeta. destruct (QuestionBody.title body), (QuestionBody.type body);
      now apply quiet_same.
  - unfold updateQuestion. destruct (find _ (forms d)); [|apply quiet_refl].
    destruct (find _ (questions d)); now apply quiet_same.
  - apply deleteQuestion_quiet.
  - unfold reorderQuestions. destruct (find _ (forms d)); [|apply quiet_refl].
    destruct (forallb _ _); now apply quiet_same.
Qed.

End Requests.

(** ** The generator only moves forward *)

Lemma seed_fold {A : Type} (f : DB -> A -> DB) (l : list A) (d : DB) :
  (forall d x, seed d <= seed (f d x)) -> seed d <= seed (fold_left f l d).
Proof.
  intros Hf. revert d. induction l as [|x r IH]; intros d; simpl; [lia|].
  etransitivity; [apply Hf|apply IH].
Qed.

(** ** Invariants of the stores that requests build *)

Lemma filter_map_same {A : Type} (p : A -> bool) (f : A -> A) (l : list A) :
  (forall x, p (f x) = p x) -> filter p (map f l) = map f (filter p l).
Proof.
  intros H. induction l as [|x r IH]; simpl; [reflexivity|].
  rewrite H. destruct (p x); simpl; now rewrite IH.
Qed.

Lemma answer_update_pair (id : string) (value fileUrl : field string)
    (a : Answer.t) :
  Answer.responseId (answer_update id value fileUrl a) = Answer.responseId a
  /\ Answer.questionId (answer_update id value fileUrl a) = Answer.questionId a.
Proof. unfold answer_update. now destruct (_ =? _)%string. Qed.

Lemma one_answer_kept (d d' : DB) :
  kept (answers d) (answers d') ->
  one_answer_per_pair d -> one_answer_per_pair d'.
Proof.
  intros [p E] H responseId questionId. unfold answers_for. rewrite E.
  etransitivity; [apply filter_filter_length|apply H].
Qed.

Lemma timely_kept (t t' : Z) (d d' : DB) :
  kept (responses d) (responses d') -> (t <= t')%Z ->
  timely t d -> timely t' d'.
Proof.
  intros K Ht H r Hr. destruct (H r (kept_In _ _ _ K Hr)) as [Hs Hc].
  split; [lia|exact Hc].
Qed.

Section Upsert.

Variable uuid : nat -> string.

(** The upsert leaves one answer for the pair: the one it returns.  A field
    of the request that is present is stored; a field that is missing keeps
    what was stored before (nothing, for a new answer). *)
Lemma upsert_answer_spec (d : DB) (responseId questionId : string)
    (value fileUrl : field string) :
  one_answer_per_pair d ->
  let before :=
    find (fun a => (Answer.responseId a =? responseId)%string
                   && (Answer.questionId a =? questionId)%string)
         (answers d) in
  let up := upsert_answer uuid d responseId questionId value fileUrl in
  answers_for (snd up) responseId questionId = [fst up]
  /\ Answer.responseId (fst up) = responseId
  /\ Answer.questionId (fst up) = questionId
  /\ Answer.value (fst up)
     = updated value (match before with
                      | Some old => Answer.value old
                      | None => None
                      end)
  /\ Answer.fileUrl (fst up)
     = updated fileUrl (match before with
                        | Some old => Answer.fileUrl old
                        | None => None
                        end).
Proof.
  intros Hone before up. subst before up. unfold upsert_answer.
  destruct (find _ (answers d)) as [existing|] eqn:E;
    cbn [fst snd]; unfold answers_for; cbn [answers set_answers set_seed].
  - destruct (filter_find_some _ _ _ E) as [rest Hf].
    specialize (Hone responseId questionId). unfold answers_for in Hone.
    rewrite Hf in Hone. destruct rest; [|simpl in Hone; lia].
    apply find_some in E. destruct E as [_ Hp].
    apply andb_true_iff in Hp. destruct Hp as [Hp1 Hp2].
    apply String.eqb_eq in Hp1, Hp2.
    rewrite filter_map_same.
    + rewrite Hf. unfold answer_update. simpl. rewrite !String.eqb_refl.
      now repeat split.
    + intros a. now destruct (answer_update_pair (Answer.id existing)
                                value fileUrl a) as [-> ->].
  - rewrite filter_app, (filter_find_none _ _ E). simpl.
    rewrite !String.eqb_refl. simpl.
    repeat split; now destruct value, fileUrl.
Qed.

Lemma upsert_answer_one (d : DB) (responseId questionId : string)
    (value fileUrl : field string) :
  one_answer_per_pair d ->
  one_answer_per_pair
    (snd (upsert_answer uuid d responseId questionId value fileUrl)).
Proof.
  intros Hone r q. unfold upsert_answer.
  destruct (find _ (answers d)) as [existing|] eqn:E;
    cbn [snd]; unfold answers_for; cbn [answers set_answers set_seed].
  - rewrite filter_map_same.
    + rewrite length_map. apply Hone.
    + intros a. now destruct (answer_update_pair (Answer.id existing)
                                value fileUrl a) as [-> ->].
  - rewrite filter_app, length_app. simpl.
    destruct ((responseId =? r)%string && (questionId =? q)%string) eqn:Hp.
    + apply andb_true_iff in Hp. destruct Hp as [Hp1 Hp2].
      apply String.eqb_eq in Hp1, Hp2. subst r q.
      rewrite (filter_find_none _ _ E). simpl. lia.
    + specialize (Hone r q). unfold answers_for in Hone.
      replace ((responseId =? r)%string) with ((r =? responseId)%string) in Hp
        by apply String.eqb_sym.
      replace ((questionId =? q)%string) with ((q =? questionId)%string) in Hp
        by apply String.eqb_sym.
      simpl. lia.
Qed.

Lemma upsert_answer_responses (d : DB) (responseId questionId : string)
    (value fileUrl : field string) :
  responses (snd (upsert_answer uuid d responseId questionId value fileUrl))
  = responses d.
Proof. unfold upsert_answer. now destruct (find _ (answers d)). Qed.

End Upsert.

Section Invariants.

Variable uuid : nat -> string.

(** The store after [submitAnswer]: as before when it fails, otherwise after
    the upsert and, possibly, the completion of the response. *)
Lemma submitAnswer_store (d : DB) (responseId : string) (body : SubmitBody.t)
    (now : Z) :
  snd (submitAnswer uuid d responseId body now) = d
  \/ exists questionId up,
       up = snd (upsert_answer uuid d responseId questionId
                   (SubmitBody.value body) (SubmitBody.fileUrl body))
       /\ (snd (submitAnswer uuid d responseId body now) = up
           \/ snd (submitAnswer uuid d responseId body now)
              = set_responses
                  (map (response_complete responseId now) (responses up)) up).
Proof.
  destruct (find (fun r => (Response.id r =? responseId)%string) (responses d))
    as [response|] eqn:Hr.
  - destruct (find (id_is (SubmitBody.questionId body))
                   (questions_asc d (Response.formId response)))
      as [question|] eqn:Hq.
    + destruct (submitAnswer_found uuid d responseId body now _ _ Hr Hq)
        as (i & _ & _ & E).
      right. exists (Question.id question). eexists. split; [reflexivity|].
      rewrite E. cbn [snd]. destruct (_ =? _)%nat; [now right|now left].
    + left. now rewrite (submitAnswer_no_question uuid d responseId body now
                           _ Hr Hq).
  - left. now rewrite (submitAnswer_no_response uuid d responseId body now Hr).
Qed.

Lemma create_emails_seed settingsId emails d :
  seed d <= seed (create_emails uuid settingsId emails d).
Proof. apply seed_fold. intros; simpl; lia. Qed.

Lemma create_settings_seed formId settings with_emails d :
  seed d <= seed (create_settings uuid formId settings with_emails d).
Proof.
  unfold create_settings, fresh. cbv zeta.
  destruct (SettingsBody.notificationEmails settings) as [emails|];
    [destruct with_emails|]; try (simpl; lia).
  etransitivity; [|apply create_emails_seed]. simpl. lia.
Qed.

Lemma create_rules_seed logicId rules d :
  seed d <= seed (create_rules uuid logicId rules d).
Proof. apply seed_fold. intros; simpl; lia. Qed.

Lemma create_logic_seed questionId logic d :
  seed d <= seed (create_logic uuid questionId logic d).
Proof.
  unfold create_logic, fresh. cbv zeta.
  destruct (LogicBody.rules logic) as [rules|]; [|simpl; lia].
  etransitivity; [|apply create_rules_seed]. simpl. lia.
Qed.

Lemma update_logic_seed questionId logic d :
  seed d <= seed (update_logic uuid questionId logic d).
Proof.
  unfold update_logic.
  destruct (find _ (conditionalLogics d)) as [existing|],
           (LogicBody.enabled logic); try (simpl; lia).
  - destruct (LogicBody.rules logic) as [rules|]; [|simpl; lia].
    etransitivity; [|apply create_rules_seed]. simpl. lia.
  - apply create_logic_seed.
Qed.

Lemma process_question_seed formId d question :
  seed d <= seed (process_question uuid formId d question).
Proof.
  unfold process_question.
  destruct (is_existing_id (QuestionEntry.id question)).
  - destruct (find _ (questions d)) as [existingQuestion|]; [|lia].
    cbv zeta.
    destruct (QuestionEntry.conditionalLogic question) as [logic|].
    + etransitivity; [|apply update_logic_seed].
      destruct (_ && _); simpl; lia.
    + destruct (_ && _); simpl; lia.
  - unfold fresh. cbv zeta.
    destruct (QuestionEntry.conditionalLogic question) as [logic|];
      [destruct (LogicBody.enabled logic)|]; try (simpl; lia).
    etransitivity; [|apply create_logic_seed]. simpl. lia.
Qed.

Lemma reconcile_theme_seed id existing theme d :
  seed d <= seed (reconcile_theme uuid id existing theme d).
Proof.
  unfold reconcile_theme. destruct theme, existing; simpl; lia.
Qed.

Lemma reconcile_settings_seed id existing settings d :
  seed d <= seed (reconcile_settings uuid id existing settings d).
Proof.
  unfold reconcile_settings.
  destruct settings as [settings|], existing as [old|]; try lia;
    [|apply create_settings_seed].
  destruct (SettingsBody.notificationEmails settings) as [emails|];
    [|simpl; lia].
  destruct (0 <? Z.of_nat (length emails))%Z; [|simpl; lia].
  etransitivity; [|apply create_emails_seed]. simpl. lia.
Qed.

Lemma reconcile_fields_seed d id body :
  seed d <= seed (reconcile_fields uuid d id body).
Proof.
  unfold reconcile_fields. cbv zeta.
  etransitivity; [|apply reconcile_settings_seed].
  etransitivity; [|apply reconcile_theme_seed]. simpl. lia.
Qed.

Lemma reconcile_questions_seed formId entries d :
  seed d <= seed (reconcile_questions uuid formId entries d).
Proof.
  unfold reconcile_questions. cbv zeta.
  assert (H : seed d <= seed (fold_left (process_question uuid formId)
                                entries d))
    by (apply seed_fold; intros; apply process_question_seed).
  destruct (0 <? _)%Z; exact H.
Qed.

(** No request takes an identifier back. *)
Lemma handle_seed d now r : seed d <= seed (handle uuid d now r).
Proof.
  destruct r; cbn [handle].
  - unfold createForm, fresh. cbv zeta. cbn [snd].
    etransitivity;
      [|destruct (CreateFormBody.settings body);
        [apply create_settings_seed|apply Nat.le_refl]].
    destruct (CreateFormBody.theme body); simpl; lia.
  - destruct (updateForm_written uuid d id userId body) as [-> | ->];
      [lia|].
    destruct (UpdateFormBody.questions body).
    + etransitivity; [apply reconcile_fields_seed
                     |apply reconcile_questions_seed].
    + apply reconcile_fields_seed.
  - unfold deleteForm. destruct (find _ (forms d)); simpl; lia.
  - unfold publishForm. destruct (find _ (forms d)); [|simpl; lia].
    destruct (_ =? 0)%Z; simpl; lia.
  - unfold getFormToFill. destruct (loadForm d id); [|simpl; lia].
    destruct (negb _); simpl; lia.
  - unfold trackFormVisit. destruct (find _ (forms d)); simpl; lia.
  - unfold createQuestion. destruct (find _ (forms d)); [|simpl; lia].
    cbv zeta. destruct (QuestionBody.title body), (QuestionBody.type body);
      simpl; lia.
  - unfold updateQuestion. destruct (find _ (forms d)); [|simpl; lia].
    destruct (find _ (questions d)); simpl; lia.
  - unfold deleteQuestion. destruct (find _ (forms d)); [|simpl; lia].
    destruct (find _ (questions d)); simpl; lia.
  - unfold reorderQuestions. destruct (find _ (forms d)); [|simpl; lia].
    destruct (forallb _ _); simpl; lia.
  - unfold startResponse. destruct (find _ (forms d)); simpl; lia.
  - destruct (submitAnswer_store d responseId body now)
      as [->|(questionId & up & Hup & [->| ->])]; [lia| |];
      subst up; unfold upsert_answer;
      destruct (find _ (answers d)); simpl; lia.
Qed.

Lemma response_complete_timely (t now : Z) (responseId : string)
    (r : Response.t) :
  (t <= now)%Z -> (Response.startedAt r <= t)%Z ->
  (Response.isCompleted r = true ->
   exists c, Response.completedAt r = Some c /\ (Response.startedAt r <= c)%Z) ->
  let r' := response_complete responseId now r in
  (Response.startedAt r' <= now)%Z
  /\ (Response.isCompleted r' = true ->
      exists c, Response.completedAt r' = Some c
                /\ (Response.startedAt r' <= c)%Z).
Proof.
  intros Ht Hs Hc. unfold response_complete.
  destruct (_ =? _)%string; simpl.
  - split; [lia|]. intros _. exists now. split; [reflexivity|lia].
  - split; [lia|exact Hc].
Qed.

Lemma handle_one_answer (d : DB) (now : Z) (r : request) :
  one_answer_per_pair d -> one_answer_per_pair (handle uuid d now r).
Proof.
  intros H. pose proof (handle_quiet uuid d now r) as Hq.
  destruct r; try (apply (one_answer_kept d); [apply Hq|exact H]).
  - cbn [handle]. unfold startResponse.
    destruct (find _ (forms d)); exact H.
  - cbn [handle].
    destruct (submitAnswer_store d responseId body now)
      as [->|(questionId & up & Hup & [->| ->])]; [exact H| |];
      subst up; [|intros r q; unfold answers_for; cbn [answers set_responses]];
      now apply upsert_answer_one.
Qed.

Lemma handle_timely (t : Z) (d : DB) (now : Z) (r : request) :
  (t <= now)%Z -> timely t d -> timely now (handle uuid d now r).
Proof.
  intros Ht H. pose proof (handle_quiet uuid d now r) as Hq.
  destruct r; try (apply (timely_kept t now d); [apply Hq|exact Ht|exact H]).
  - cbn [handle]. unfold startResponse.
    destruct (find _ (forms d)); cbn [snd].
    + intros r Hr. cbn [responses set_seed set_responses] in Hr.
      apply in_app_or in Hr. destruct Hr as [Hr|[<-|[]]].
      * destruct (H r Hr) as [Hs Hc]. split; [lia|exact Hc].
      * simpl. split; [lia|discriminate].
    + apply (timely_kept t now d); [apply kept_refl|exact Ht|exact H].
  - cbn [handle].
    destruct (submitAnswer_store d responseId body now)
      as [->|(questionId & up & Hup & [->| ->])].
    + apply (timely_kept t now d); [apply kept_refl|exact Ht|exact H].
    + subst up. apply (timely_kept t now d); [|exact Ht|exact H].
      rewrite upsert_answer_responses. apply kept_refl.
    + subst up. intros r Hr. cbn [responses set_responses] in Hr.
      rewrite upsert_answer_responses in Hr.
      apply in_map_iff in Hr. destruct Hr as (r0 & <- & Hr0).
      destruct (H r0 Hr0) as [Hs Hc].
      now apply (response_complete_timely t).
Qed.

Lemma handle_drawn (d : DB) (now : Z) (r : request) :
  drawn uuid d -> drawn uuid (handle uuid d now r).
Proof.
  intros H. pose proof (handle_seed d now r) as Hs.
  pose proof (handle_quiet uuid d now r) as Hq.
  assert (Hold : forall x, In x (responses d) ->
            exists n, n < seed (handle uuid d now r)
                      /\ Response.respondentId x = uuid n).
  { intros x Hx. destruct (H x Hx) as (n & Hn & E). exists n. split; [lia|].
    exact E. }
  destruct r;
    try (intros x Hx; apply Hold; exact (kept_In _ _ _ (proj1 Hq) Hx)).
  - cbn [handle] in *. unfold startResponse in *.
    destruct (find _ (forms d)); cbn [snd] in *; [|exact Hold].
    intros x Hx. cbn [responses set_seed set_responses] in Hx.
    apply in_app_or in Hx. destruct Hx as [Hx|[<-|[]]]; [now apply Hold|].
    exists (seed d). split; [simpl; lia|reflexivity].
  - cbn [handle] in *.
    destruct (submitAnswer_store d responseId body now)
      as [E|(questionId & up & Hup & [E|E])]; rewrite E in *.
    + exact Hold.
    + subst up. intros x Hx. rewrite upsert_answer_responses in Hx.
      now apply Hold.
    + subst up. intros x Hx. cbn [responses set_responses] in Hx.
      rewrite upsert_answer_responses in Hx. apply in_map_iff in Hx.
      destruct Hx as (x0 & <- & Hx0).
      destruct (Hold x0 Hx0) as (n & Hn & En). exists n.
      split; [exact Hn|]. unfold response_complete.
      now destruct (_ =? _)%string.
Qed.

(** The invariants hold in every store that requests can build. *)
Lemma reachable_invariants (t : Z) (d : DB) :
  reachable uuid t d ->
  one_answer_per_pair d /\ timely t d /\ drawn uuid d.
Proof.
  induction 1 as [t d Hr Ha|t d now r _ (IH1 & IH2 & IH3) Ht].
  - repeat split.
    + intros r q. unfold answers_for. rewrite Ha. simpl. lia.
    + rewrite Hr in H. destruct H.
    + rewrite Hr in H. destruct H.
    + intros r Hin. rewrite Hr in Hin. destruct Hin.
  - split; [now apply handle_one_answer|].
    split; [now apply (handle_timely t)|now apply handle_drawn].
Qed.

(** C5 (as amended).  In a store built by requests, a successful
    [submitAnswer] leaves exactly one stored answer for the response and the
    question, the one it returns.  Each of [value] and [fileUrl] that the
    call supplies (a value or null) is what is stored; a field the call
    leaves out keeps what was stored before the call, and is null when the
    call created the answer. *)
Theorem submitAnswer_upsert (t : Z) (d : DB) (responseId : string)
    (body : SubmitBody.t) (now : Z) (data : SubmitData.t) (d' : DB) :
  reachable uuid t d ->
  submitAnswer uuid d responseId body now = (Success 200 data, d') ->
  let answer := SubmitData.answer data in
  let before :=
    find (fun a => (Answer.responseId a =? responseId)%string
                   && (Answer.questionId a =? Answer.questionId answer)%string)
         (answers d) in
  SubmitBody.questionId body = Some (Answer.questionId answer)
  /\ answers_for d' responseId (Answer.questionId answer) = [answer]
  /\ Answer.value answer
     = updated (SubmitBody.value body)
         (match before with
          | Some old => Answer.value old
          | None => None
          end)
  /\ Answer.fileUrl answer
     = updated (SubmitBody.fileUrl body)
         (match before with
          | Some old => Answer.fileUrl old
          | None => None
          end).
Proof.
  intros Hreach E.
  destruct (reachable_invariants t d Hreach) as (Hone & _).
  destruct (find (fun r => (Response.id r =? responseId)%string) (responses d))
    as [response|] eqn:Hr;
    [|rewrite (submitAnswer_no_response uuid d responseId body now Hr) in E;
      discriminate E].
  destruct (find (id_is (SubmitBody.questionId body))
                 (questions_asc d (Response.formId response)))
    as [question|] eqn:Hq;
    [|rewrite (submitAnswer_no_question uuid d responseId body now _ Hr Hq)
        in E; discriminate E].
  destruct (submitAnswer_found uuid d responseId body now _ _ Hr Hq)
    as (i & _ & _ & E').
  rewrite E' in E. injection E as <- <-. cbn [SubmitData.answer]. cbv zeta.
  destruct (upsert_answer_spec uuid d responseId (Question.id question)
              (SubmitBody.value body) (SubmitBody.fileUrl body) Hone)
    as (H1 & H2 & H3 & H4 & H5).
  rewrite H3. split; [|split; [|split]].
  - apply find_some in Hq. destruct Hq as [_ Hq]. unfold id_is in Hq.
    destruct (SubmitBody.questionId body) as [s|]; [|discriminate].
    apply String.eqb_eq in Hq. now subst.
  - match goal with
    | |- context [if ?c then _ else _] => destruct c
    end; exact H1.
  - exact H4.
  - exact H5.
Qed.

(** C7.  In a store built by requests served at clock readings that never
    go back, a completed response has a completion time, and it is not
    earlier than the start of the response. *)
Theorem completed_has_timestamp (t : Z) (d : DB) (r : Response.t) :
  reachable uuid t d ->
  In r (responses d) ->
  Response.isCompleted r = true ->
  exists c, Response.completedAt r = Some c
            /\ (Response.startedAt r <= c)%Z.
Proof.
  intros Hreach Hin Hc.
  destruct (reachable_invariants t d Hreach) as (_ & Htime & _).
  now apply (Htime r Hin).
Qed.

(** *** Starting a response *)

Lemma ascending_head {A : Type} (key : A -> Z) (l : list A) (x y : A) :
  ascending key l -> nth_error l 0 = Some x -> In y l ->
  (key x <= key y)%Z.
Proof.
  intros Hs Hx Hy. destruct Hs as [|z r _ Hall]; [discriminate|].
  injection Hx as ->. destruct Hy as [->|Hy]; [lia|].
  rewrite Forall_forall in Hall. now apply Hall.
Qed.

(** C2 (as amended).  [startResponse] answers 404 when no form with the
    given id is published.  Otherwise it answers 201, adds one response row
    with [isCompleted = false], no completion time and the respondent
    identifier just drawn from the uuid generator (in a store built by
    requests, with a generator that never repeats, an identifier that no
    stored response has), and returns as first question the head of the
    form's list sorted by ascending order (a question of least order),
    whatever conditional logic it carries, or null when the form has no
    question. *)
Theorem startResponse_first_in_sequence (d : DB) (formId : string) (now : Z) :
  ((forall f, In f (forms d) -> Form.id f = formId ->
              Form.isPublished f = false) ->
   startResponse uuid d formId now
   = (Failure 404 "Form not found or not published", d))
  /\ (forall f, In f (forms d) -> Form.id f = formId ->
                Form.isPublished f = true ->
      exists data,
        startResponse uuid d formId now
        = (Success 201 data,
           set_seed (S (S (seed d)))
             (set_responses
                (responses d
                 ++ [Response.mk (uuid (S (seed d))) formId (uuid (seed d))
                       false now None]) d))
        /\ StartData.response_id data = uuid (S (seed d))
        /\ StartData.response_respondentId data = uuid (seed d)
        /\ (forall t, reachable uuid t d ->
                      (forall m n, uuid m = uuid n -> m = n) ->
                      forall r, In r (responses d) ->
                                Response.respondentId r
                                <> StartData.response_respondentId data)
        /\ StartData.firstQuestion data = nth_error (questions_asc d formId) 0
        /\ (forall q q', StartData.firstQuestion data = Some q ->
                         In q' (questions d) -> Question.formId q' = formId ->
                         (Question.order q <= Question.order q')%Z)).
Proof.
  unfold startResponse. split.
  - intros Hnone.
    destruct (find _ (forms d)) as [form|] eqn:E; [|reflexivity].
    apply find_some in E. destruct E as [Hin Hp].
    apply andb_true_iff in Hp. destruct Hp as [Hid Hpub].
    apply String.eqb_eq in Hid. rewrite (Hnone form Hin Hid) in Hpub.
    discriminate.
  - intros f Hin Hid Hpub.
    destruct (find_exists
                (fun f => (Form.id f =? formId)%string && Form.isPublished f)
                (forms d)) as [form E].
    { exists f. split; [exact Hin|].
      rewrite Hpub, andb_true_r. now apply String.eqb_eq. }
    rewrite E. apply find_some in E. destruct E as [_ Hp].
    apply andb_true_iff in Hp. destruct Hp as [Hform _].
    apply String.eqb_eq in Hform. rewrite Hform.
    assert (Hfirst :
              (if (0 <? Z.of_nat (length (questions_asc d formId)))%Z
               then at_index (questions_asc d formId) 0 else None)
              = nth_error (questions_asc d formId) 0).
    { destruct (questions_asc d formId); reflexivity. }
    eexists. split; [reflexivity|].
    cbn [StartData.response_id StartData.response_respondentId
         StartData.firstQuestion Response.id Response.respondentId].
    split; [reflexivity|]. split; [reflexivity|]. split; [|split].
    + intros t Hreach Hinj r Hr E.
      destruct (reachable_invariants t d Hreach) as (_ & _ & Hdrawn).
      destruct (Hdrawn r Hr) as (n & Hn & En).
      rewrite En in E. apply Hinj in E. lia.
    + exact Hfirst.
    + intros q q' Hq Hq' Hf. rewrite Hfirst in Hq.
      apply (ascending_head Question.order (questions_asc d formId)).
      * apply orderBy_sorted.
      * exact Hq.
      * apply questions_asc_In. now split.
Qed.

End Invariants.

Lemma started_reachable : reachable Sample.uuid 1000 Sample.started.
Proof.
  exact (reachable_step Sample.uuid 0 Sample.scenario 1000 (StartResponse "F")
           (reachable_init Sample.uuid 0 Sample.scenario eq_refl eq_refl)
           (Zle_bool_imp_le 0 1000 eq_refl)).
Defined.

Lemma answered_reachable : reachable Sample.uuid 1001 Sample.answered.
Proof.
  exact (reachable_step Sample.uuid 1000 Sample.started 1001
           (SubmitAnswer "id-1" (Sample.answer "Q1" (Val "a") (Val "u")))
           started_reachable (Zle_bool_imp_le 1000 1001 eq_refl)).
Defined.

Lemma finished_reachable : reachable Sample.uuid 1002 Sample.finished.
Proof.
  exact (reachable_step Sample.uuid 1000 Sample.started 1002
           (SubmitAnswer "id-1" (Sample.answer "Q3" (Val "x") Undefined))
           started_reachable (Zle_bool_imp_le 1000 1002 eq_refl)).
Defined.

Lemma sample_uuid_injective (m n : nat) :
  Sample.uuid m = Sample.uuid n -> m = n.
Proof.
  unfold Sample.uuid. simpl. intros [= E].
  apply DecimalNat.Unsigned.to_uint_inj.
  apply (f_equal NilEmpty.uint_of_string) in E.
  rewrite !NilEmpty.usu in E. now injection E.
Qed.

(** Starting a second response on the started scenario returns Q1 and draws
    a respondent identifier other than that of the first response. *)
Lemma startResponse_first_in_sequence_witness :
  exists data,
    fst (startResponse Sample.uuid Sample.started "F" 1001) = Success 201 data
    /\ StartData.response_respondentId data = "id-2"
    /\ (forall r, In r (responses Sample.started) ->
                  Response.respondentId r
                  <> StartData.response_respondentId data)
    /\ StartData.firstQuestion data = Some Sample.Q1.
Proof.
  destruct (proj2 (startResponse_first_in_sequence Sample.uuid Sample.started
                     "F" 1001)
                  Sample.F (or_introl eq_refl) eq_refl eq_refl)
    as (data & E & _ & H2 & H3 & H4 & _).
  exists data. rewrite E. split; [reflexivity|]. split; [exact H2|].
  split; [exact (H3 1000%Z started_reachable sample_uuid_injective)|exact H4].
Defined.

(** C2 (as stated) fails on a form whose first question has a rule on a
    question that is not answered: the engine shows Q2 first, and
    [startResponse] returns Q1. *)
Lemma first_question_ignores_logic :
  (exists data d',
      startResponse Sample.uuid Sample.gated "F" 1000 = (Success 201 data, d')
      /\ StartData.firstQuestion data = Some Sample.Q1
      /\ Engine.firstQuestion Sample.gated (questions_asc Sample.gated "F")
         = Some Sample.Q2)
  /\ ~ first_question_as_specified Sample.uuid Sample.gated "F" 1000.
Proof.
  split.
  - eexists _, _. split; [reflexivity|]. now vm_compute.
  - intros H.
    specialize (H (StartData.mk "id-1" "id-0" "F" "Survey" None 2
                     (Some Sample.Q1))
                  (snd (startResponse Sample.uuid Sample.gated "F" 1000))
                  eq_refl).
    vm_compute in H. discriminate H.
Qed.

(** Answering Q1 again with "b" and no file keeps one answer, with the new
    value and the file of the first call. *)
Lemma submitAnswer_upsert_witness :
  answers_for
    (snd (submitAnswer Sample.uuid Sample.answered "id-1"
            (Sample.answer "Q1" (Val "b") Undefined) 1002))
    "id-1" "Q1"
  = [Answer.mk "id-2" "Q1" "id-1" (Some "b") (Some "u")].
Proof.
  exact (proj1 (proj2
           (submitAnswer_upsert Sample.uuid 1001 Sample.answered "id-1"
              (Sample.answer "Q1" (Val "b") Undefined) 1002
              (SubmitData.mk (Answer.mk "id-2" "Q1" "id-1" (Some "b") (Some "u"))
                 (Some Sample.Q2) false)
              (snd (submitAnswer Sample.uuid Sample.answered "id-1"
                      (Sample.answer "Q1" (Val "b") Undefined) 1002))
              answered_reachable eq_refl))).
Defined.

(** C5 (as stated) fails when a call leaves a field out: after
    SubmitAnswer(Q1, value "a", file "u") and SubmitAnswer(Q1, value "b"),
    the stored answer still has the file "u", which the last call did not
    send. *)
Lemma resubmission_keeps_missing_field :
  (exists data d',
      submitAnswer Sample.uuid Sample.answered "id-1"
        (Sample.answer "Q1" (Val "b") Undefined) 1002 = (Success 200 data, d')
      /\ answers_for d' "id-1" "Q1" = [SubmitData.answer data]
      /\ Answer.value (SubmitData.answer data) = Some "b"
      /\ Answer.fileUrl (SubmitData.answer data) = Some "u")
  /\ ~ overwrite_as_specified Sample.uuid Sample.answered "id-1"
         (Sample.answer "Q1" (Val "b") Undefined) 1002.
Proof.
  split.
  - eexists _, _. split; [reflexivity|]. now vm_compute.
  - intros H.
    destruct (H (SubmitData.mk
                   (Answer.mk "id-2" "Q1" "id-1" (Some "b") (Some "u"))
                   (Some Sample.Q2) false)
                (snd (submitAnswer Sample.uuid Sample.answered "id-1"
                        (Sample.answer "Q1" (Val "b") Undefined) 1002))
                eq_refl) as (a & Ha & _ & Hf).
    vm_compute in Ha. injection Ha as <-. discriminate Hf.
Qed.

(** The response of the scenario, completed at 1002 after its start at
    1000. *)
Lemma completed_has_timestamp_witness :
  exists c,
    Response.completedAt (Response.mk "id-1" "F" "id-0" true 1000 (Some 1002%Z))
    = Some c
    /\ (Response.startedAt
          (Response.mk "id-1" "F" "id-0" true 1000 (Some 1002%Z)) <= c)%Z.
Proof.
  exact (completed_has_timestamp Sample.uuid 1002 Sample.finished
           (Response.mk "id-1" "F" "id-0" true 1000 (Some 1002%Z))
           finished_reachable (or_introl eq_refl) eq_refl).
Defined.

(** ** Updating a form *)

Section Update.

Variable uuid : nat -> string.

(** Entries whose orders fit the column are all accepted. *)
Lemma accepted_fits (formId : string) (entries : list QuestionEntry.t) :
  Forall (fun question => fits_Int (QuestionEntry.order question) = true)
         entries ->
  forall d, accepted uuid formId entries d = true.
Proof.
  induction 1 as [|question rest Hfit _ IH]; intros d; [reflexivity|].
  cbn [accepted]. rewrite Hfit, orb_true_r. apply IH.
Qed.

Lemma commits_fits (d : DB) (id : string) (body : UpdateFormBody.t) :
  (forall entries, UpdateFormBody.questions body = Some entries ->
     Forall (fun question => fits_Int (QuestionEntry.order question) = true)
            entries) ->
  commits uuid d id body = true.
Proof.
  unfold commits. intros H.
  destruct (UpdateFormBody.questions body) as [entries|]; [|reflexivity].
  now apply accepted_fits, H.
Qed.

(** A transaction that does not commit: 500, and the store as it was. *)
Lemma updateForm_refused (d : DB) (id userId : string)
    (body : UpdateFormBody.t) (existing : Form.t) :
  find (fun f => (Form.id f =? id)%string && (Form.userId f =? userId)%string)
       (forms d) = Some existing ->
  commits uuid d id body = false ->
  updateForm uuid d id userId body
  = (Failure 500 "Value out of range for the type", d).
Proof.
  intros E. unfold updateForm, commits. rewrite E. cbv zeta.
  destruct (UpdateFormBody.questions body) as [entries|]; [|discriminate].
  now intros ->.
Qed.

(** A transaction that commits: 200, and the store it wrote. *)
Lemma updateForm_committed (d : DB) (id userId : string)
    (body : UpdateFormBody.t) (existing : Form.t) :
  find (fun f => (Form.id f =? id)%string && (Form.userId f =? userId)%string)
       (forms d) = Some existing ->
  commits uuid d id body = true ->
  let d' := match UpdateFormBody.questions body with
            | Some entries =>
                reconcile_questions uuid id entries
                  (reconcile_fields uuid d id body)
            | None => reconcile_fields uuid d id body
            end in
  updateForm uuid d id userId body = (Success 200 (loadForm d' id), d').
Proof.
  intros E. unfold updateForm, commits. rewrite E. cbv zeta.
  destruct (UpdateFormBody.questions body) as [entries|]; [|reflexivity].
  now intros ->.
Qed.

Lemma updateForm_forms (d : DB) (id userId : string) (body : UpdateFormBody.t)
    (existing : Form.t) :
  find (fun f => (Form.id f =? id)%string && (Form.userId f =? userId)%string)
       (forms d) = Some existing ->
  commits uuid d id body = true ->
  exists view,
    fst (updateForm uuid d id userId body) = Success 200 view
    /\ forms (snd (updateForm uuid d id userId body))
       = map (form_update id body) (forms d).
Proof.
  intros E C. rewrite (updateForm_committed d id userId body existing E C).
  cbn [fst snd].
  eexists. split; [reflexivity|].
  destruct (reconcile_fields_forms uuid d id body) as (F & _).
  destruct (UpdateFormBody.questions body) as [entries|].
  - now rewrite reconcile_questions_forms, F.
  - exact F.
Qed.

(** C10.  An [updateForm] of an existing form whose payload has no
    [isPublished], or a false one: when its transaction commits, which it
    does when every [order] sent fits the 32-bit column, it answers 200 and
    leaves the form stored with [isPublished = false], whatever the flag was
    before; when a write is refused it answers 500 and the store, the flag
    included, is as it was. *)
Theorem updateForm_unpublishes (d : DB) (id userId : string)
    (body : UpdateFormBody.t) (existing : Form.t) :
  find (fun f => (Form.id f =? id)%string && (Form.userId f =? userId)%string)
       (forms d) = Some existing ->
  UpdateFormBody.isPublished body = None
  \/ UpdateFormBody.isPublished body = Some false ->
  (commits uuid d id body = true ->
   exists view d',
     updateForm uuid d id userId body = (Success 200 view, d')
     /\ (exists f, In f (forms d') /\ Form.id f = id)
     /\ (forall f, In f (forms d') -> Form.id f = id ->
                   Form.isPublished f = false))
  /\ (commits uuid d id body = false ->
      updateForm uuid d id userId body
      = (Failure 500 "Value out of range for the type", d))
  /\ ((forall entries, UpdateFormBody.questions body = Some entries ->
         Forall (fun question =>
                   fits_Int (QuestionEntry.order question) = true) entries) ->
      commits uuid d id body = true).
Proof.
  intros E Hflag.
  split; [|split; [apply (updateForm_refused d id userId body existing E)
                  |apply commits_fits]].
  intros C.
  destruct (updateForm_forms d id userId body existing E C)
    as (view & Hv & Hf).
  exists view, (snd (updateForm uuid d id userId body)).
  split; [rewrite <- Hv; apply surjective_pairing|]. rewrite Hf.
  apply find_some in E. destruct E as [Hin Hp].
  apply andb_true_iff in Hp. destruct Hp as [Hid _].
  split.
  - exists (form_update id body existing). split; [now apply in_map|].
    unfold form_update. rewrite Hid. simpl. now apply String.eqb_eq.
  - intros f Hf' Hfid. apply in_map_iff in Hf'.
    destruct Hf' as (f0 & <- & _). unfold form_update in *.
    destruct (Form.id f0 =? id)%string eqn:E0.
    + simpl. destruct Hflag as [-> | ->]; reflexivity.
    + apply String.eqb_neq in E0. contradiction.
Qed.

Lemma updateForm_questions (d : DB) (id userId : string)
    (body : UpdateFormBody.t) (existing : Form.t)
    (entries : list QuestionEntry.t) :
  find (fun f => (Form.id f =? id)%string && (Form.userId f =? userId)%string)
       (forms d) = Some existing ->
  UpdateFormBody.questions body = Some entries ->
  accepted uuid id entries (reconcile_fields uuid d id body) = true ->
  let d' := reconcile_questions uuid id entries (reconcile_fields uuid d id body) in
  updateForm uuid d id userId body = (Success 200 (loadForm d' id), d').
Proof.
  intros E Hq C. unfold updateForm. now rewrite E, Hq, C.
Qed.

Lemma updateForm_questions_refused (d : DB) (id userId : string)
    (body : UpdateFormBody.t) (existing : Form.t)
    (entries : list QuestionEntry.t) :
  find (fun f => (Form.id f =? id)%string && (Form.userId f =? userId)%string)
       (forms d) = Some existing ->
  UpdateFormBody.questions body = Some entries ->
  accepted uuid id entries (reconcile_fields uuid d id body) = false ->
  updateForm uuid d id userId body
  = (Failure 500 "Value out of range for the type", d).
Proof.
  intros E Hq C. unfold updateForm. now rewrite E, Hq, C.
Qed.

(** C3 (as amended).  An [updateForm] whose payload has a [questions] array
    takes the entries in turn.  When every write is accepted, which is so
    when every [order] sent fits the 32-bit column, it answers 200 and,
    when at least one entry carries an id that starts with [question-], it
    has deleted every question of the form whose id is not among those ids,
    together with its conditional logic and the rules of that logic, in the
    same transaction; questions of other forms and the questions named stay.
    When no entry carries such an id, nothing is deleted.  When a write is
    refused, the transaction is rolled back: the answer is 500 and nothing
    is deleted or written. *)
Theorem updateForm_removes_unnamed (d : DB) (id userId : string)
    (body : UpdateFormBody.t) (existing : Form.t)
    (entries : list QuestionEntry.t) :
  find (fun f => (Form.id f =? id)%string && (Form.userId f =? userId)%string)
       (forms d) = Some existing ->
  UpdateFormBody.questions body = Some entries ->
  let processed :=
    fold_left (process_question uuid id) entries
      (reconcile_fields uuid d id body) in
  (accepted uuid id entries (reconcile_fields uuid d id body) = true ->
   exists view d',
    updateForm uuid d id userId body = (Success 200 view, d')
    /\ (update_ids entries = [] -> d' = processed)
    /\ (update_ids entries <> [] ->
        (forall q, In q (questions d') -> Question.formId q = id ->
                   In (Question.id q) (update_ids entries))
        /\ (forall q, In q (questions processed) ->
              Question.formId q <> id
              \/ In (Question.id q) (update_ids entries) ->
              In q (questions d'))
        /\ (forall q, In q (questions processed) ->
              Question.formId q = id ->
              ~ In (Question.id q) (update_ids entries) ->
              ~ In q (questions d')
              /\ (forall l, In l (conditionalLogics d') ->
                            ConditionalLogic.questionId l <> Question.id q)
              /\ (forall l r,
                    In l (conditionalLogics processed) ->
                    ConditionalLogic.questionId l = Question.id q ->
                    In r (conditionalRules d') ->
                    ConditionalRule.conditionalLogicId r
                    <> ConditionalLogic.id l))))
  /\ (accepted uuid id entries (reconcile_fields uuid d id body) = false ->
      updateForm uuid d id userId body
      = (Failure 500 "Value out of range for the type", d))
  /\ (Forall (fun question => fits_Int (QuestionEntry.order question) = true)
             entries ->
      accepted uuid id entries (reconcile_fields uuid d id body) = true).
Proof.
  intros E Hq processed.
  split; [|split; [apply (updateForm_questions_refused d id userId body
                            existing entries E Hq)
                  |intros Hfit; now apply accepted_fits]].
  intros C.
  pose proof (updateForm_questions d id userId body existing entries E Hq C)
    as Hu. cbv zeta in Hu.
  eexists _, _. split; [exact Hu|]. subst processed.
  set (before := reconcile_fields uuid d id body).
  unfold reconcile_questions. cbv zeta.
  set (processed := fold_left (process_question uuid id) entries before).
  set (ids := update_ids entries).
  set (gone := fun q => (Question.formId q =? id)%string
                        && negb (includes ids (Question.id q))).
  assert (Hgone : forall q, gone q = true
                            <-> Question.formId q = id
                                /\ ~ In (Question.id q) ids).
  { intros q. unfold gone.
    rewrite andb_true_iff, negb_true_iff, String.eqb_eq,
      <- not_true_iff_false, includes_In. tauto. }
  split.
  - intros Hnil. now rewrite Hnil.
  - intros Hids.
    assert (Hlen : (0 <? Z.of_nat (length ids))%Z = true).
    { apply Z.ltb_lt. destruct ids; [contradiction|simpl; lia]. }
    rewrite Hlen. unfold delete_questions. cbv zeta.
    cbn [questions conditionalLogics conditionalRules set_questions
         set_conditionalLogics set_conditionalRules set_answers].
    split; [|split].
    + intros q Hin Hf. apply filter_In in Hin. destruct Hin as [_ Hk].
      apply negb_true_iff in Hk.
      destruct (in_dec string_dec (Question.id q) ids) as [Hi|Hi];
        [exact Hi|].
      assert (Hg : gone q = true) by (apply Hgone; now split).
      congruence.
    + intros q Hin Hor. apply filter_In. split; [exact Hin|].
      apply negb_true_iff. apply not_true_iff_false. rewrite Hgone. tauto.
    + intros q Hin Hf Hni.
      assert (Hg : gone q = true) by (apply Hgone; now split).
      assert (Hq' : In (Question.id q)
                       (map Question.id (filter gone (questions processed))))
        by (apply in_map, filter_In; now split).
      split; [|split].
      * intros Hin'. apply filter_In in Hin'. destruct Hin' as [_ Hk].
        rewrite Hg in Hk. discriminate.
      * intros l Hl Heq. apply filter_In in Hl. destruct Hl as [_ Hk].
        apply negb_true_iff, not_true_iff_false in Hk. apply Hk.
        apply includes_In. now rewrite Heq.
      * intros l r Hl Heq Hr Hrl. apply filter_In in Hr.
        destruct Hr as [_ Hk].
        apply negb_true_iff, not_true_iff_false in Hk. apply Hk.
        apply includes_In. rewrite Hrl. apply in_map, filter_In.
        split; [exact Hl|]. apply includes_In. now rewrite Heq.
Qed.

End Update.

(** An update of the scenario that does not mention [isPublished] leaves the
    published form F unpublished; one that, besides, sends a question with
    the [order] 2147483648 is answered 500 and leaves the store, with the
    published form, as it was. *)
Lemma updateForm_unpublishes_witness :
  (exists view d',
      updateForm Sample.uuid Sample.scenario "F" "owner" Sample.no_questions
      = (Success 200 view, d')
      /\ (exists f, In f (forms d') /\ Form.id f = "F")
      /\ (forall f, In f (forms d') -> Form.id f = "F" ->
                    Form.isPublished f = false))
  /\ updateForm Sample.uuid Sample.scenario "F" "owner" Cases.beyond
     = (Failure 500 "Value out of range for the type", Sample.scenario)
  /\ forms Sample.scenario = [Form.mk "F" "Survey" None true "owner"].
Proof.
  split; [|split; [|reflexivity]].
  - exact (proj1 (updateForm_unpublishes Sample.uuid Sample.scenario "F"
                    "owner" Sample.no_questions Sample.F eq_refl
                    (or_introl eq_refl))
             eq_refl).
  - exact (proj1 (proj2 (updateForm_unpublishes Sample.uuid Sample.scenario
                           "F" "owner" Cases.beyond Sample.F eq_refl
                           (or_introl eq_refl)))
             eq_refl).
Defined.

(** On the draft, after an update that names ["question-1"] only, no other
    question of the form is left; an update that, besides, sends a question
    with the [order] 2147483648 is answered 500 and deletes nothing. *)
Lemma updateForm_removes_unnamed_witness :
  (exists view d',
      updateForm Sample.uuid Sample.draft "F" "owner" Sample.keep_one
      = (Success 200 view, d')
      /\ (forall q, In q (questions d') -> Question.formId q = "F" ->
                    In (Question.id q) ["question-1"]))
  /\ updateForm Sample.uuid Sample.draft "F" "owner" Cases.keep_one_beyond
     = (Failure 500 "Value out of range for the type", Sample.draft).
Proof.
  split.
  - destruct (updateForm_removes_unnamed Sample.uuid Sample.draft "F" "owner"
                Sample.keep_one (Form.mk "F" "Survey" None true "owner")
                [QuestionEntry.mk (Some "question-1") "shortText" "One"
                   Undefined None 0 None None None]
                eq_refl eq_refl) as (Hcommit & _).
    destruct (Hcommit eq_refl) as (view & d' & E & _ & H).
    exists view, d'. split; [exact E|].
    assert (Hne : update_ids
                    [QuestionEntry.mk (Some "question-1") "shortText" "One"
                       Undefined None 0 None None None] <> [])
      by (vm_compute; discriminate).
    exact (proj1 (H Hne)).
  - exact (proj1 (proj2 (updateForm_removes_unnamed Sample.uuid Sample.draft
                           "F" "owner" Cases.keep_one_beyond
                           (Form.mk "F" "Survey" None true "owner") _
                           eq_refl eq_refl))
             eq_refl).
Defined.

(** C3 (as stated) fails when no entry of the batch is an update: with an
    empty [questions] array the two questions of the draft stay, though the
    batch names neither. *)
Lemma empty_batch_deletes_nothing :
  (exists view d',
      updateForm Sample.uuid Sample.draft "F" "owner" Sample.no_questions
      = (Success 200 view, d')
      /\ update_ids [] = []
      /\ questions d' = questions Sample.draft
      /\ conditionalLogics d' = conditionalLogics Sample.draft
      /\ conditionalRules d' = conditionalRules Sample.draft)
  /\ ~ removal_as_specified Sample.uuid Sample.draft "F" "owner"
         Sample.no_questions.
Proof.
  split.
  - eexists _, _. split; [reflexivity|]. now vm_compute.
  - intros H.
    apply (H [] _ _ eq_refl eq_refl (Sample.text "question-1" "F" 0));
      [now left|reflexivity].
Qed.

(** ** Publishing *)

(** [publishForm] refuses a form without questions. *)
Lemma publishForm_needs_question (d : DB) (id userId : string)
    (existing : Form.t) :
  find (fun f => (Form.id f =? id)%string && (Form.userId f =? userId)%string)
       (forms d) = Some existing ->
  questions_of d (Form.id existing) = [] ->
  publishForm d id userId
  = (Failure 400 "Cannot publish a form with no questions", d).
Proof. unfold publishForm. now intros -> ->. Qed.

(** C4 (the code departs from it).  [createForm] writes the [isPublished]
    flag of the request as it is: on the empty store, a request with
    [isPublished = true] answers 201 and stores a published form that has no
    question, a form which [publishForm] itself refuses to publish. *)
Theorem createForm_publishes_empty_form :
  let made := createForm Sample.uuid emptyDB "owner" Sample.published_form in
  fst made = Success 201 (Form.mk "id-0" "Survey" None true "owner")
  /\ forms (snd made) = [Form.mk "id-0" "Survey" None true "owner"]
  /\ questions_of (snd made) "id-0" = []
  /\ publishForm (snd made) "id-0" "owner"
     = (Failure 400 "Cannot publish a form with no questions", snd made).
Proof. cbv zeta. repeat split. Qed.

(** The other two ways to a published form without questions: [updateForm]
    writes the flag of the request unchecked, and [deleteQuestion] removes
    the last question of a published form. *)
Lemma updateForm_publishes_empty_form :
  forms (snd (updateForm Sample.uuid Sample.blank "E" "owner"
                Sample.publish_by_update))
  = [Form.mk "E" "Empty" None true "owner"]
  /\ questions (snd (updateForm Sample.uuid Sample.blank "E" "owner"
                       Sample.publish_by_update)) = [].
Proof. split; reflexivity. Qed.

Lemma deleteQuestion_empties_published_form :
  deleteQuestion Sample.single "F" "Q1" "owner"
  = (Success 200 tt, mkDB [Sample.F] [] [] [] [] [] [] [] [] [] 0).
Proof. reflexivity. Qed.

(** ** Analytics *)


(** *** Rounding in double precision *)

(** The completion rate is computed by a division, two multiplications and
    [Math.round].  [FloatAxioms] gives each operation as its [SpecFloat]
    counterpart; below, the rounding of [SpecFloat] is shown to be to
    nearest on the numbers met here (positive, normal, far from overflow),
    which bounds the error of the three operations and places the argument
    of [Math.round] on the right side of every half-integer that is not the
    exact value. *)

Section Doubles.

Local Open Scope Z_scope.











(** Powers of two. *)
Lemma bpow_add a b : bpow (a + b) = (bpow a * bpow b)%R.
Proof. unfold bpow. apply powerRZ_add. lra. Qed.

Lemma bpow_pos e : (0 < bpow e)%R.
Proof. unfold bpow. apply powerRZ_lt. lra. Qed.

Lemma bpow_IZR n : 0 <= n -> bpow n = IZR (2 ^ n).
Proof.
  intros H. unfold bpow. rewrite <- (Z2Nat.id n H) at 1.
  rewrite <- pow_powerRZ. rewrite <- (Z2Nat.id n H) at 2.
  now rewrite <- pow_IZR.
Qed.



Lemma bpow_le a b : a <= b -> (bpow a <= bpow b)%R.
Proof.
  intros H. replace b with (a + (b - a)) by lia. rewrite bpow_add.
  rewrite (bpow_IZR (b - a)) by lia.
  assert (1 <= 2 ^ (b - a)) by (pose proof (Z.pow_pos_nonneg 2 (b - a)); lia).
  apply IZR_le in H0. pose proof (bpow_pos a). nra.
Qed.








Lemma normal_pos lo hi f v : normal lo hi f v -> (0 < v)%R.
Proof.
  intros (m & e & _ & _ & _ & ->). pose proof (bpow_pos e).
  assert (0 < IZR (Zpos m))%R by (apply IZR_lt; lia). nra.
Qed.














End Doubles.

(** At an exact tie of a larger total the lower neighbour can be reported:
    23 completed out of 160 is 14.375 percent and is reported as 14.37. *)
Lemma reported_rate_at_tie :
  reported_rate 23 160 = (1437 / 100)%float
  /\ (10000 * 23 = 1437 * 160 + 80)%Z
  /\ nearest_hundredths 23 160 1437 = true.
Proof. now vm_compute. Qed.



(** ** Deleting a question *)

Lemma distinct_NoDup (l : list string) : distinct l = true -> NoDup l.
Proof.
  induction l as [|x r IH]; simpl; [constructor|].
  intros H. apply andb_true_iff in H. destruct H as [Hx Hr].
  constructor; [|now apply IH].
  apply negb_true_iff, not_true_iff_false in Hx. now rewrite includes_In in Hx.
Qed.

Lemma dense_by_sorting (l : list Z) :
  orderBy (fun z => z) l = map Z.of_nat (seq 0 (length l)) -> dense l.
Proof.
  intros E. unfold dense. rewrite <- E. symmetry. apply orderBy_perm.
Qed.

Lemma position_not_in (s : string) (l : list string) :
  ~ In s l -> position s l = None.
Proof.
  induction l as [|x r IH]; simpl; [reflexivity|]. intros H.
  destruct (x =? s)%string eqn:E.
  - apply String.eqb_eq in E. tauto.
  - rewrite IH; [reflexivity|tauto].
Qed.

Lemma position_in {A : Type} (f : A -> string) (l : list A) (x : A) :
  NoDup (map f l) -> In x l ->
  exists j, position (f x) (map f l) = Some j /\ nth_error l j = Some x.
Proof.
  induction l as [|y r IH]; simpl; [intros _ []|].
  intros Hnd [->|Hin].
  - exists 0. now rewrite String.eqb_refl.
  - inversion Hnd as [|? ? Hy Hr]; subst.
    destruct (IH Hr Hin) as (j & Hj & Hn).
    exists (S j). destruct (f y =? f x)%string eqn:E.
    + apply String.eqb_eq in E. exfalso. apply Hy. rewrite E.
      now apply in_map.
    + now rewrite Hj.
Qed.

Lemma NoDup_map_injective {A B : Type} (f : A -> B) (l : list A) (x y : A) :
  NoDup (map f l) -> In x l -> In y l -> f x = f y -> x = y.
Proof.
  induction l as [|z r IH]; simpl; [intros _ []|].
  intros Hnd Hx Hy E. inversion Hnd as [|? ? Hz Hr]; subst.
  destruct Hx as [->|Hx], Hy as [->|Hy]; [reflexivity| | |now apply IH].
  - exfalso. apply Hz. rewrite E. now apply in_map.
  - exfalso. apply Hz. rewrite <- E. now apply in_map.
Qed.

Lemma filter_and {A : Type} (p q : A -> bool) (l : list A) :
  filter p (filter q l) = filter (fun x => q x && p x) l.
Proof.
  induction l as [|x r IH]; simpl; [reflexivity|].
  destruct (q x); simpl; [destruct (p x)|]; now rewrite IH.
Qed.

Lemma filter_none {A : Type} (p : A -> bool) (l : list A) :
  (forall x, In x l -> p x = false) -> filter p l = [].
Proof.
  induction l as [|x r IH]; simpl; intros H; [reflexivity|].
  rewrite (H x (or_introl eq_refl)). apply IH. intros y Hy. apply H.
  now right.
Qed.

Lemma ascending_map {A : Type} (key : A -> Z) (l : list A) :
  ascending key l -> ascending (fun z => z) (map key l).
Proof.
  induction 1 as [|x r _ IH Hall]; simpl; constructor; [exact IH|].
  rewrite Forall_forall in *. intros z Hz. apply in_map_iff in Hz.
  destruct Hz as (y & <- & Hy). now apply Hall.
Qed.

Lemma ascending_seq (start len : nat) :
  ascending (fun z => z) (map Z.of_nat (seq start len)).
Proof.
  revert start. induction len as [|len IH]; intros start; simpl;
    constructor; [apply IH|].
  rewrite Forall_forall. intros z Hz. apply in_map_iff in Hz.
  destruct Hz as (i & <- & Hi). apply in_seq in Hi. lia.
Qed.

(** The numbers of [0 .. n-1] above [k] are [k+1 .. n-1]. *)
Lemma seq_above (k n : nat) :
  k < n ->
  filter (fun z => (Z.of_nat k <? z)%Z) (map Z.of_nat (seq 0 n))
  = map Z.of_nat (seq (S k) (n - S k)).
Proof.
  intros Hk. replace n with (S k + (n - S k)) at 1 by lia.
  rewrite seq_app, map_app, filter_app. simpl plus.
  rewrite filter_none, filter_all; [reflexivity| |].
  - intros z Hz. apply in_map_iff in Hz. destruct Hz as (i & <- & Hi).
    apply in_seq in Hi. apply Z.ltb_lt. lia.
  - intros z Hz. apply in_map_iff in Hz. destruct Hz as (i & <- & Hi).
    apply in_seq in Hi. apply Z.ltb_ge. lia.
Qed.

(** Taking [k] out of [0 .. n-1] and moving down what is above [k] gives
    [0 .. n-2]. *)
Lemma seq_close_gap (k n : nat) :
  k < n ->
  map (fun o => if (Z.of_nat k <? o)%Z then (o - 1)%Z else o)
      (filter (fun z => negb (z =? Z.of_nat k)%Z) (map Z.of_nat (seq 0 n)))
  = map Z.of_nat (seq 0 (n - 1)).
Proof.
  intros Hk. replace n with (k + (1 + (n - S k))) at 1 by lia.
  replace (n - 1) with (k + (n - S k)) by lia.
  rewrite !seq_app, !map_app, !filter_app, !map_app. simpl plus.
  f_equal; [|simpl seq; simpl map; simpl filter].
  - rewrite filter_all.
    + rewrite map_map. apply map_ext_in. intros i Hi. apply in_seq in Hi.
      destruct (Z.of_nat k <? Z.of_nat i)%Z eqn:E; [|reflexivity].
      apply Z.ltb_lt in E. lia.
    + intros z Hz. apply in_map_iff in Hz. destruct Hz as (i & <- & Hi).
      apply in_seq in Hi. apply negb_true_iff, Z.eqb_neq. lia.
  - rewrite Z.eqb_refl. simpl. rewrite filter_all.
    + replace (k + 1) with (S k) by lia.
      rewrite <- seq_shift, !map_map. apply map_ext_in. intros i Hi.
      apply in_seq in Hi.
      destruct (Z.of_nat k <? Z.of_nat (S i))%Z eqn:E; [lia|].
      apply Z.ltb_ge in E. lia.
    + intros z Hz. apply in_map_iff in Hz. destruct Hz as (i & <- & Hi).
      apply in_seq in Hi. apply negb_true_iff, Z.eqb_neq. lia.
Qed.

(** The loop of [deleteQuestion]: a row whose id is at position [j] of the
    list of remaining questions gets the order [base + index + j]; the
    other rows are not written. *)
Lemma renumber_spec (remaining : list Question.t) :
  forall (base : Z) (index : nat) (rows : list Question.t),
    NoDup (map Question.id remaining) ->
    renumber base index remaining rows
    = map (fun q =>
             match position (Question.id q) (map Question.id remaining) with
             | Some j => Question.with_order (base + Z.of_nat (index + j))%Z q
             | None => q
             end) rows.
Proof.
  induction remaining as [|r rest IH]; intros base index rows Hnd; simpl.
  - symmetry. apply map_id.
  - inversion Hnd as [|? ? Hr Hrest]; subst.
    rewrite (IH _ _ _ Hrest), map_map. apply map_ext. intros q.
    unfold order_update.
    destruct (Question.id q =? Question.id r)%string eqn:E.
    + apply String.eqb_eq in E. cbn [Question.id Question.with_order].
      rewrite E, (position_not_in _ _ Hr), String.eqb_refl.
      now rewrite Nat.add_0_r.
    + rewrite String.eqb_sym, E.
      destruct (position (Question.id q) (map Question.id rest)) as [j|];
        [|reflexivity].
      cbn [option_map]. now rewrite Nat.add_succ_r.
Qed.

Lemma NoDup_map_filter {K R : Type} (key : R -> K) (keep : R -> bool)
    (rows : list R) (Hkeys : NoDup (map key rows)) :
  NoDup (map key (filter keep rows)).
Proof.
  revert Hkeys. induction rows as [|x r IH]; simpl; [trivial|].
  intros Hnd. inversion Hnd as [|? ? Hx Hr]; subst.
  destruct (keep x); simpl; [|now apply IH].
  constructor; [|now apply IH].
  intros Hin. apply Hx. apply in_map_iff in Hin.
  destruct Hin as (y & E & Hy). apply filter_In in Hy.
  rewrite <- E. apply in_map. tauto.
Qed.

Lemma NoDup_upto (n : nat) : NoDup (map Z.of_nat (seq 0 n)).
Proof.
  generalize 0. induction n as [|n IH]; intros s; simpl; constructor;
    [|apply IH].
  intros Hin. apply in_map_iff in Hin. destruct Hin as (i & E & Hi).
  apply in_seq in Hi. lia.
Qed.

Section Delete.

Variables (d : DB) (formId id userId : string).
Variables (form : Form.t) (existing : Question.t).

Hypothesis Hform :
  find (fun f => (Form.id f =? formId)%string && (Form.userId f =? userId)%string)
       (forms d) = Some form.
Hypothesis Hexisting :
  find (fun q => (Question.id q =? id)%string
                 && (Question.formId q =? formId)%string)
       (questions d) = Some existing.
Hypothesis Hids : NoDup (map Question.id (questions d)).
Hypothesis Hdense : dense (map Question.order (questions_of d formId)).

Let k : Z := Question.order existing.
Let rows : list Question.t :=
  filter (fun q => negb (Question.id q =? id)%string) (questions d).
Let above (q : Question.t) : bool :=
  (Question.formId q =? formId)%string && (k <? Question.order q)%Z.
Let remaining : list Question.t := orderBy Question.order (filter above rows).
Let shift (q : Question.t) : Question.t :=
  if above q then Question.with_order (Question.order q - 1)%Z q else q.

Lemma existing_facts :
  In existing (questions d) /\ Question.id existing = id
  /\ Question.formId existing = formId
  /\ In existing (questions_of d formId).
Proof.
  apply find_some in Hexisting. destruct Hexisting as [Hin Hp].
  apply andb_true_iff in Hp. destruct Hp as [H1 H2].
  apply String.eqb_eq in H1, H2. repeat split; try assumption.
  apply filter_In. split; [exact Hin|now apply String.eqb_eq].
Qed.

Lemma same_id_existing (q : Question.t) :
  In q (questions d) -> Question.id q = id -> q = existing.
Proof.
  destruct existing_facts as (Hin & Hid & _). intros Hq E.
  apply (NoDup_map_injective Question.id (questions d)); congruence.
Qed.

Lemma same_order_existing (q : Question.t) :
  In q (questions_of d formId) -> Question.order q = k -> q = existing.
Proof.
  destruct existing_facts as (_ & _ & _ & Hin). intros Hq E.
  apply (NoDup_map_injective Question.order (questions_of d formId));
    try assumption.
  eapply Permutation_NoDup; [symmetry; exact Hdense|apply NoDup_upto].
Qed.

Lemma order_in_range :
  exists kn, k = Z.of_nat kn /\ kn < length (questions_of d formId).
Proof.
  destruct existing_facts as (_ & _ & _ & Hin).
  assert (H : In k (map Z.of_nat
                      (seq 0 (length (map Question.order
                                        (questions_of d formId)))))).
  { eapply Permutation_in; [exact Hdense|]. now apply in_map. }
  rewrite length_map in H. apply in_map_iff in H.
  destruct H as (kn & E & Hkn). apply in_seq in Hkn. exists kn.
  split; [now symmetry|lia].
Qed.

Lemma above_rows :
  filter above rows
  = filter (fun q => (k <? Question.order q)%Z) (questions_of d formId).
Proof.
  unfold rows, questions_of. rewrite !filter_and. apply filter_ext_in.
  intros q Hq. unfold above.
  destruct (Question.id q =? id)%string eqn:E; [|reflexivity].
  apply String.eqb_eq in E. rewrite (same_id_existing q Hq E). fold k.
  now rewrite Z.ltb_irrefl, andb_false_r.
Qed.

Lemma remaining_orders (kn : nat) :
  k = Z.of_nat kn -> kn < length (questions_of d formId) ->
  map Question.order remaining
  = map Z.of_nat (seq (S kn) (length (questions_of d formId) - S kn)).
Proof.
  intros Hk Hkn.
  assert (E : map Question.order remaining
              = map (fun z : Z => z) (map Question.order remaining))
    by now rewrite map_id.
  rewrite E. rewrite <- (map_id (map Z.of_nat _)).
  apply ascending_keys_unique.
  - apply ascending_map, orderBy_sorted.
  - apply ascending_seq.
  - rewrite !map_id. unfold remaining.
    rewrite (Permutation_map Question.order (orderBy_perm _ (filter above rows))).
    rewrite above_rows, <- seq_above by exact Hkn.
    rewrite <- Hk.
    rewrite <- (filter_map_swap (fun z => (k <? z)%Z) Question.order).
    apply filter_perm. unfold dense in Hdense.
    now rewrite length_map in Hdense.
Qed.

Lemma remaining_ids : NoDup (map Question.id remaining).
Proof.
  eapply Permutation_NoDup.
  - apply Permutation_map. symmetry. apply orderBy_perm.
  - unfold rows. now do 2 apply NoDup_map_filter.
Qed.

(** The loop moves down by one every question of the form above the deleted
    one, and nothing else. *)
Lemma renumber_shift :
  renumber k 0 remaining rows = map shift rows.
Proof.
  destruct order_in_range as (kn & Hk & Hkn).
  rewrite (renumber_spec remaining k 0 rows remaining_ids).
  apply map_ext_in. intros q Hq. unfold shift.
  assert (HqQ : In q (questions d)) by (apply filter_In in Hq; tauto).
  destruct (above q) eqn:Hab.
  - assert (Hin : In q remaining)
      by (apply orderBy_In, filter_In; now split).
    destruct (position_in Question.id remaining q remaining_ids Hin)
      as (j & -> & Hj).
    f_equal.
    assert (Hj' : nth_error (map Question.order remaining) j
                  = Some (Question.order q))
      by (rewrite nth_error_map, Hj; reflexivity).
    rewrite (remaining_orders kn Hk Hkn), nth_error_map in Hj'.
    destruct (nth_error (seq (S kn) _) j) as [i|] eqn:Hi; [|discriminate].
    injection Hj' as Hj'.
    assert (Hlt : j < length (seq (S kn)
                                (length (questions_of d formId) - S kn)))
      by (apply nth_error_Some; congruence).
    rewrite length_seq in Hlt. rewrite nth_error_seq in Hi.
    destruct (Nat.ltb_spec j (length (questions_of d formId) - S kn));
      [|lia].
    injection Hi as <-. lia.
  - rewrite position_not_in; [reflexivity|].
    intros Hin. apply in_map_iff in Hin. destruct Hin as (r & E & Hr).
    apply orderBy_In, filter_In in Hr. destruct Hr as [Hr Hab'].
    assert (HrQ : In r (questions d)) by (apply filter_In in Hr; tauto).
    assert (r = q)
      by (apply (NoDup_map_injective Question.id (questions d)); assumption).
    congruence.
Qed.

Lemma shifted_dense :
  dense (map Question.order
           (filter (fun q => (Question.formId q =? formId)%string)
                   (map shift rows))).
Proof.
  destruct order_in_range as (kn & Hk & Hkn).
  set (n := length (questions_of d formId)) in *.
  assert (HP : Permutation
                 (map Question.order
                    (filter (fun q => (Question.formId q =? formId)%string)
                            (map shift rows)))
                 (map Z.of_nat (seq 0 (n - 1)))).
  { rewrite filter_map_same
      by (intros q; unfold shift; now destruct (above q)).
    unfold rows. rewrite filter_comm. fold (questions_of d formId).
    rewrite map_map.
    rewrite (map_ext_in _
               (fun q => (fun o => if (k <? o)%Z then (o - 1)%Z else o)
                           (Question.order q))).
    2:{ intros q Hq. apply filter_In in Hq. destruct Hq as [Hq _].
        apply filter_In in Hq. destruct Hq as [_ Hf].
        unfold shift, above. rewrite Hf. simpl.
        now destruct (k <? Question.order q)%Z. }
    rewrite <- (map_map Question.order
                  (fun o => if (k <? o)%Z then (o - 1)%Z else o)).
    rewrite <- (seq_close_gap kn n Hkn), <- Hk.
    apply Permutation_map.
    rewrite (filter_ext_in _ (fun q => negb (Question.order q =? k)%Z)).
    2:{ intros q Hq. f_equal.
        destruct (Question.id q =? id)%string eqn:E1,
                 (Question.order q =? k)%Z eqn:E2; try reflexivity.
        - apply String.eqb_eq in E1. apply Z.eqb_neq in E2.
          apply filter_In in Hq. destruct Hq as [Hq _].
          rewrite (same_id_existing q Hq E1) in E2. now elim E2.
        - apply String.eqb_neq in E1. apply Z.eqb_eq in E2.
          rewrite (same_order_existing q Hq E2) in E1.
          destruct existing_facts as (_ & Hid & _). contradiction. }
    rewrite <- (filter_map_swap (fun z => negb (z =? k)%Z) Question.order).
    apply filter_perm. unfold dense in Hdense.
    now rewrite length_map in Hdense. }
  unfold dense. rewrite (Permutation_length HP), length_map, length_seq.
  exact HP.
Qed.

(** C6.  On a form whose question orders are 0 to N-1 in some arrangement
    (ids being unique), [deleteQuestion] of a question of the form answers
    200, removes the question, lowers by one the order of every remaining
    question of the form whose order was greater, and writes no other row:
    the rows keep their sequence and the orders of the form are 0 to N-2. *)
Theorem deleteQuestion_compacts :
  fst (deleteQuestion d formId id userId) = Success 200 tt
  /\ questions (snd (deleteQuestion d formId id userId))
     = map (fun q =>
              if (Question.formId q =? formId)%string
                 && (Question.order existing <? Question.order q)%Z
              then Question.with_order (Question.order q - 1)%Z q
              else q)
           (filter (fun q => negb (Question.id q =? id)%string) (questions d))
  /\ (forall q, In q (questions (snd (deleteQuestion d formId id userId))) ->
                Question.id q <> id)
  /\ dense (map Question.order
              (questions_of (snd (deleteQuestion d formId id userId)) formId)).
Proof.
  assert (E : deleteQuestion d formId id userId
              = (Success 200 tt,
                 set_questions (map shift rows)
                   (delete_questions
                      (fun q => (Question.id q =? id)%string) d))).
  { unfold deleteQuestion. rewrite Hform, Hexisting. cbv zeta.
    f_equal. f_equal. exact renumber_shift. }
  rewrite E. cbn [fst snd]. split; [reflexivity|].
  split; [reflexivity|]. split.
  - intros q Hq. cbn [questions set_questions] in Hq.
    apply in_map_iff in Hq. destruct Hq as (q0 & <- & Hq0).
    apply filter_In in Hq0. destruct Hq0 as [_ Hne].
    apply negb_true_iff, String.eqb_neq in Hne.
    unfold shift. now destruct (above q0).
  - exact shifted_dense.
Qed.

End Delete.

(** Deleting Q2 (order 1) from the form with orders 0 to 3 leaves Q3, Q1 and
    Q4 in their sequence, at orders 1, 0 and 2. *)
Lemma deleteQuestion_compacts_witness :
  fst (deleteQuestion Sample.four "F" "Q2" "owner") = Success 200 tt
  /\ map (fun q => (Question.id q, Question.order q))
         (questions (snd (deleteQuestion Sample.four "F" "Q2" "owner")))
     = [("Q3", 1%Z); ("Q1", 0%Z); ("Q4", 2%Z)]
  /\ dense (map Question.order
              (questions_of (snd (deleteQuestion Sample.four "F" "Q2" "owner"))
                 "F")).
Proof.
  destruct (deleteQuestion_compacts Sample.four "F" "Q2" "owner" Sample.F
              Sample.Q2 eq_refl eq_refl
              (distinct_NoDup (map Question.id (questions Sample.four))
                 eq_refl)
              (dense_by_sorting
                 (map Question.order (questions_of Sample.four "F")) eq_refl))
    as (H1 & H2 & _ & H4).
  split; [exact H1|]. split; [|exact H4].
  rewrite H2. reflexivity.
Defined.

(** * Further properties of the handlers *)

(** ** Foreign keys *)

Section Refers.

Context {A B : Type}.
Variables (key : A -> string) (id : B -> string).

Lemma refers_app (rows : list A) (x : A) (targets : list B) :
  refers key rows id targets -> In (key x) (map id targets) ->
  refers key (rows ++ [x]) id targets.
Proof.
  intros H Hx y Hy. apply in_app_or in Hy. destruct Hy as [Hy|[<-|[]]]; auto.
Qed.

Lemma refers_more (rows : list A) (targets targets' : list B) :
  incl (map id targets) (map id targets') ->
  refers key rows id targets -> refers key rows id targets'.
Proof. intros Hi H x Hx. apply Hi, H, Hx. Qed.

Lemma refers_same (rows : list A) (targets targets' : list B) :
  map id targets' = map id targets ->
  refers key rows id targets -> refers key rows id targets'.
Proof. intros E H x Hx. rewrite E. now apply H. Qed.

Lemma refers_map (f : A -> A) (rows : list A) (targets : list B) :
  (forall x, key (f x) = key x) ->
  refers key rows id targets -> refers key (map f rows) id targets.
Proof.
  intros Hf H y Hy. apply in_map_iff in Hy. destruct Hy as (x & <- & Hx).
  rewrite Hf. now apply H.
Qed.

Lemma refers_filter (p : A -> bool) (rows : list A) (targets : list B) :
  refers key rows id targets -> refers key (filter p rows) id targets.
Proof. intros H x Hx. apply filter_In in Hx. now apply H. Qed.

(** A cascading delete keeps the foreign key: the rows that named a deleted
    target are deleted with it. *)
Lemma refers_cascade (gone : B -> bool) (p : A -> bool) (rows : list A)
    (targets : list B) :
  (forall x t, In x rows -> In t targets -> key x = id t ->
               p x = true -> gone t = false) ->
  refers key rows id targets ->
  refers key (filter p rows) id (filter (fun t => negb (gone t)) targets).
Proof.
  intros Hp H x Hx. apply filter_In in Hx. destruct Hx as [Hx Hpx].
  specialize (H x Hx). apply in_map_iff in H. destruct H as (t & E & Ht).
  apply in_map_iff. exists t. split; [exact E|]. apply filter_In.
  split; [exact Ht|]. now rewrite (Hp x t Hx Ht (eq_sym E) Hpx).
Qed.

End Refers.

Lemma map_id_map {A : Type} (id : A -> string) (f : A -> A) (l : list A) :
  (forall x, id (f x) = id x) -> map id (map f l) = map id l.
Proof. intros H. rewrite map_map. now apply map_ext. Qed.

Lemma includes_false (l : list string) (s : string) :
  includes l s = false <-> ~ In s l.
Proof.
  rewrite <- includes_In. now destruct (includes l s).
Qed.

Ltac tables :=
  cbn [forms themes formSettings notificationEmails questions
       conditionalLogics conditionalRules responses answers formVisits seed
       set_forms set_themes set_formSettings set_notificationEmails
       set_questions set_conditionalLogics set_conditionalRules
       set_responses set_answers set_formVisits set_seed] in *.

Ltac open_linked H :=
  destruct H as (Lt & Ls & Le & Lq & Ll & Lr & Lp & Laq & Lar & Lv).

Ltac close_linked :=
  unfold linked; tables; repeat split;
  try assumption;
  try (apply refers_app; [assumption|]);
  try (apply refers_filter; assumption).

Section Linked.

Variable uuid : nat -> string.

Lemma linked_seed (n : nat) (d : DB) : linked d -> linked (set_seed n d).
Proof. intros H. open_linked H. close_linked. Qed.

Lemma create_theme_linked formId theme d :
  In formId (map Form.id (forms d)) ->
  linked d -> linked (create_theme uuid formId theme d).
Proof.
  intros Hf H. open_linked H. unfold create_theme, fresh. close_linked.
  exact Hf.
Qed.

Lemma linked_fold {A : Type} (f : DB -> A -> DB) (P : DB -> Prop)
    (l : list A) (d : DB) :
  (forall d x, P d -> linked d -> P (f d x) /\ linked (f d x)) ->
  P d -> linked d -> linked (fold_left f l d).
Proof.
  intros Hf. revert d. induction l as [|x r IH]; intros d HP H; simpl.
  - exact H.
  - destruct (Hf d x HP H). now apply IH.
Qed.

Lemma create_emails_linked settingsId emails d :
  In settingsId (map FormSettings.id (formSettings d)) ->
  linked d -> linked (create_emails uuid settingsId emails d).
Proof.
  unfold create_emails.
  apply (linked_fold _
           (fun d => In settingsId (map FormSettings.id (formSettings d)))).
  intros d0 email Hs H. unfold fresh. tables. split; [exact Hs|].
  open_linked H. close_linked. exact Hs.
Qed.

Lemma create_settings_linked formId settings with_emails d :
  In formId (map Form.id (forms d)) ->
  linked d -> linked (create_settings uuid formId settings with_emails d).
Proof.
  intros Hf H. unfold create_settings, fresh. cbv zeta.
  match goal with
  | |- linked (match _ with Some _ => _ | None => ?d1 end) =>
      assert (H1 : linked d1
                   /\ In (uuid (seed d))
                         (map FormSettings.id (formSettings d1)))
  end.
  { split.
    - open_linked H. close_linked.
      + exact Hf.
      + eapply refers_more; [|exact Le]. rewrite map_app.
        apply incl_appl, incl_refl.
    - tables. rewrite map_app. apply in_or_app. right. now left. }
  destruct H1 as [H1 Hin].
  destruct (SettingsBody.notificationEmails settings) as [emails|];
    [destruct with_emails|]; try exact H1.
  now apply create_emails_linked.
Qed.

Lemma reconcile_theme_linked id existing theme d :
  In id (map Form.id (forms d)) ->
  linked d -> linked (reconcile_theme uuid id existing theme d).
Proof.
  intros Hf H. unfold reconcile_theme.
  destruct theme as [theme|], existing as [old|]; try exact H.
  - open_linked H. close_linked. apply refers_map; [|exact Lt].
    intros t. unfold theme_update. now destruct (_ =? _)%string.
  - now apply create_theme_linked.
Qed.

Lemma settings_update_ids formId settings l :
  map FormSettings.id (map (settings_update formId settings) l)
  = map FormSettings.id l.
Proof.
  apply map_id_map. intros s. unfold settings_update.
  now destruct (_ =? _)%string.
Qed.

Lemma reconcile_settings_linked id existing settings d :
  In id (map Form.id (forms d)) ->
  (forall old, existing = Some old -> In old (formSettings d)) ->
  linked d -> linked (reconcile_settings uuid id existing settings d).
Proof.
  intros Hf Hold H. unfold reconcile_settings.
  destruct settings as [settings|], existing as [old|]; try exact H;
    [|now apply create_settings_linked].
  cbv zeta.
  assert (Hin : In (FormSettings.id old)
                   (map FormSettings.id
                      (map (settings_update id settings) (formSettings d))))
    by (rewrite settings_update_ids; apply in_map; now apply Hold).
  assert (H1 : linked (set_formSettings
                         (map (settings_update id settings) (formSettings d))
                         d)).
  { open_linked H. close_linked.
    - apply refers_map; [|exact Ls].
      intros s. unfold settings_update. now destruct (_ =? _)%string.
    - eapply refers_same; [apply settings_update_ids|exact Le]. }
  destruct (SettingsBody.notificationEmails settings) as [emails|];
    [|exact H1].
  match goal with
  | |- linked (if _ then create_emails _ _ _ ?d2 else _) =>
      assert (H2 : linked d2) by (open_linked H1; close_linked)
  end.
  destruct (0 <? _)%Z; [|exact H2].
  apply create_emails_linked; [exact Hin|exact H2].
Qed.

Lemma create_rules_linked logicId rules d :
  In logicId (map ConditionalLogic.id (conditionalLogics d)) ->
  linked d -> linked (create_rules uuid logicId rules d).
Proof.
  unfold create_rules.
  apply (linked_fold _
           (fun d => In logicId
                       (map ConditionalLogic.id (conditionalLogics d)))).
  intros d0 rule Hs H. unfold fresh. tables. split; [exact Hs|].
  open_linked H. close_linked. exact Hs.
Qed.

Lemma create_logic_linked questionId logic d :
  In questionId (map Question.id (questions d)) ->
  linked d -> linked (create_logic uuid questionId logic d).
Proof.
  intros Hq H. unfold create_logic, fresh. cbv zeta.
  match goal with
  | |- linked (match _ with Some _ => _ | None => ?d1 end) =>
      assert (H1 : linked d1
                   /\ In (uuid (seed d))
                         (map ConditionalLogic.id (conditionalLogics d1)))
  end.
  { split.
    - open_linked H. close_linked.
      + exact Hq.
      + eapply refers_more; [|exact Lr]. rewrite map_app.
        apply incl_appl, incl_refl.
    - tables. rewrite map_app. apply in_or_app. right. now left. }
  destruct H1 as [H1 Hin].
  destruct (LogicBody.rules logic) as [rules|]; [|exact H1].
  now apply create_rules_linked.
Qed.

Lemma logic_enable_ids id enabled d :
  map ConditionalLogic.id (conditionalLogics (logic_enable id enabled d))
  = map ConditionalLogic.id (conditionalLogics d).
Proof.
  unfold logic_enable. tables. apply map_id_map. intros l.
  now destruct (_ =? _)%string.
Qed.

Lemma logic_enable_linked id enabled d :
  linked d -> linked (logic_enable id enabled d).
Proof.
  intros H. pose proof (logic_enable_ids id enabled d) as E.
  unfold logic_enable in *. tables. open_linked H. close_linked.
  - apply refers_map; [|exact Ll]. intros l. now destruct (_ =? _)%string.
  - eapply refers_same; [exact E|exact Lr].
Qed.

Lemma delete_rules_linked logicId d :
  linked d -> linked (delete_rules logicId d).
Proof. intros H. unfold delete_rules. open_linked H. close_linked. Qed.

Lemma update_logic_linked questionId logic d :
  In questionId (map Question.id (questions d)) ->
  linked d -> linked (update_logic uuid questionId logic d).
Proof.
  intros Hq H. unfold update_logic.
  destruct (find _ (conditionalLogics d)) as [existing|] eqn:E,
           (LogicBody.enabled logic); cbv zeta;
    try exact H; try (now apply create_logic_linked).
  - apply find_some in E. destruct E as [E _].
    assert (H1 : linked (delete_rules (ConditionalLogic.id existing)
                           (logic_enable (ConditionalLogic.id existing) true
                              d)))
      by now apply delete_rules_linked, logic_enable_linked.
    destruct (LogicBody.rules logic) as [rules|]; [|exact H1].
    apply create_rules_linked; [|exact H1].
    unfold delete_rules. tables. rewrite logic_enable_ids. now apply in_map.
  - now apply delete_rules_linked, logic_enable_linked.
Qed.

Lemma question_update_keys question id q :
  Question.id (question_update question id q) = Question.id q
  /\ Question.formId (question_update question id q) = Question.formId q.
Proof. unfold question_update. now destruct (_ =? _)%string. Qed.

Lemma options_update_keys options id q :
  Question.id (options_update options id q) = Question.id q
  /\ Question.formId (options_update options id q) = Question.formId q.
Proof. unfold options_update. now destruct (_ =? _)%string. Qed.

(** Rewriting question rows without touching [id] and [formId]. *)
Lemma questions_map_linked (f : Question.t -> Question.t) (d : DB) :
  (forall q, Question.id (f q) = Question.id q
             /\ Question.formId (f q) = Question.formId q) ->
  linked d -> linked (set_questions (map f (questions d)) d).
Proof.
  intros Hf H.
  assert (E : map Question.id (map f (questions d))
              = map Question.id (questions d))
    by (apply map_id_map; intros q; apply Hf).
  open_linked H. close_linked.
  - apply refers_map; [|exact Lq]. intros q. apply Hf.
  - eapply refers_same; [exact E|exact Ll].
  - eapply refers_same; [exact E|exact Laq].
Qed.

Lemma process_question_linked formId d question :
  In formId (map Form.id (forms d)) ->
  linked d -> linked (process_question uuid formId d question).
Proof.
  intros Hf H. unfold process_question.
  destruct (is_existing_id (QuestionEntry.id question)).
  - set (id := match QuestionEntry.id question with
               | Some s => s
               | None => ""
               end).
    destruct (find _ (questions d)) as [existingQuestion|] eqn:E;
      [|exact H].
    apply find_some in E. destruct E as [Hin Hid].
    apply String.eqb_eq in Hid. cbv zeta.
    assert (H1 : linked (set_questions
                           (map (question_update question id) (questions d))
                           d))
      by (apply questions_map_linked;
          [intros q; apply question_update_keys|exact H]).
    match goal with
    | |- linked (match _ with Some _ => _ | None => ?d2 end) =>
        assert (H2 : linked d2
                     /\ In id (map Question.id (questions d2)))
    end.
    { destruct (_ && _).
      - split.
        + apply (questions_map_linked
                   (options_update (QuestionEntry.options question) id));
            [intros q; apply options_update_keys|exact H1].
        + tables. rewrite !map_id_map
            by (intros q; first [apply options_update_keys
                                |apply question_update_keys]).
          rewrite <- Hid. now apply in_map.
      - split; [exact H1|]. tables. rewrite map_id_map
          by (intros q; apply question_update_keys).
        rewrite <- Hid. now apply in_map. }
    destruct H2 as [H2 Hq].
    destruct (QuestionEntry.conditionalLogic question) as [logic|];
      [|exact H2].
    now apply update_logic_linked.
  - unfold fresh. cbv zeta.
    match goal with
    | |- linked (match _ with Some _ => _ | None => ?d1 end) =>
        assert (H1 : linked d1
                     /\ In (uuid (seed d)) (map Question.id (questions d1)))
    end.
    { split.
      - open_linked H. close_linked.
        + exact Hf.
        + eapply refers_more; [|exact Ll]. rewrite map_app.
          apply incl_appl, incl_refl.
        + eapply refers_more; [|exact Laq]. rewrite map_app.
          apply incl_appl, incl_refl.
      - tables. rewrite map_app. apply in_or_app. right. now left. }
    destruct H1 as [H1 Hq].
    destruct (QuestionEntry.conditionalLogic question) as [logic|];
      [destruct (LogicBody.enabled logic)|]; try exact H1.
    now apply create_logic_linked.
Qed.

(** Deleting targets by a test, and the rows that name them by membership
    of their key in the deleted identifiers. *)
Lemma refers_notin {A B : Type} (key : A -> string) (id : B -> string)
    (gone : B -> bool) (rows : list A) (targets : list B) :
  refers key rows id targets ->
  refers key
    (filter (fun x => negb (includes (map id (filter gone targets)) (key x)))
            rows)
    id (filter (fun t => negb (gone t)) targets).
Proof.
  apply refers_cascade. intros x t _ Ht E Hp.
  apply negb_true_iff, includes_false in Hp.
  destruct (gone t) eqn:G; [|reflexivity].
  elim Hp. rewrite E. apply in_map, filter_In. now split.
Qed.

Lemma refers_noteq {A B : Type} (key : A -> string) (id : B -> string)
    (s : string) (rows : list A) (targets : list B) :
  refers key rows id targets ->
  refers key (filter (fun x => negb (key x =? s)%string) rows)
    id (filter (fun t => negb (id t =? s)%string) targets).
Proof.
  apply (refers_cascade key id (fun t => (id t =? s)%string)).
  intros x t _ _ E Hp. rewrite <- E. now apply negb_true_iff.
Qed.

Lemma delete_questions_linked p d :
  linked d -> linked (delete_questions p d).
Proof.
  intros H. unfold delete_questions. cbv zeta. open_linked H. close_linked.
  - now apply refers_notin.
  - now apply refers_notin.
  - now apply refers_notin.
Qed.

Lemma delete_form_linked id d : linked d -> linked (delete_form id d).
Proof.
  intros H. unfold delete_form. cbv zeta.
  pose proof (delete_questions_linked
                (fun q => (Question.formId q =? id)%string) d H) as H1.
  set (d1 := delete_questions _ d) in *.
  assert (Eq : questions d1
               = filter (fun q => negb (Question.formId q =? id)%string)
                        (questions d)) by reflexivity.
  clearbody d1. open_linked H1. close_linked.
  - now apply refers_noteq.
  - now apply refers_noteq.
  - now apply refers_notin.
  - rewrite Eq. rewrite Eq in Lq.
    intros q Hq. specialize (Lq q Hq). apply filter_In in Hq.
    destruct Hq as [_ Hq]. apply in_map_iff in Lq.
    destruct Lq as (f & E & Hf). apply in_map_iff. exists f.
    split; [exact E|]. apply filter_In. split; [exact Hf|]. now rewrite E.
  - now apply refers_noteq.
  - now apply refers_notin.
  - now apply refers_noteq.
Qed.

Lemma find_form_In (d : DB) (id userId : string) (form : Form.t) :
  find (fun f => (Form.id f =? id)%string && (Form.userId f =? userId)%string)
       (forms d) = Some form ->
  In form (forms d) /\ Form.id form = id /\ Form.userId form = userId.
Proof.
  intros E. apply find_some in E. destruct E as [Hin Hp].
  apply andb_true_iff in Hp. destruct Hp as [H1 H2].
  apply String.eqb_eq in H1, H2. now repeat split.
Qed.

Lemma find_form_id (d : DB) (id userId : string) (form : Form.t) :
  find (fun f => (Form.id f =? id)%string && (Form.userId f =? userId)%string)
       (forms d) = Some form ->
  In id (map Form.id (forms d)).
Proof.
  intros E. destruct (find_form_In d id userId form E) as (Hin & <- & _).
  now apply in_map.
Qed.

Lemma forms_map_linked (f : Form.t -> Form.t) (d : DB) :
  (forall x, Form.id (f x) = Form.id x) ->
  linked d -> linked (set_forms (map f (forms d)) d).
Proof.
  intros Hf H.
  assert (E : map Form.id (map f (forms d)) = map Form.id (forms d))
    by now apply map_id_map.
  open_linked H. close_linked; eapply refers_same; eassumption.
Qed.

Lemma form_update_id id body f : Form.id (form_update id body f) = Form.id f.
Proof. unfold form_update. now destruct (_ =? _)%string. Qed.

Lemma reconcile_theme_formSettings id existing theme d :
  formSettings (reconcile_theme uuid id existing theme d) = formSettings d.
Proof. unfold reconcile_theme. now destruct theme, existing. Qed.

Lemma reconcile_fields_linked d id body :
  In id (map Form.id (forms d)) ->
  linked d -> linked (reconcile_fields uuid d id body).
Proof.
  intros Hf H. unfold reconcile_fields. cbv zeta.
  set (d1 := set_forms (map (form_update id body) (forms d)) d).
  assert (H1 : linked d1)
    by (apply forms_map_linked; [apply form_update_id|exact H]).
  assert (Hf1 : In id (map Form.id (forms d1)))
    by (unfold d1; tables; rewrite map_id_map by apply form_update_id;
        exact Hf).
  apply reconcile_settings_linked.
  - destruct (reconcile_theme_core uuid id
                (find (fun t => (Theme.formId t =? id)%string) (themes d))
                (UpdateFormBody.theme body) d1) as (-> & _). exact Hf1.
  - intros old E. apply find_some in E. destruct E as [E _].
    now rewrite reconcile_theme_formSettings.
  - now apply reconcile_theme_linked.
Qed.

Lemma reconcile_questions_linked formId entries d :
  In formId (map Form.id (forms d)) ->
  linked d -> linked (reconcile_questions uuid formId entries d).
Proof.
  intros Hf H. unfold reconcile_questions. cbv zeta.
  assert (H1 : linked (fold_left (process_question uuid formId) entries d)).
  { apply (linked_fold _ (fun d => In formId (map Form.id (forms d))));
      [|exact Hf|exact H].
    intros d0 q Hf0 H0. split; [|now apply process_question_linked].
    destruct (process_question_core uuid formId d0 q) as (-> & _).
    exact Hf0. }
  destruct (0 <? _)%Z; [|exact H1]. now apply delete_questions_linked.
Qed.

Lemma updateForm_linked d id userId body :
  linked d -> linked (snd (updateForm uuid d id userId body)).
Proof.
  intros H. unfold updateForm.
  destruct (find _ (forms d)) as [existingForm|] eqn:E; [|exact H].
  cbv zeta. apply find_form_id in E.
  pose proof (reconcile_fields_linked d id body E H) as H1.
  destruct (UpdateFormBody.questions body) as [entries|]; [|exact H1].
  destruct (accepted uuid id entries _); [|exact H]. cbn [snd].
  apply reconcile_questions_linked; [|exact H1].
  destruct (reconcile_fields_forms uuid d id body) as (-> & _).
  rewrite map_id_map by apply form_update_id. exact E.
Qed.

Lemma createForm_linked d userId body :
  linked d -> linked (snd (createForm uuid d userId body)).
Proof.
  intros H. unfold createForm, fresh. cbv zeta. cbn [snd].
  set (id := uuid (seed d)).
  set (form := Form.mk id _ _ _ _).
  set (d1 := set_forms (forms (set_seed (S (seed d)) d) ++ [form])
               (set_seed (S (seed d)) d)).
  assert (Hin : In id (map Form.id (forms d1)))
    by (unfold d1; tables; rewrite map_app; apply in_or_app; right;
        now left).
  assert (H1 : linked d1).
  { assert (Hi : incl (map Form.id (forms d)) (map Form.id (forms d1)))
      by (unfold d1; tables; rewrite map_app; apply incl_appl, incl_refl).
    unfold d1 in *. tables. open_linked H. close_linked;
      eapply refers_more; eassumption. }
  clearbody d1.
  assert (H2 : linked (match CreateFormBody.theme body with
                       | Some theme => create_theme uuid id theme d1
                       | None => d1
                       end)
               /\ In id (map Form.id
                           (forms (match CreateFormBody.theme body with
                                   | Some theme => create_theme uuid id theme d1
                                   | None => d1
                                   end)))).
  { destruct (CreateFormBody.theme body) as [theme|]; [|now split].
    split; [now apply create_theme_linked|exact Hin]. }
  destruct H2 as [H2 Hin2].
  destruct (CreateFormBody.settings body) as [settings|]; [|exact H2].
  now apply create_settings_linked.
Qed.

Lemma create_visit_linked formId ip ua ref d :
  In formId (map Form.id (forms d)) ->
  linked d -> linked (create_visit uuid formId ip ua ref d).
Proof.
  intros Hf H. unfold create_visit, fresh. open_linked H. close_linked.
  exact Hf.
Qed.

Lemma renumber_keys base remaining :
  forall index rows,
    map (fun q => (Question.id q, Question.formId q))
        (renumber base index remaining rows)
    = map (fun q => (Question.id q, Question.formId q)) rows.
Proof.
  induction remaining as [|question rest IH]; intros index rows; simpl;
    [reflexivity|].
  rewrite IH, map_map. apply map_ext. intros q. unfold order_update.
  now destruct (_ =? _)%string.
Qed.

(** Replacing the question rows by rows with the same [id] and [formId],
    one for one. *)
Lemma questions_keys_linked (rows : list Question.t) (d : DB) :
  map (fun q => (Question.id q, Question.formId q)) rows
  = map (fun q => (Question.id q, Question.formId q)) (questions d) ->
  linked d -> linked (set_questions rows d).
Proof.
  intros E H.
  assert (E1 : map Question.id rows = map Question.id (questions d))
    by (pose proof (f_equal (map fst) E) as E'; rewrite !map_map in E';
        exact E').
  assert (E2 : map Question.formId rows = map Question.formId (questions d))
    by (pose proof (f_equal (map snd) E) as E'; rewrite !map_map in E';
        exact E').
  open_linked H. close_linked.
  - intros q Hq. apply (in_map Question.formId) in Hq. rewrite E2 in Hq.
    apply in_map_iff in Hq. destruct Hq as (q0 & <- & Hq0). now apply Lq.
  - eapply refers_same; [exact E1|exact Ll].
  - eapply refers_same; [exact E1|exact Laq].
Qed.

Lemma reorder_keys items :
  forall rows,
    map (fun q => (Question.id q, Question.formId q))
        (fold_left (fun rows (item : string * Z) =>
                      map (order_update (fst item) (snd item)) rows)
                   items rows)
    = map (fun q => (Question.id q, Question.formId q)) rows.
Proof.
  induction items as [|item rest IH]; intros rows; simpl; [reflexivity|].
  rewrite IH, map_map. apply map_ext. intros q. unfold order_update.
  now destruct (_ =? _)%string.
Qed.

Lemma response_complete_keys responseId now r :
  Response.id (response_complete responseId now r) = Response.id r
  /\ Response.formId (response_complete responseId now r) = Response.formId r.
Proof. unfold response_complete. now destruct (_ =? _)%string. Qed.

Lemma responses_map_linked (f : Response.t -> Response.t) (d : DB) :
  (forall r, Response.id (f r) = Response.id r
             /\ Response.formId (f r) = Response.formId r) ->
  linked d -> linked (set_responses (map f (responses d)) d).
Proof.
  intros Hf H.
  assert (E : map Response.id (map f (responses d))
              = map Response.id (responses d))
    by (apply map_id_map; intros q; apply Hf).
  open_linked H. close_linked.
  - apply refers_map; [|exact Lp]. intros q. apply Hf.
  - eapply refers_same; [exact E|exact Lar].
Qed.

Lemma upsert_answer_linked d responseId questionId value fileUrl :
  In questionId (map Question.id (questions d)) ->
  In responseId (map Response.id (responses d)) ->
  linked d ->
  linked (snd (upsert_answer uuid d responseId questionId value fileUrl)).
Proof.
  intros Hq Hr H. unfold upsert_answer.
  destruct (find _ (answers d)) as [existing|]; cbn [snd];
    open_linked H; close_linked.
  - apply refers_map; [|exact Laq]. intros a.
    apply (answer_update_pair (Answer.id existing) value fileUrl a).
  - apply refers_map; [|exact Lar]. intros a.
    apply (answer_update_pair (Answer.id existing) value fileUrl a).
  - exact Hq.
  - exact Hr.
Qed.

Lemma submitAnswer_linked d responseId body now :
  linked d -> linked (snd (submitAnswer uuid d responseId body now)).
Proof.
  intros H.
  destruct (find (fun r => (Response.id r =? responseId)%string) (responses d))
    as [response|] eqn:Hr.
  - destruct (find (id_is (SubmitBody.questionId body))
                   (questions_asc d (Response.formId response)))
      as [question|] eqn:Hq.
    + destruct (submitAnswer_found uuid d responseId body now _ _ Hr Hq)
        as (i & _ & _ & E).
      rewrite E. cbn [snd].
      assert (H1 : linked (snd (upsert_answer uuid d responseId
                                  (Question.id question)
                                  (SubmitBody.value body)
                                  (SubmitBody.fileUrl body)))).
      { apply upsert_answer_linked; [| |exact H].
        - apply find_some in Hq. destruct Hq as [Hq _].
          apply questions_asc_In in Hq. apply in_map. tauto.
        - apply find_some in Hr. destruct Hr as [Hin Hid].
          apply String.eqb_eq in Hid. rewrite <- Hid. now apply in_map. }
      destruct (_ =? _)%nat; [|exact H1].
      apply responses_map_linked; [|exact H1].
      intros r. apply response_complete_keys.
    + now rewrite (submitAnswer_no_question uuid d responseId body now _ Hr Hq).
  - now rewrite (submitAnswer_no_response uuid d responseId body now Hr).
Qed.

Lemma handle_linked d now r : linked d -> linked (handle uuid d now r).
Proof.
  intros H. destruct r; cbn [handle].
  - now apply createForm_linked.
  - now apply updateForm_linked.
  - unfold deleteForm. destruct (find _ (forms d)); [|exact H].
    now apply delete_form_linked.
  - unfold publishForm. destruct (find _ (forms d)); [|exact H].
    destruct (_ =? 0)%Z; [exact H|]. cbv zeta. cbn [snd].
    apply forms_map_linked; [|exact H].
    intros f. now destruct (_ =? _)%string.
  - unfold getFormToFill, loadForm.
    destruct (find _ (forms d)) as [f|] eqn:E; [|exact H].
    cbn [FormView.form]. destruct (negb _); [exact H|]. cbn [snd].
    apply create_visit_linked; [|exact H].
    apply find_some in E. destruct E as [Hin Hid].
    apply String.eqb_eq in Hid. rewrite <- Hid. now apply in_map.
  - unfold trackFormVisit.
    destruct (find _ (forms d)) as [f|] eqn:E; [|exact H]. cbn [snd].
    apply create_visit_linked; [|exact H].
    apply find_some in E. destruct E as [Hin Hp].
    apply andb_true_iff in Hp. destruct Hp as [Hid _].
    apply String.eqb_eq in Hid. rewrite <- Hid. now apply in_map.
  - unfold createQuestion.
    destruct (find _ (forms d)) as [f|] eqn:E; [|exact H].
    cbv zeta. apply find_form_id in E.
    destruct (QuestionBody.title body), (QuestionBody.type body);
      try exact H.
    unfold fresh. cbn [snd]. open_linked H. close_linked.
    + exact E.
    + eapply refers_more; [|exact Ll]. rewrite map_app.
      apply incl_appl, incl_refl.
    + eapply refers_more; [|exact Laq]. rewrite map_app.
      apply incl_appl, incl_refl.
  - unfold updateQuestion. destruct (find _ (forms d)); [|exact H].
    destruct (find _ (questions d)); [|exact H]. cbv zeta. cbn [snd].
    apply questions_map_linked; [|exact H].
    intros q. now destruct (_ =? _)%string.
  - unfold deleteQuestion. destruct (find _ (forms d)); [|exact H].
    destruct (find _ (questions d)); [|exact H]. cbv zeta. cbn [snd].
    apply questions_keys_linked; [apply renumber_keys|].
    now apply delete_questions_linked.
  - unfold reorderQuestions. destruct (find _ (forms d)); [|exact H].
    destruct (forallb _ _); [|exact H]. cbn [snd].
    apply questions_keys_linked; [apply reorder_keys|exact H].
  - unfold startResponse.
    destruct (find _ (forms d)) as [f|] eqn:E; [|exact H].
    cbv zeta. cbn [snd].
    apply find_some in E. destruct E as [Hin Hp].
    apply andb_true_iff in Hp. destruct Hp as [Hid _].
    apply String.eqb_eq in Hid.
    open_linked H. close_linked.
    + cbn [Response.formId]. rewrite <- Hid. now apply in_map.
    + eapply refers_more; [|exact Lar]. rewrite map_app.
      apply incl_appl, incl_refl.
  - now apply submitAnswer_linked.
Qed.

End Linked.

(** *** Along a run *)

Lemma refersb_refers {A B : Type} (key : A -> string) (rows : list A)
    (id : B -> string) (targets : list B) :
  refersb key rows id targets = true -> refers key rows id targets.
Proof.
  unfold refersb. rewrite forallb_forall. intros H x Hx.
  apply includes_In. now apply H.
Qed.

Lemma linkedb_linked (d : DB) : linkedb d = true -> linked d.
Proof.
  unfold linkedb, linked. rewrite !andb_true_iff.
  intros H. decompose [and] H. repeat split; now apply refersb_refers.
Qed.

Lemma all_some_map {A B : Type} (f : A -> option B) (l : list A) :
  (forall x, In x l -> f x <> None) -> all_some (map f l) <> None.
Proof.
  induction l as [|x r IH]; intros H; simpl; [discriminate|].
  destruct (f x) eqn:E; [|now elim (H x (or_introl eq_refl))].
  destruct (all_some (map f r)) eqn:E'; [discriminate|].
  elim IH; [|reflexivity]. intros y Hy. apply H. now right.
Qed.

Lemma find_id_some {A : Type} (id : A -> string) (s : string) (l : list A) :
  In s (map id l) -> find (fun x => (id x =? s)%string) l <> None.
Proof.
  intros H E. apply in_map_iff in H. destruct H as (x & Hx & Hin).
  pose proof (find_none _ _ E x Hin) as N. cbv beta in N.
  rewrite Hx, String.eqb_refl in N. discriminate.
Qed.

(** X1.  Every foreign key of [schema.prisma] that holds in a store holds
    after any sequence of requests: no handler writes a row that names a
    missing form, settings row, question, conditional logic or response,
    and the cascades remove every row that named a deleted one. *)
Theorem requests_keep_foreign_keys (uuid : nat -> string) (d : DB)
    (requests : list (Z * request)) :
  linked d -> linked (handle_all uuid d requests).
Proof.
  unfold handle_all. revert d.
  induction requests as [|r rest IH]; intros d H; simpl; [exact H|].
  now apply IH, handle_linked.
Qed.

(** The scenario, then a response started, an answer given, a question
    deleted and the form deleted. *)
Lemma requests_keep_foreign_keys_witness :
  linked Sample.scenario
  /\ linked (handle_all Sample.uuid Sample.scenario
               [(1000%Z, StartResponse "F");
                (1001%Z, SubmitAnswer "id-1"
                           (Sample.answer "Q1" (Val "a") (Val "u")));
                (1002%Z, DeleteQuestion "F" "Q1" "owner");
                (1003%Z, DeleteForm "F" "owner")]).
Proof.
  assert (H : linked Sample.scenario) by (apply linkedb_linked; reflexivity).
  split; [exact H|]. now apply requests_keep_foreign_keys.
Defined.

(** ** The reads never meet a dangling reference *)

(** The rows that [getResponse] reads with a response are there. *)
Lemma response_rows_found (d : DB) (response : Response.t) :
  linked d -> In response (responses d) ->
  find (fun f => (Form.id f =? Response.formId response)%string) (forms d)
  <> None
  /\ all_some
       (map (fun a =>
               match find (fun q => (Question.id q =? Answer.questionId a)%string)
                          (questions d) with
               | Some q =>
                   Some (AnswerView.mk (Answer.questionId a)
                           (Question.title q) (Question.type q)
                           (Answer.value a) (Answer.fileUrl a))
               | None => None
               end)
            (filter (fun a => (Answer.responseId a =? Response.id response)%string)
                    (answers d)))
     <> None.
Proof.
  intros H Hin. open_linked H. split.
  - apply (find_id_some Form.id). now apply Lp.
  - apply all_some_map. intros a Ha. apply filter_In in Ha.
    destruct Ha as [Ha _].
    destruct (find (fun q => (Question.id q =? Answer.questionId a)%string)
                   (questions d)) eqn:Eq; [discriminate|].
    now elim (find_id_some Question.id _ _ (Laq a Ha)).
Qed.

(** X2.  In a store whose foreign keys hold, [getResponse] never answers
    500: the form of the response and the question of each of its answers
    are found, so the reply is 400, 404 or 200. *)
Theorem getResponse_finds_its_rows (d : DB) (id : string)
    (respondentId : option string) :
  linked d -> status (getResponse d id respondentId) <> 500.
Proof.
  intros H. unfold getResponse.
  destruct respondentId as [rid|]; [|discriminate].
  destruct (rid =? "")%string; [discriminate|].
  destruct (find _ (responses d)) as [response|] eqn:E; [|discriminate].
  cbv zeta. apply find_some in E. destruct E as [Hin _].
  destruct (response_rows_found d response H Hin) as [Hf Hv].
  destruct (find (fun f => (Form.id f =? Response.formId response)%string)
                 (forms d)); [|now elim Hf].
  match goal with
  | |- context [all_some ?l] => destruct (all_some l)
  end; [discriminate|now elim Hv].
Qed.

Lemma getResponse_finds_its_rows_witness :
  linked Sample.answered
  /\ status (getResponse Sample.answered "id-1" (Some "id-0")) <> 500.
Proof.
  assert (H : linked Sample.answered) by (apply linkedb_linked; reflexivity).
  split; [exact H|]. now apply getResponse_finds_its_rows.
Defined.

(** The answers of a response have their questions. *)
Lemma answers_have_questions (d : DB) (responseId : string)
    (obj : list (string * (option string * string))) :
  linked d -> answersMap (answers_with_question d responseId) obj <> None.
Proof.
  intros H. revert obj.
  assert (Hrows : forall r, In r (answers_with_question d responseId) ->
                            snd r <> None).
  { intros [a q] Hr. unfold answers_with_question in Hr.
    apply in_map_iff in Hr. destruct Hr as (a0 & E & Ha).
    injection E as -> <-. apply filter_In in Ha. destruct Ha as [Ha _].
    open_linked H. cbn [snd]. now apply find_id_some, Laq. }
  induction (answers_with_question d responseId) as [|[a [q|]] rest IH];
    intros obj; simpl.
  - discriminate.
  - apply IH. intros r Hr. apply Hrows. now right.
  - now elim (Hrows (a, None) (or_introl eq_refl)).
Qed.

(** X3.  In a store whose foreign keys hold, [getFormResponses] never
    answers 500: every answer it lists has its question. *)
Theorem getFormResponses_finds_its_rows (d : DB) (id userId : string) :
  linked d -> status (getFormResponses d id userId) <> 500.
Proof.
  intros H. unfold getFormResponses.
  destruct (find _ (forms d)) as [form|]; [|discriminate]. cbv zeta.
  match goal with
  | |- context [all_some ?l] => destruct (all_some l) eqn:Ev
  end; [discriminate|].
  exfalso. revert Ev. apply all_some_map. intros response _.
  destruct (answersMap _ _) eqn:Em; [discriminate|].
  now elim (answers_have_questions d (Response.id response) [] H).
Qed.

Lemma getFormResponses_finds_its_rows_witness :
  linked Sample.polled
  /\ status (getFormResponses Sample.polled "F" "owner") <> 500.
Proof.
  assert (H : linked Sample.polled) by (apply linkedb_linked; reflexivity).
  split; [exact H|]. now apply getFormResponses_finds_its_rows.
Defined.

(** ** Errors and ownership *)

(** X4.  A request that is answered with a status of 400 or more leaves the
    store exactly as it was, for each of the handlers that write but
    [deleteQuestion]; a [deleteQuestion] that is answered 404 leaves it as it
    was too.  ([deleteQuestion] renumbers after its delete, outside any
    transaction, so nothing is said of its other failures.) *)
Theorem failed_request_writes_nothing (uuid : nat -> string) (d : DB)
    (now : Z) (r : request) :
  match r with
  | DeleteQuestion _ _ _ => answered_with uuid d now r = 404
  | _ => 400 <= answered_with uuid d now r
  end ->
  handle uuid d now r = d.
Proof.
  destruct r; cbn [answered_with handle].
  - unfold createForm, fresh. cbv zeta. cbn [fst status]. lia.
  - unfold updateForm. destruct (find _ (forms d)); [|reflexivity].
    cbv zeta. destruct (UpdateFormBody.questions body) as [entries|];
      [destruct (accepted uuid id entries _); [|reflexivity]|];
      cbn [fst status]; lia.
  - unfold deleteForm. destruct (find _ (forms d)); [|reflexivity].
    cbn [fst status]. lia.
  - unfold publishForm. destruct (find _ (forms d)); [|reflexivity].
    destruct (_ =? 0)%Z; [reflexivity|]. cbv zeta. cbn [fst status]. lia.
  - unfold getFormToFill. destruct (loadForm d id); [|reflexivity].
    destruct (negb _); [reflexivity|]. cbn [fst status]. lia.
  - unfold trackFormVisit. destruct (find _ (forms d)); [|reflexivity].
    cbn [fst status]. lia.
  - unfold createQuestion. destruct (find _ (forms d)); [|reflexivity].
    cbv zeta. destruct (QuestionBody.title body), (QuestionBody.type body);
      try reflexivity.
    unfold fresh. cbn [fst status]. lia.
  - unfold updateQuestion. destruct (find _ (forms d)); [|reflexivity].
    destruct (find _ (questions d)); [|reflexivity].
    cbv zeta. cbn [fst status]. lia.
  - unfold deleteQuestion. destruct (find _ (forms d)); [|reflexivity].
    destruct (find _ (questions d)); [|reflexivity].
    cbv zeta. cbn [fst status]. discriminate.
  - unfold reorderQuestions. destruct (find _ (forms d)); [|reflexivity].
    destruct (forallb _ _); [|reflexivity]. cbn [fst status]. lia.
  - unfold startResponse. destruct (find _ (forms d)); [|reflexivity].
    cbv zeta. cbn [fst status]. lia.
  - destruct (find (fun r => (Response.id r =? responseId)%string)
                   (responses d)) as [response|] eqn:Hr.
    + destruct (find (id_is (SubmitBody.questionId body))
                     (questions_asc d (Response.formId response)))
        as [question|] eqn:Hq.
      * destruct (submitAnswer_found uuid d responseId body now _ _ Hr Hq)
          as (i & _ & _ & E).
        rewrite E. cbn [fst status]. lia.
      * now rewrite (submitAnswer_no_question uuid d responseId body now
                       _ Hr Hq).
    + now rewrite (submitAnswer_no_response uuid d responseId body now Hr).
Qed.

(** An update of the scenario that sends a new question after one whose
    [order] is 2147483648 is answered 500 and writes nothing: neither
    question is stored and the form stays published. *)
Lemma failed_request_writes_nothing_witness :
  answered_with Sample.uuid Sample.scenario 1000
    (UpdateForm "F" "owner" Cases.beyond) = 500
  /\ handle Sample.uuid Sample.scenario 1000
       (UpdateForm "F" "owner" Cases.beyond)
     = Sample.scenario.
Proof.
  assert (E : answered_with Sample.uuid Sample.scenario 1000
                (UpdateForm "F" "owner" Cases.beyond) = 500) by reflexivity.
  split; [exact E|].
  apply (failed_request_writes_nothing Sample.uuid Sample.scenario 1000
           (UpdateForm "F" "owner" Cases.beyond)).
  rewrite E. lia.
Defined.

(** X5.  For a user who owns no form of the given identifier, each of the
    eleven owner routes answers 404 "Form not found", and the seven that
    write leave the store as it was. *)
Theorem foreign_form_is_not_found (uuid : nat -> string) (d : DB)
    (id userId : string) :
  (forall f, In f (forms d) -> Form.id f = id -> Form.userId f <> userId) ->
  (forall body,
      updateForm uuid d id userId body = (Failure 404 "Form not found", d))
  /\ deleteForm d id userId = (Failure 404 "Form not found", d)
  /\ publishForm d id userId = (Failure 404 "Form not found", d)
  /\ (forall body,
         createQuestion uuid d id userId body
         = (Failure 404 "Form not found", d))
  /\ (forall questionId body,
         updateQuestion d id questionId userId body
         = (Failure 404 "Form not found", d))
  /\ (forall questionId,
         deleteQuestion d id questionId userId
         = (Failure 404 "Form not found", d))
  /\ (forall items,
         reorderQuestions d id userId items
         = (Failure 404 "Form not found", d))
  /\ getForm d id userId = Failure 404 "Form not found"
  /\ getFormAnalytics d id userId = Failure 404 "Form not found"
  /\ getFormResponses d id userId = Failure 404 "Form not found"
  /\ getFormResponseCount d id userId = Failure 404 "Form not found".
Proof.
  intros H.
  assert (E : find (fun f => (Form.id f =? id)%string
                             && (Form.userId f =? userId)%string) (forms d)
              = None).
  { destruct (find _ (forms d)) as [f|] eqn:E; [|reflexivity].
    destruct (find_form_In d id userId f E) as (Hin & Hid & Hu).
    now elim (H f Hin Hid). }
  unfold updateForm, deleteForm, publishForm, createQuestion, updateQuestion,
    deleteQuestion, reorderQuestions, getForm, getFormAnalytics,
    getFormResponses, getFormResponseCount.
  rewrite E. repeat split.
Qed.

Lemma foreign_form_is_not_found_witness :
  deleteForm Sample.scenario "F" "intruder"
  = (Failure 404 "Form not found", Sample.scenario)
  /\ getFormResponses Sample.scenario "F" "intruder"
     = Failure 404 "Form not found".
Proof.
  assert (H : forall f, In f (forms Sample.scenario) -> Form.id f = "F" ->
                        Form.userId f <> "intruder")
    by (intros f [<-|[]] _; discriminate).
  destruct (foreign_form_is_not_found Sample.uuid Sample.scenario "F"
              "intruder" H)
    as (_ & H2 & _ & _ & _ & _ & _ & _ & _ & H10 & _).
  now split.
Defined.

(** ** Reordering *)

Lemma reorder_fold (items : list (string * Z)) (rows : list Question.t) :
  fold_left (fun rows (item : string * Z) =>
               map (order_update (fst item) (snd item)) rows) items rows
  = map (reordered items) rows.
Proof.
  induction items as [|item rest IH] using rev_ind.
  - simpl. symmetry. apply map_id.
  - rewrite fold_left_app. simpl. rewrite IH, map_map. apply map_ext.
    intros q. unfold reordered. rewrite rev_app_distr. simpl.
    unfold order_update.
    destruct (find _ (rev rest)) as [x|]; cbn [Question.with_order Question.id];
      rewrite (String.eqb_sym (fst item)); now destruct (_ =? _)%string.
Qed.

(** X6.  When [reorderQuestions] answers 200, every question row named in
    the list gets the order of the last item that names it, and every other
    row stays as it is.  The rows are looked up by identifier alone: a
    question of another form, of whatever owner, is moved as well. *)
Theorem reorderQuestions_is_not_scoped (d : DB) (formId userId : string)
    (items : list (string * Z)) :
  status (fst (reorderQuestions d formId userId items)) = 200 ->
  questions (snd (reorderQuestions d formId userId items))
  = map (reordered items) (questions d).
Proof.
  unfold reorderQuestions. destruct (find _ (forms d)); [|discriminate].
  destruct (forallb _ _); [|discriminate]. intros _. cbn [snd]. tables.
  apply reorder_fold.
Qed.

(** The owner of F moves the question of form G, which is not theirs. *)
Lemma reorderQuestions_is_not_scoped_witness :
  status (fst (reorderQuestions Cases.two_owners "F" "owner" [("QG", 7%Z)]))
  = 200
  /\ map (fun q => (Question.id q, Question.formId q, Question.order q))
         (questions (snd (reorderQuestions Cases.two_owners "F" "owner"
                            [("QG", 7%Z)])))
     = [("Q1", "F", 0%Z); ("QG", "G", 7%Z)].
Proof.
  split; [reflexivity|].
  rewrite (reorderQuestions_is_not_scoped Cases.two_owners "F" "owner"
             [("QG", 7%Z)] eq_refl).
  reflexivity.
Defined.

Lemma reordered_keys (items : list (string * Z)) (q : Question.t) :
  Question.id (reordered items q) = Question.id q
  /\ Question.formId (reordered items q) = Question.formId q.
Proof. unfold reordered. now destruct (find _ (rev items)). Qed.

Lemma reordered_named (items : list (string * Z)) (q : Question.t) :
  NoDup (map fst items) ->
  forall item, In item items -> fst item = Question.id q ->
  Question.order (reordered items q) = snd item.
Proof.
  intros Hnd item Hin Hid. unfold reordered.
  destruct (find _ (rev items)) as [x|] eqn:E.
  - apply find_some in E. destruct E as [Hx Ex].
    apply in_rev in Hx. apply String.eqb_eq in Ex.
    assert (x = item)
      by (apply (NoDup_map_injective fst items); congruence).
    now subst x.
  - pose proof (find_none _ _ E item (proj1 (in_rev _ _) Hin)) as N.
    cbv beta in N. rewrite Hid, String.eqb_refl in N. discriminate.
Qed.

Lemma reordered_unnamed (items : list (string * Z)) (q : Question.t) :
  ~ In (Question.id q) (map fst items) -> reordered items q = q.
Proof.
  intros Hn. unfold reordered.
  destruct (find _ (rev items)) as [x|] eqn:E; [|reflexivity].
  apply find_some in E. destruct E as [Hx Ex].
  apply in_rev in Hx. apply String.eqb_eq in Ex.
  elim Hn. rewrite <- Ex. now apply in_map.
Qed.

(** X7.  When question identifiers are unique, the list names each question
    of the form once and its orders are 0 to N-1 in some arrangement,
    [reorderQuestions] answers 200, the orders of the form are again 0 to
    N-1, and the questions of every other form are as before. *)
Theorem reorderQuestions_keeps_dense (d : DB) (formId userId : string)
    (form : Form.t) (items : list (string * Z)) :
  find (fun f => (Form.id f =? formId)%string
                 && (Form.userId f =? userId)%string) (forms d) = Some form ->
  NoDup (map Question.id (questions d)) ->
  Permutation (map fst items) (map Question.id (questions_of d formId)) ->
  dense (map snd items) ->
  fst (reorderQuestions d formId userId items) = Success 200 tt
  /\ dense (map Question.order
              (questions_of (snd (reorderQuestions d formId userId items))
                 formId))
  /\ forall other, other <> formId ->
       questions_of (snd (reorderQuestions d formId userId items)) other
       = questions_of d other.
Proof.
  intros Hform Hids Hitems Hdense.
  assert (Hnd : NoDup (map fst items)).
  { eapply Permutation_NoDup; [symmetry; exact Hitems|].
    unfold questions_of. now apply NoDup_map_filter. }
  assert (Hknown : forallb (fun item => includes (map Question.id (questions d))
                                          (fst item)) items = true).
  { apply forallb_forall. intros item Hin. apply includes_In.
    assert (Hq : In (fst item) (map Question.id (questions_of d formId)))
      by (eapply Permutation_in; [exact Hitems|now apply in_map]).
    apply in_map_iff in Hq. destruct Hq as (q & <- & Hq).
    apply filter_In in Hq. apply in_map. tauto. }
  assert (E : reorderQuestions d formId userId items
              = (Success 200 tt,
                 set_questions (map (reordered items) (questions d)) d)).
  { unfold reorderQuestions. rewrite Hform, Hknown.
    now rewrite reorder_fold. }
  rewrite E. cbn [fst snd]. split; [reflexivity|].
  assert (Hof : forall f,
             questions_of (set_questions (map (reordered items) (questions d))
                             d) f
             = map (reordered items) (questions_of d f)).
  { intros f. unfold questions_of. tables. apply filter_map_same.
    intros q. now destruct (reordered_keys items q) as [_ ->]. }
  split.
  - rewrite Hof.
    set (lookup := fun s =>
           match find (fun item : string * Z => (fst item =? s)%string)
                      (rev items) with
           | Some item => snd item
           | None => 0%Z
           end).
    assert (Hlook : forall item, In item items ->
                                 lookup (fst item) = snd item).
    { intros item Hin. unfold lookup.
      destruct (find _ (rev items)) as [x|] eqn:Ex.
      - apply find_some in Ex. destruct Ex as [Hx Ex].
        apply in_rev in Hx. apply String.eqb_eq in Ex.
        assert (x = item)
          by (apply (NoDup_map_injective fst items); congruence).
        now subst x.
      - pose proof (find_none _ _ Ex item (proj1 (in_rev _ _) Hin)) as N.
        cbv beta in N. rewrite String.eqb_refl in N. discriminate. }
    assert (E1 : map Question.order
                   (map (reordered items) (questions_of d formId))
                 = map lookup (map Question.id (questions_of d formId))).
    { rewrite !map_map. apply map_ext_in. intros q Hq.
      assert (Hin : In (Question.id q) (map fst items))
        by (eapply Permutation_in; [symmetry; exact Hitems|now apply in_map]).
      apply in_map_iff in Hin. destruct Hin as (item & Eid & Hin).
      rewrite (reordered_named items q Hnd item Hin Eid), <- Eid.
      symmetry. now apply Hlook. }
    assert (E2 : map lookup (map fst items) = map snd items)
      by (rewrite map_map; now apply map_ext_in).
    assert (HP : Permutation
                   (map Question.order
                      (map (reordered items) (questions_of d formId)))
                   (map snd items)).
    { rewrite E1, <- E2. apply Permutation_map. now symmetry. }
    unfold dense in *. rewrite (Permutation_length HP).
    now rewrite HP.
  - intros other Hne. rewrite Hof. rewrite <- (map_id (questions_of d other)) at 2.
    apply map_ext_in. intros q Hq. apply reordered_unnamed. intros Hin.
    eapply Permutation_in in Hin; [|exact Hitems].
    apply in_map_iff in Hin. destruct Hin as (q' & Eid & Hq').
    apply filter_In in Hq, Hq'. destruct Hq as [Hq Hf], Hq' as [Hq' Hf'].
    assert (q' = q) by (apply (NoDup_map_injective Question.id (questions d));
                        assumption).
    subst q'. apply String.eqb_eq in Hf, Hf'. congruence.
Qed.

Lemma reorderQuestions_keeps_dense_witness :
  map (fun q => (Question.id q, Question.order q))
      (questions (snd (reorderQuestions Sample.four "F" "owner" Cases.turned)))
  = [("Q3", 0%Z); ("Q1", 1%Z); ("Q4", 2%Z); ("Q2", 3%Z)]
  /\ dense (map Question.order
               (questions_of
                  (snd (reorderQuestions Sample.four "F" "owner" Cases.turned))
                  "F")).
Proof.
  split; [reflexivity|].
  exact (proj1 (proj2
           (reorderQuestions_keeps_dense Sample.four "F" "owner" Sample.F
              Cases.turned eq_refl
              (distinct_NoDup (map Question.id (questions Sample.four))
                 eq_refl)
              (Permutation_refl _)
              (dense_by_sorting (map snd Cases.turned) eq_refl)))).
Defined.

(** ** Adding a question *)

(** One more than the highest of orders that fit the column and are below
    its largest value fits the column. *)
Lemma next_order_fits (rows : list Question.t) :
  (forall q0, In q0 rows ->
              fits_Int (Question.order q0) = true
              /\ (Question.order q0 < 2147483647)%Z) ->
  fits_Int (match at_index (orderBy (fun q => (- Question.order q)%Z) rows)
                           0 with
            | Some q => (Question.order q + 1)%Z
            | None => 0%Z
            end) = true.
Proof.
  intros Hfit.
  destruct (at_index _ 0) as [top|] eqn:E; [|reflexivity].
  assert (Hin : In top rows).
  { rewrite (at_index_nat _ 0) in E. apply nth_error_In in E.
    exact (proj1 (orderBy_In _ rows top) E). }
  destruct (Hfit top Hin) as [Hf Hlt]. unfold fits_Int in *.
  apply andb_true_iff in Hf. destruct Hf as [Hlo _].
  apply Z.leb_le in Hlo. apply andb_true_iff. split; apply Z.leb_le; lia.
Qed.

Section Create.

Variable uuid : nat -> string.
Variables (d : DB) (formId userId : string) (form : Form.t).
Variables (body : QuestionBody.t) (title type : string).

Hypothesis Hform :
  find (fun f => (Form.id f =? formId)%string && (Form.userId f =? userId)%string)
       (forms d) = Some form.
Hypothesis Htitle : QuestionBody.title body = Some title.
Hypothesis Htype : QuestionBody.type body = Some type.

Let highest : option Question.t :=
  at_index (orderBy (fun q => (- Question.order q)%Z) (questions_of d formId))
           0.
Let nextOrder : Z :=
  match highest with
  | Some q => (Question.order q + 1)%Z
  | None => 0%Z
  end.
Let question : Question.t :=
  Question.mk (uuid (seed d)) formId title
    (created (QuestionBody.description body)) type
    (or_bool (QuestionBody.isRequired body) false)
    (json_or (QuestionBody.options body) None) nextOrder
    (json_or (QuestionBody.validation body) None).

Lemma createQuestion_found :
  createQuestion uuid d formId userId body
  = (Success 201 question,
     set_questions (questions d ++ [question]) (set_seed (S (seed d)) d)).
Proof.
  unfold createQuestion. rewrite Hform, Htitle, Htype. reflexivity.
Qed.

Lemma highest_is_highest (q : Question.t) :
  In q (questions_of d formId) ->
  exists top, highest = Some top /\ In top (questions_of d formId)
              /\ (Question.order q <= Question.order top)%Z.
Proof.
  intros Hq. unfold highest. rewrite (at_index_nat _ 0).
  set (key := fun q => (- Question.order q)%Z).
  destruct (nth_error (orderBy key (questions_of d formId)) 0) as [top|] eqn:E.
  - exists top. split; [reflexivity|]. split.
    + apply (orderBy_In key). eapply nth_error_In, E.
    + pose proof (ascending_head key _ top q (orderBy_sorted key _) E
                    (proj2 (orderBy_In key _ q) Hq)) as Hle.
      unfold key in Hle. lia.
  - apply nth_error_None in E. simpl in E.
    apply (orderBy_In key) in Hq.
    destruct (orderBy key (questions_of d formId)); [destruct Hq|simpl in E; lia].
Qed.

Lemma nextOrder_dense :
  dense (map Question.order (questions_of d formId)) ->
  nextOrder = Z.of_nat (length (questions_of d formId)).
Proof.
  intros Hdense. unfold dense in Hdense. rewrite length_map in Hdense.
  set (n := length (questions_of d formId)) in *.
  destruct (Nat.eq_dec n 0) as [Hz|Hnz].
  - unfold nextOrder, highest.
    rewrite (proj1 (length_zero_iff_nil _) Hz). now rewrite Hz.
  - assert (Hn : 0 < n) by lia.
    assert (Hlast : In (Z.of_nat (n - 1))
                       (map Question.order (questions_of d formId))).
    { eapply Permutation_in; [symmetry; exact Hdense|].
      apply in_map, in_seq. lia. }
    apply in_map_iff in Hlast. destruct Hlast as (q & Eq & Hq).
    destruct (highest_is_highest q Hq) as (top & Etop & Htop & Hle).
    assert (Hin : In (Question.order top)
                     (map Z.of_nat (seq 0 n)))
      by (eapply Permutation_in; [exact Hdense|now apply in_map]).
    apply in_map_iff in Hin. destruct Hin as (i & Ei & Hi).
    apply in_seq in Hi. unfold nextOrder. rewrite Etop. lia.
Qed.

(** X8.  For the owner of the form and a body with a title and a type, on
    a form whose stored orders fit the 32-bit column and are below its
    largest value 2147483647, [createQuestion] answers 201 and appends one
    question row, with the next identifier of the generator and the form's
    identifier; its order fits the column, is 0 on a form without questions
    and otherwise greater than the order of every question of the form. *)
Theorem createQuestion_orders_above :
  (forall q0, In q0 (questions_of d formId) ->
              fits_Int (Question.order q0) = true
              /\ (Question.order q0 < 2147483647)%Z) ->
  exists q,
    createQuestion uuid d formId userId body
    = (Success 201 q,
       set_questions (questions d ++ [q]) (set_seed (S (seed d)) d))
    /\ Question.id q = uuid (seed d)
    /\ Question.formId q = formId
    /\ fits_Int (Question.order q) = true
    /\ (questions_of d formId = [] -> Question.order q = 0%Z)
    /\ forall q0, In q0 (questions_of d formId) ->
                  (Question.order q0 < Question.order q)%Z.
Proof.
  intros Hfit.
  exists question. split; [exact createQuestion_found|].
  split; [reflexivity|]. split; [reflexivity|]. split; [|split].
  - exact (next_order_fits (questions_of d formId) Hfit).
  - intros E. cbn [question Question.order]. unfold nextOrder, highest.
    now rewrite E.
  - intros q0 Hq0. destruct (highest_is_highest q0 Hq0) as (top & E & _ & Hle).
    cbn [question Question.order]. unfold nextOrder. rewrite E. lia.
Qed.

(** X9.  On a form whose orders are 0 to N-1 in some arrangement,
    [createQuestion] gives the new question the order N and puts it after
    the questions of the form: the orders are then 0 to N. *)
Theorem createQuestion_keeps_dense :
  dense (map Question.order (questions_of d formId)) ->
  exists q,
    fst (createQuestion uuid d formId userId body) = Success 201 q
    /\ Question.order q = Z.of_nat (length (questions_of d formId))
    /\ questions_of (snd (createQuestion uuid d formId userId body)) formId
       = questions_of d formId ++ [q]
    /\ dense (map Question.order
                (questions_of (snd (createQuestion uuid d formId userId body))
                   formId)).
Proof.
  intros Hdense. exists question. rewrite createQuestion_found.
  cbn [fst snd]. split; [reflexivity|].
  assert (Ho : Question.order question
               = Z.of_nat (length (questions_of d formId)))
    by (cbn [question Question.order]; now apply nextOrder_dense).
  split; [exact Ho|].
  assert (Eq : questions_of
                 (set_questions (questions d ++ [question])
                    (set_seed (S (seed d)) d)) formId
               = questions_of d formId ++ [question]).
  { unfold questions_of. cbn [questions set_questions set_seed].
    rewrite filter_app. simpl. now rewrite String.eqb_refl. }
  split; [exact Eq|]. rewrite Eq. unfold dense in *.
  rewrite length_map in Hdense.
  rewrite map_app, length_app, !length_map. simpl length.
  rewrite Nat.add_1_r, seq_S, map_app. cbn [map Nat.add]. rewrite Ho.
  now apply Permutation_app.
Qed.

End Create.

Lemma createQuestion_orders_above_witness :
  exists q,
    fst (createQuestion Sample.uuid Sample.scenario "F" "owner" Cases.added)
    = Success 201 q
    /\ Question.id q = "id-0"
    /\ fits_Int (Question.order q) = true
    /\ forall q0, In q0 (questions_of Sample.scenario "F") ->
                  (Question.order q0 < Question.order q)%Z.
Proof.
  assert (Hfit : forall q0, In q0 (questions_of Sample.scenario "F") ->
                            fits_Int (Question.order q0) = true
                            /\ (Question.order q0 < 2147483647)%Z)
    by (intros q0 [<-|[<-|[<-|[]]]]; split; reflexivity).
  destruct (createQuestion_orders_above Sample.uuid Sample.scenario "F"
              "owner" Sample.F Cases.added "New" "shortText"
              eq_refl eq_refl eq_refl Hfit)
    as (q & E & Hid & _ & Hf & _ & H).
  exists q. split; [now rewrite E|]. split; [exact Hid|].
  split; [exact Hf|exact H].
Defined.

Lemma createQuestion_keeps_dense_witness :
  dense (map Question.order (questions_of Sample.scenario "F"))
  /\ exists q,
       fst (createQuestion Sample.uuid Sample.scenario "F" "owner" Cases.added)
       = Success 201 q
       /\ Question.order q = 3%Z
       /\ dense (map Question.order
                   (questions_of
                      (snd (createQuestion Sample.uuid Sample.scenario "F"
                              "owner" Cases.added)) "F")).
Proof.
  assert (H : dense (map Question.order (questions_of Sample.scenario "F")))
    by (apply dense_by_sorting; reflexivity).
  split; [exact H|].
  destruct (createQuestion_keeps_dense Sample.uuid Sample.scenario "F"
              "owner" Sample.F Cases.added "New" "shortText"
              eq_refl eq_refl eq_refl H)
    as (q & E & Ho & _ & Hd).
  exists q. split; [exact E|]. split; [exact Ho|exact Hd].
Defined.

Lemma filter_notin_gone {A : Type} (key : A -> string) (gone : list string)
    (rows : list A) :
  (forall x, In x rows -> ~ In (key x) gone) ->
  filter (fun x => negb (includes gone (key x))) rows = rows.
Proof.
  intros H. apply filter_all. intros x Hx.
  apply negb_true_iff, includes_false. now apply H.
Qed.

Lemma find_app_none {A : Type} (p : A -> bool) (l r : list A) :
  find p l = None -> find p (l ++ r) = find p r.
Proof.
  induction l as [|x l IH]; simpl; [reflexivity|].
  destruct (p x); [discriminate|exact IH].
Qed.

(** X10.  Round trip: in a store whose foreign keys hold, where the next
    identifier of the generator is not yet the identifier of a question and
    where the orders of the form fit the 32-bit column and are below its
    largest value 2147483647, [createQuestion] answers 201 with a question
    whose order fits the column, and the [deleteQuestion] of this question
    that follows answers 200 and gives back the store as it was, but for the
    identifier drawn. *)
Theorem createQuestion_deleteQuestion (uuid : nat -> string) (d : DB)
    (formId userId : string) (form : Form.t) (body : QuestionBody.t)
    (title type : string) :
  find (fun f => (Form.id f =? formId)%string && (Form.userId f =? userId)%string)
       (forms d) = Some form ->
  QuestionBody.title body = Some title ->
  QuestionBody.type body = Some type ->
  linked d ->
  ~ In (uuid (seed d)) (map Question.id (questions d)) ->
  (forall q0, In q0 (questions_of d formId) ->
              fits_Int (Question.order q0) = true
              /\ (Question.order q0 < 2147483647)%Z) ->
  (exists q, fst (createQuestion uuid d formId userId body) = Success 201 q
             /\ Question.id q = uuid (seed d)
             /\ fits_Int (Question.order q) = true)
  /\ deleteQuestion (snd (createQuestion uuid d formId userId body)) formId
       (uuid (seed d)) userId
     = (Success 200 tt, set_seed (S (seed d)) d).
Proof.
  intros Hform Htitle Htype H Hfresh Hfit.
  split.
  { rewrite (createQuestion_found uuid d formId userId form body title type
               Hform Htitle Htype).
    eexists. split; [reflexivity|]. split; [reflexivity|].
    exact (next_order_fits (questions_of d formId) Hfit). }
  pose proof (createQuestion_found uuid d formId userId form body title type
                Hform Htitle Htype) as E.
  cbv zeta in E.
  match type of E with
  | _ = (Success 201 ?made, _) => set (q := made) in *
  end.
  assert (Hid : Question.id q = uuid (seed d)) by reflexivity.
  assert (Hfid : Question.formId q = formId) by reflexivity.
  assert (Habove : forall q0, In q0 (questions_of d formId) ->
                              (Question.order q0 < Question.order q)%Z).
  { intros q0 Hq0.
    destruct (highest_is_highest d formId q0 Hq0) as (top & Et & _ & Hle).
    unfold q. cbn [Question.order]. rewrite Et. lia. }
  clearbody q. rewrite E. cbn [snd]. unfold deleteQuestion. tables. rewrite Hform.
  assert (Hnone : forall q0, In q0 (questions d) ->
                             (Question.id q0 =? uuid (seed d))%string = false).
  { intros q0 Hq0. apply String.eqb_neq. intros Eq. apply Hfresh.
    rewrite <- Eq. now apply in_map. }
  assert (Ef : find (fun q0 => (Question.id q0 =? uuid (seed d))%string
                               && (Question.formId q0 =? formId)%string)
                    (questions d ++ [q]) = Some q).
  { rewrite find_app_none.
    - simpl. now rewrite Hid, Hfid, !String.eqb_refl.
    - destruct (find _ (questions d)) as [q0|] eqn:E0; [|reflexivity].
      apply find_some in E0. destruct E0 as [Hin Hp].
      rewrite (Hnone q0 Hin) in Hp. discriminate. }
  rewrite Ef. cbv zeta.
  assert (Eq : filter (fun q0 => negb (Question.id q0 =? uuid (seed d))%string)
                      (questions d ++ [q]) = questions d).
  { rewrite filter_app. simpl. rewrite Hid, String.eqb_refl. simpl.
    rewrite app_nil_r. apply filter_all. intros q0 Hq0.
    now rewrite (Hnone q0 Hq0). }
  assert (Eg : map Question.id
                 (filter (fun q0 => (Question.id q0 =? uuid (seed d))%string)
                         (questions d ++ [q])) = [uuid (seed d)]).
  { rewrite filter_app, (filter_none _ (questions d) Hnone). simpl.
    rewrite Hid, String.eqb_refl. simpl. now rewrite Hid. }
  unfold delete_questions. tables. rewrite Eq, Eg.
  open_linked H.
  assert (El : filter (fun l => negb (includes [uuid (seed d)]
                                        (ConditionalLogic.questionId l)))
                      (conditionalLogics d) = conditionalLogics d).
  { apply filter_notin_gone. intros l Hl [Hin|[]]. apply Hfresh.
    rewrite Hin. now apply Ll. }
  assert (El' : filter (fun l => includes [uuid (seed d)]
                                   (ConditionalLogic.questionId l))
                       (conditionalLogics d) = []).
  { apply filter_none. intros l Hl. apply includes_false. intros [Hin|[]].
    apply Hfresh. rewrite Hin. now apply Ll. }
  assert (Ea : filter (fun a => negb (includes [uuid (seed d)]
                                        (Answer.questionId a)))
                      (answers d) = answers d).
  { apply filter_notin_gone. intros a Ha [Hin|[]]. apply Hfresh.
    rewrite Hin. now apply Laq. }
  rewrite El, El', Ea. cbn [map].
  rewrite (filter_notin_gone ConditionalRule.conditionalLogicId [])
    by (intros r _ []).
  assert (Er : filter (fun q0 => (Question.formId q0 =? formId)%string
                                 && (Question.order q <? Question.order q0)%Z)
                      (questions d) = []).
  { apply filter_none. intros q0 Hq0.
    destruct (Question.formId q0 =? formId)%string eqn:Ef0; [|reflexivity].
    simpl. apply Z.ltb_ge.
    assert (Hin : In q0 (questions_of d formId))
      by (apply filter_In; now split).
    specialize (Habove q0 Hin). lia. }
  rewrite Er. cbn [orderBy fold_right renumber]. destruct d. reflexivity.
Qed.

Lemma createQuestion_deleteQuestion_witness :
  (exists q,
      fst (createQuestion Sample.uuid Sample.scenario "F" "owner" Cases.added)
      = Success 201 q
      /\ Question.id q = "id-0"
      /\ fits_Int (Question.order q) = true)
  /\ deleteQuestion
       (snd (createQuestion Sample.uuid Sample.scenario "F" "owner"
               Cases.added))
       "F" "id-0" "owner"
     = (Success 200 tt, set_seed 1 Sample.scenario).
Proof.
  apply (createQuestion_deleteQuestion Sample.uuid Sample.scenario "F"
           "owner" Sample.F Cases.added "New" "shortText"
           eq_refl eq_refl eq_refl).
  - apply linkedb_linked. reflexivity.
  - apply includes_false. reflexivity.
  - intros q0 [<-|[<-|[<-|[]]]]; split; reflexivity.
Defined.

(** ** Deleting a form *)

(** X11.  For its owner, [deleteForm] answers 200 and removes the form with
    exactly the themes, settings, questions, responses and visits of that
    form; in a store whose foreign keys hold they hold afterwards, so no
    e-mail, conditional logic, rule or answer is left that named a deleted
    row. *)
Theorem deleteForm_cascades (d : DB) (id userId : string) (form : Form.t) :
  find (fun f => (Form.id f =? id)%string && (Form.userId f =? userId)%string)
       (forms d) = Some form ->
  linked d ->
  let d' := snd (deleteForm d id userId) in
  fst (deleteForm d id userId) = Success 200 tt
  /\ linked d'
  /\ forms d' = filter (fun f => negb (Form.id f =? id)%string) (forms d)
  /\ themes d' = filter (fun t => negb (Theme.formId t =? id)%string) (themes d)
  /\ formSettings d'
     = filter (fun s => negb (FormSettings.formId s =? id)%string)
              (formSettings d)
  /\ questions d'
     = filter (fun q => negb (Question.formId q =? id)%string) (questions d)
  /\ responses d'
     = filter (fun r => negb (Response.formId r =? id)%string) (responses d)
  /\ formVisits d'
     = filter (fun v => negb (FormVisit.formId v =? id)%string) (formVisits d)
  /\ ~ In id (map Form.id (forms d')).
Proof.
  intros Hform H d'. subst d'. unfold deleteForm. rewrite Hform.
  cbn [fst snd]. split; [reflexivity|].
  split; [now apply delete_form_linked|].
  repeat (split; [reflexivity|]).
  unfold delete_form. cbv zeta. tables. intros Hin.
  apply in_map_iff in Hin. destruct Hin as (f & E & Hf).
  apply filter_In in Hf. destruct Hf as [_ Hf].
  rewrite E, String.eqb_refl in Hf. discriminate.
Qed.

Lemma deleteForm_cascades_witness :
  linked (snd (deleteForm Sample.polled "F" "owner"))
  /\ snd (deleteForm Sample.polled "F" "owner")
     = mkDB [] [] [] [] [] [] [] [] [] [] 10.
Proof.
  split; [|reflexivity].
  exact (proj1 (proj2
           (deleteForm_cascades Sample.polled "F" "owner" Sample.F eq_refl
              (linkedb_linked Sample.polled eq_refl)))).
Defined.

(** ** Visits *)

Lemma create_visit_analytics (uuid : nat -> string) (d : DB)
    (id userId : string) (ip ua ref : option string) (a : Analytics.t) :
  getFormAnalytics d id userId = Success 200 a ->
  getFormAnalytics (create_visit uuid id ip ua ref d) id userId
  = Success 200
      (Analytics.mk (S (Analytics.visits a)) (Analytics.responses a)
         (Analytics.completionRate a) (Analytics.questions a)).
Proof.
  unfold getFormAnalytics, create_visit, fresh, questions_asc, questions_of,
    count_answers.
  tables. destruct (find _ (forms d)); [|discriminate]. cbv zeta.
  intros E. injection E as <-. cbn [Analytics.visits Analytics.responses
    Analytics.completionRate Analytics.questions].
  rewrite filter_app, length_app. simpl. rewrite String.eqb_refl. simpl.
  now rewrite Nat.add_1_r.
Qed.

(** X12.  On a published form, [trackFormVisit] and [getFormToFill] both
    succeed and leave the same store, and [getFormAnalytics] then reports
    one visit more and the same responses, completion rate and question
    statistics as before. *)
Theorem visit_is_counted_once (uuid : nat -> string) (d : DB) (id : string)
    (form : Form.t) (ip ua ref : option string) :
  find (fun f => (Form.id f =? id)%string) (forms d) = Some form ->
  Form.isPublished form = true ->
  fst (trackFormVisit uuid d id ip ua ref) = Success 200 tt
  /\ status (fst (getFormToFill uuid d id ip ua ref)) = 200
  /\ snd (getFormToFill uuid d id ip ua ref)
     = snd (trackFormVisit uuid d id ip ua ref)
  /\ forall userId a,
       getFormAnalytics d id userId = Success 200 a ->
       getFormAnalytics (snd (trackFormVisit uuid d id ip ua ref)) id userId
       = Success 200
           (Analytics.mk (S (Analytics.visits a)) (Analytics.responses a)
              (Analytics.completionRate a) (Analytics.questions a)).
Proof.
  intros Hform Hpub.
  assert (E : exists f, find (fun f => (Form.id f =? id)%string
                                       && Form.isPublished f) (forms d)
                        = Some f).
  { destruct (find (fun f => (Form.id f =? id)%string && Form.isPublished f)
                   (forms d)) as [f|] eqn:E; [now exists f|].
    apply find_some in Hform. destruct Hform as [Hin Hid].
    pose proof (find_none _ _ E form Hin) as N. cbv beta in N.
    rewrite Hid, Hpub in N. discriminate. }
  destruct E as [f E].
  unfold trackFormVisit, getFormToFill, loadForm. rewrite E, Hform.
  cbn [FormView.form]. rewrite Hpub. cbn [negb fst snd status].
  repeat split. intros userId a. apply create_visit_analytics.
Qed.

Lemma visit_is_counted_once_witness :
  (exists a, getFormAnalytics Sample.polled "F" "owner" = Success 200 a
             /\ Analytics.visits a = 10)
  /\ exists a,
       getFormAnalytics
         (snd (trackFormVisit Sample.uuid Sample.polled "F" None None None))
         "F" "owner" = Success 200 a
       /\ Analytics.visits a = 11.
Proof.
  destruct (visit_is_counted_once Sample.uuid Sample.polled "F" Sample.F
              None None None eq_refl eq_refl) as (_ & _ & _ & H).
  split.
  - eexists. split; reflexivity.
  - eexists. split; [apply H; reflexivity|reflexivity].
Defined.

(** ** Publishing, then answering *)

(** X13.  After [publishForm] has answered 200, [startResponse] on the form
    answers 201, counts as many questions as the form has, at least one,
    and returns a first question of the form. *)
Theorem publishForm_opens_the_form (uuid : nat -> string) (d : DB)
    (id userId : string) (now : Z) :
  status (fst (publishForm d id userId)) = 200 ->
  exists data first,
    fst (startResponse uuid (snd (publishForm d id userId)) id now)
    = Success 201 data
    /\ StartData.form_id data = id
    /\ StartData.questionCount data = length (questions_of d id)
    /\ 0 < StartData.questionCount data
    /\ StartData.firstQuestion data = Some first
    /\ In first (questions_of d id).
Proof.
  unfold publishForm.
  destruct (find _ (forms d)) as [existingForm|] eqn:E; [|discriminate].
  destruct (find_form_In d id userId existingForm E) as (Hin & Hid & _).
  rewrite Hid.
  destruct (_ =? 0)%Z eqn:Hn; [discriminate|]. intros _. cbv zeta.
  cbn [snd]. apply Z.eqb_neq in Hn.
  set (publish := fun f => if (Form.id f =? id)%string
                           then Form.mk (Form.id f) (Form.title f)
                                  (Form.description f) true (Form.userId f)
                           else f).
  unfold startResponse. tables.
  destruct (find (fun f => (Form.id f =? id)%string && Form.isPublished f)
                 (map publish (forms d))) as [form|] eqn:Ef.
  - apply find_some in Ef. destruct Ef as [_ Hp].
    apply andb_true_iff in Hp. destruct Hp as [Hfid _].
    apply String.eqb_eq in Hfid. cbv zeta. cbn [fst].
    unfold questions_asc, questions_of in *. tables. rewrite Hfid.
    set (Q := filter (fun q => (Question.formId q =? id)%string)
                     (questions d)) in *.
    assert (Hlen : length (orderBy Question.order Q) = length Q)
      by (apply Permutation_length, orderBy_perm).
    rewrite Hlen, (at_index_nat _ 0).
    destruct (nth_error (orderBy Question.order Q) 0) as [first|] eqn:E0.
    + eexists. exists first.
      split; [reflexivity|]. cbn [StartData.form_id StartData.questionCount
        StartData.firstQuestion].
      split; [reflexivity|]. split; [reflexivity|]. split; [lia|].
      split; [destruct (0 <? _)%Z eqn:Z0; [reflexivity|lia]|].
      apply (orderBy_In Question.order). eapply nth_error_In, E0.
    + apply nth_error_None in E0. lia.
  - apply (in_map publish) in Hin.
    pose proof (find_none _ _ Ef _ Hin) as N. cbv beta in N.
    unfold publish in N. rewrite Hid, String.eqb_refl in N.
    cbn [Form.id Form.isPublished] in N. rewrite String.eqb_refl in N.
    discriminate.
Qed.

Lemma publishForm_opens_the_form_witness :
  status (fst (startResponse Sample.uuid Cases.pending "F" 1000)) = 404
  /\ status (fst (publishForm Cases.pending "F" "owner")) = 200
  /\ exists data,
       fst (startResponse Sample.uuid
              (snd (publishForm Cases.pending "F" "owner")) "F" 1000)
       = Success 201 data
       /\ StartData.questionCount data = 2.
Proof.
  split; [reflexivity|]. split; [reflexivity|].
  destruct (publishForm_opens_the_form Sample.uuid Cases.pending "F" "owner"
              1000 eq_refl) as (data & first & E & _ & Hc & _).
  exists data. split; [exact E|exact Hc].
Defined.

(** ** What [updateForm] does to the questions *)

Lemma fold_frame {A T : Type} (table : DB -> T) (f : DB -> A -> DB)
    (l : list A) :
  (forall d x, table (f d x) = table d) ->
  forall d, table (fold_left f l d) = table d.
Proof.
  intros Hf. induction l as [|x r IH]; intros d; simpl; [reflexivity|].
  now rewrite IH, Hf.
Qed.

Section Appending.

Variable uuid : nat -> string.

Lemma create_rules_questions logicId rules d :
  questions (create_rules uuid logicId rules d) = questions d.
Proof. unfold create_rules. now apply fold_frame. Qed.

Lemma create_logic_questions questionId logic d :
  questions (create_logic uuid questionId logic d) = questions d.
Proof.
  unfold create_logic, fresh. cbv zeta.
  destruct (LogicBody.rules logic); [|reflexivity].
  now rewrite create_rules_questions.
Qed.

Lemma create_emails_questions settingsId emails d :
  questions (create_emails uuid settingsId emails d) = questions d.
Proof. unfold create_emails. now apply fold_frame. Qed.

Lemma reconcile_fields_questions d id body :
  questions (reconcile_fields uuid d id body) = questions d.
Proof.
  unfold reconcile_fields. cbv zeta.
  set (existingTheme := find _ (themes d)).
  set (existingSettings := find _ (formSettings d)).
  set (d1 := set_forms _ d).
  assert (E1 : questions (reconcile_theme uuid id existingTheme
                            (UpdateFormBody.theme body) d1) = questions d)
    by (unfold reconcile_theme;
        now destruct (UpdateFormBody.theme body), existingTheme).
  rewrite <- E1.
  generalize (reconcile_theme uuid id existingTheme
                (UpdateFormBody.theme body) d1).
  intros d2. unfold reconcile_settings, create_settings, fresh.
  destruct (UpdateFormBody.settings body) as [s|], existingSettings;
    try reflexivity; cbv zeta;
    destruct (SettingsBody.notificationEmails s) as [emails|];
    try reflexivity.
  - destruct (0 <? _)%Z; [|reflexivity]. now rewrite create_emails_questions.
  - now rewrite create_emails_questions.
Qed.

Lemma process_question_new formId d question :
  is_existing_id (QuestionEntry.id question) = false ->
  questions (process_question uuid formId d question)
  = questions d ++ [new_question (uuid (seed d)) formId question].
Proof.
  intros E. unfold process_question. rewrite E. unfold fresh. cbv zeta.
  destruct (QuestionEntry.conditionalLogic question) as [logic|];
    [destruct (LogicBody.enabled logic)|]; try reflexivity.
  now rewrite create_logic_questions.
Qed.

Lemma update_ids_nil entries :
  update_ids entries = [] ->
  forall question, In question entries ->
                   is_existing_id (QuestionEntry.id question) = false.
Proof.
  unfold update_ids, is_existing_id. intros E question Hin.
  destruct (QuestionEntry.id question) as [s|] eqn:Es; [|reflexivity].
  destruct (negb (s =? "")%string && String.prefix "question-" s) eqn:Ep;
    [|reflexivity].
  assert (Hs : In s (flat_map
                       (fun q => match QuestionEntry.id q with
                                 | Some s => if negb (s =? "")%string
                                                && String.prefix "question-" s
                                             then [s] else []
                                 | None => []
                                 end) entries)).
  { apply in_flat_map. exists question. split; [exact Hin|].
    rewrite Es, Ep. now left. }
  rewrite E in Hs. destruct Hs.
Qed.

Lemma update_ids_prefix entries s :
  In s (update_ids entries) -> String.prefix "question-" s = true.
Proof.
  unfold update_ids. intros H. apply in_flat_map in H.
  destruct H as (q & _ & H). destruct (QuestionEntry.id q) as [s'|]; [|easy].
  destruct (negb (s' =? "")%string) eqn:E1, (String.prefix "question-" s') eqn:E2;
    simpl in H; try easy.
  destruct H as [<-|[]]. exact E2.
Qed.

Lemma is_existing_prefix s :
  is_existing_id (Some s) = true -> String.prefix "question-" s = true.
Proof.
  unfold is_existing_id. intros H. apply andb_true_iff in H.
  destruct H as [H _]. apply andb_true_iff in H. tauto.
Qed.

(** An entry with a [question-] identifier is skipped when no stored
    question has such an identifier. *)
Lemma process_question_skipped formId d question :
  (forall q, In q (questions d) ->
             String.prefix "question-" (Question.id q) = false) ->
  is_existing_id (QuestionEntry.id question) = true ->
  process_question uuid formId d question = d.
Proof.
  intros Hstored E. unfold process_question. rewrite E.
  destruct (QuestionEntry.id question) as [s|]; [|discriminate].
  apply is_existing_prefix in E.
  destruct (find _ (questions d)) as [q|] eqn:Ef; [|reflexivity].
  apply find_some in Ef. destruct Ef as [Hin Hid].
  apply String.eqb_eq in Hid. specialize (Hstored q Hin).
  rewrite Hid in Hstored. congruence.
Qed.

(** Entries that are all taken for new questions are accepted when, and
    only when, each of their orders fits the column. *)
Lemma accepted_new formId entries :
  (forall question, In question entries ->
                    is_existing_id (QuestionEntry.id question) = false) ->
  forall d,
    accepted uuid formId entries d
    = forallb (fun question => fits_Int (QuestionEntry.order question))
              entries.
Proof.
  induction entries as [|e rest IH]; intros Hnew d; [reflexivity|].
  cbn [accepted forallb]. unfold writes_order.
  rewrite (Hnew e) by now left. cbn [negb orb]. f_equal.
  apply IH. intros question H. apply Hnew. now right.
Qed.

(** X14.  When no entry of the [questions] array has an identifier that
    starts with [question-], every entry is taken for a new question.  When
    the [order] of each entry fits the 32-bit column, [updateForm] answers
    200, deletes no question and appends one new question row per entry, in
    the order of the array, with the entry's title and order: an entry that
    carries the identifier of a stored question is stored again as a new
    question.  When the [order] of some entry does not fit, [updateForm]
    answers 500 and appends nothing. *)
Theorem updateForm_appends_unprefixed (d : DB) (id userId : string)
    (form : Form.t) (body : UpdateFormBody.t) (entries : list QuestionEntry.t) :
  find (fun f => (Form.id f =? id)%string && (Form.userId f =? userId)%string)
       (forms d) = Some form ->
  UpdateFormBody.questions body = Some entries ->
  update_ids entries = [] ->
  (forallb (fun question => fits_Int (QuestionEntry.order question)) entries
   = true ->
   status (fst (updateForm uuid d id userId body)) = 200
   /\ exists news,
       questions (snd (updateForm uuid d id userId body)) = questions d ++ news
       /\ map (fun q => (Question.formId q, Question.title q, Question.order q))
              news
          = map (fun e => (id, QuestionEntry.title e, QuestionEntry.order e))
                entries)
  /\ (forallb (fun question => fits_Int (QuestionEntry.order question)) entries
      = false ->
      updateForm uuid d id userId body
      = (Failure 500 "Value out of range for the type", d)).
Proof.
  intros Hform Hq Hnil.
  pose proof (update_ids_nil entries Hnil) as Hnew.
  unfold updateForm. rewrite Hform, Hq. cbv zeta.
  rewrite (accepted_new id entries Hnew).
  split; intros ->; [|reflexivity]. split; [reflexivity|].
  cbn [snd]. unfold reconcile_questions. cbv zeta. rewrite Hnil.
  cbn [length Z.of_nat Z.ltb Z.compare].
  pose proof (reconcile_fields_questions d id body) as E0.
  rewrite <- E0. clear E0 Hform Hq. clear Hnil.
  generalize (reconcile_fields uuid d id body). clear d.
  induction entries as [|e rest IH]; intros d; simpl.
  - exists []. now rewrite app_nil_r.
  - destruct (IH (fun q H => Hnew q (or_intror H))
                 (process_question uuid id d e)) as (news & E & Hm).
    exists (new_question (uuid (seed d)) id e :: news). split.
    + rewrite E, process_question_new by (apply Hnew; now left).
      now rewrite <- app_assoc.
    + simpl. now rewrite Hm.
Qed.

Hypothesis Hgenerator :
  forall n, String.prefix "question-" (uuid n) = false.

Lemma process_questions_unprefixed (id : string)
    (entries : list QuestionEntry.t) :
  forall d,
    (forall q, In q (questions d) ->
               String.prefix "question-" (Question.id q) = false) ->
    exists news,
      questions (fold_left (process_question uuid id) entries d)
      = questions d ++ news
      /\ forall q, In q news ->
                   Question.formId q = id
                   /\ String.prefix "question-" (Question.id q) = false.
Proof.
  induction entries as [|e rest IH]; intros d Hstored; simpl.
  - exists []. split; [now rewrite app_nil_r|intros q []].
  - destruct (is_existing_id (QuestionEntry.id e)) eqn:Ee.
    + rewrite (process_question_skipped id d e Hstored Ee). now apply IH.
    + pose proof (process_question_new id d e Ee) as E1.
      destruct (IH (process_question uuid id d e)) as (news & E & Hn).
      { rewrite E1. intros q Hq. apply in_app_or in Hq.
        destruct Hq as [Hq|[<-|[]]]; [now apply Hstored|].
        apply Hgenerator. }
      exists (new_question (uuid (seed d)) id e :: news). split.
      * rewrite E, E1. now rewrite <- app_assoc.
      * intros q [<-|Hq]; [|now apply Hn]. split; [reflexivity|].
        apply Hgenerator.
Qed.

(** With such a generator and such a store, the entries that are accepted
    are those whose new questions have orders that fit the column: an entry
    with a [question-] identifier finds no row and writes nothing. *)
Lemma accepted_unprefixed (id : string) (entries : list QuestionEntry.t) :
  forall d,
    (forall q, In q (questions d) ->
               String.prefix "question-" (Question.id q) = false) ->
    accepted uuid id entries d
    = forallb (fun question =>
                 is_existing_id (QuestionEntry.id question)
                 || fits_Int (QuestionEntry.order question)) entries.
Proof.
  induction entries as [|e rest IH]; intros d Hstored; [reflexivity|].
  cbn [accepted forallb].
  destruct (is_existing_id (QuestionEntry.id e)) eqn:Ee.
  - rewrite (process_question_skipped id d e Hstored Ee).
    rewrite (IH d Hstored). f_equal.
    unfold writes_order. rewrite Ee.
    destruct (QuestionEntry.id e) as [s|]; [|discriminate].
    apply is_existing_prefix in Ee.
    destruct (find _ (questions d)) as [q|] eqn:Ef; [|reflexivity].
    apply find_some in Ef. destruct Ef as [Hin Hid].
    apply String.eqb_eq in Hid. specialize (Hstored q Hin).
    rewrite Hid in Hstored. congruence.
  - unfold writes_order at 1. rewrite Ee. cbn [negb orb]. f_equal.
    apply IH. rewrite (process_question_new id d e Ee).
    intros q Hq. apply in_app_or in Hq.
    destruct Hq as [Hq|[<-|[]]]; [now apply Hstored|apply Hgenerator].
Qed.

(** X15.  When neither the generator nor the store has a question
    identifier that starts with [question-], as with the UUIDs of the
    schema, and some entry of the [questions] array has such an identifier:
    when the [order] of every entry that is taken for a new question fits
    the 32-bit column, [updateForm] answers 200 and leaves the form without
    any question, the stored ones and the ones it has just created being
    deleted and the questions of other forms kept; when the [order] of such
    an entry does not fit, [updateForm] answers 500 and the store is as it
    was. *)
Theorem updateForm_wipes_the_questions (d : DB) (id userId : string)
    (form : Form.t) (body : UpdateFormBody.t) (entries : list QuestionEntry.t) :
  find (fun f => (Form.id f =? id)%string && (Form.userId f =? userId)%string)
       (forms d) = Some form ->
  UpdateFormBody.questions body = Some entries ->
  (forall q, In q (questions d) ->
             String.prefix "question-" (Question.id q) = false) ->
  update_ids entries <> [] ->
  (forallb (fun question =>
              is_existing_id (QuestionEntry.id question)
              || fits_Int (QuestionEntry.order question)) entries = true ->
   status (fst (updateForm uuid d id userId body)) = 200
   /\ questions (snd (updateForm uuid d id userId body))
      = filter (fun q => negb (Question.formId q =? id)%string) (questions d)
   /\ questions_of (snd (updateForm uuid d id userId body)) id = [])
  /\ (forallb (fun question =>
                 is_existing_id (QuestionEntry.id question)
                 || fits_Int (QuestionEntry.order question)) entries = false ->
      updateForm uuid d id userId body
      = (Failure 500 "Value out of range for the type", d)).
Proof.
  intros Hform Hq Hstored Hne.
  assert (Ha : accepted uuid id entries (reconcile_fields uuid d id body)
               = forallb (fun question =>
                            is_existing_id (QuestionEntry.id question)
                            || fits_Int (QuestionEntry.order question))
                         entries).
  { apply accepted_unprefixed. now rewrite reconcile_fields_questions. }
  split; intros Hfit; rewrite Hfit in Ha;
    [|unfold updateForm; now rewrite Hform, Hq, Ha].
  assert (E : questions (snd (updateForm uuid d id userId body))
              = filter (fun q => negb (Question.formId q =? id)%string)
                       (questions d)).
  { unfold updateForm. rewrite Hform, Hq, Ha. cbv zeta. cbn [snd].
    unfold reconcile_questions. cbv zeta.
    destruct (0 <? Z.of_nat (length (update_ids entries)))%Z eqn:Hlen.
    2:{ apply Z.ltb_ge in Hlen.
        destruct (update_ids entries); [now elim Hne|].
        cbn [length] in Hlen. lia. }
    destruct (process_questions_unprefixed id entries
                (reconcile_fields uuid d id body)) as (news & E & Hn).
    { now rewrite reconcile_fields_questions. }
    rewrite reconcile_fields_questions in E.
    unfold delete_questions. cbv zeta. tables. rewrite E, filter_app.
    rewrite (filter_none _ news), app_nil_r.
    - apply filter_ext_in. intros q Hin. f_equal.
      destruct (includes (update_ids entries) (Question.id q)) eqn:Ei.
      + apply includes_In, update_ids_prefix in Ei.
        rewrite (Hstored q Hin) in Ei. discriminate.
      + apply andb_true_r.
    - intros q Hin. destruct (Hn q Hin) as [Hf Hp].
      rewrite Hf, String.eqb_refl.
      destruct (includes (update_ids entries) (Question.id q)) eqn:Ei;
        [|reflexivity].
      apply includes_In, update_ids_prefix in Ei. congruence. }
  split.
  - unfold updateForm. now rewrite Hform, Hq, Ha.
  - split; [exact E|]. unfold questions_of. rewrite E.
    apply filter_none. intros q Hin. apply filter_In in Hin.
    now apply negb_true_iff.
Qed.

End Appending.

(** Sending Q1 back under its stored identifier adds a second Q1. *)
Lemma updateForm_appends_unprefixed_witness :
  exists news,
    questions (snd (updateForm Sample.uuid Sample.scenario "F" "owner"
                      Cases.resent))
    = [Sample.Q1; Sample.Q2; Sample.Q3] ++ news
    /\ map (fun q => (Question.formId q, Question.title q, Question.order q))
           news
       = [("F", "Q1", 0%Z)].
Proof.
  exact (proj2 (proj1 (updateForm_appends_unprefixed Sample.uuid
                         Sample.scenario "F" "owner" Sample.F Cases.resent _
                         eq_refl eq_refl eq_refl) eq_refl)).
Defined.

Lemma updateForm_wipes_the_questions_witness :
  questions_of Sample.scenario "F" = [Sample.Q1; Sample.Q2; Sample.Q3]
  /\ questions_of
       (snd (updateForm Sample.uuid Sample.scenario "F" "owner"
               Sample.keep_one)) "F" = [].
Proof.
  split; [reflexivity|].
  assert (Hstored : forall q, In q (questions Sample.scenario) ->
                              String.prefix "question-" (Question.id q)
                              = false)
    by (intros q [<-|[<-|[<-|[]]]]; reflexivity).
  assert (Hne : update_ids
                  [QuestionEntry.mk (Some "question-1") "shortText" "One"
                     Undefined None 0 None None None] <> [])
    by discriminate.
  exact (proj2 (proj2
           (proj1 (updateForm_wipes_the_questions Sample.uuid
                     (fun n => eq_refl) Sample.scenario "F" "owner" Sample.F
                     Sample.keep_one _ eq_refl eq_refl Hstored Hne)
              eq_refl))).
Defined.

(** ** Settings and notification e-mails *)

Section Settings.

Variable uuid : nat -> string.

(** X16.  When the request carries settings, [createForm] stores one
    settings row for the new form, whose [showProgressBar] is true whatever
    the request asks and whose [redirectUrl] is never null, and it stores
    no notification e-mail, whatever the settings name. *)
Theorem createForm_settings_as_stored (d : DB) (userId : string)
    (body : CreateFormBody.t) (settings : SettingsBody.t) :
  CreateFormBody.settings body = Some settings ->
  notificationEmails (snd (createForm uuid d userId body))
  = notificationEmails d
  /\ exists form row,
       fst (createForm uuid d userId body) = Success 201 form
       /\ formSettings (snd (createForm uuid d userId body))
          = formSettings d ++ [row]
       /\ FormSettings.formId row = Form.id form
       /\ FormSettings.showProgressBar row = true
       /\ FormSettings.redirectUrl row <> None.
Proof.
  intros Hs. unfold createForm, fresh. cbv zeta. rewrite Hs.
  cbn [fst snd]. unfold create_settings, fresh. cbv zeta.
  destruct (CreateFormBody.theme body),
           (SettingsBody.notificationEmails settings);
    (split; [reflexivity|]);
    eexists; eexists; (split; [reflexivity|]);
    (split; [reflexivity|]); (split; [reflexivity|]);
    (split; [|discriminate]);
    cbn [FormSettings.showProgressBar];
    now destruct (SettingsBody.showProgressBar settings) as [[|]|].
Qed.

Lemma create_emails_stored settingsId emails :
  forall d,
    map NotificationEmail.email
        (filter (fun e => (NotificationEmail.formSettingsId e
                           =? settingsId)%string)
                (notificationEmails (create_emails uuid settingsId emails d)))
    = map NotificationEmail.email
          (filter (fun e => (NotificationEmail.formSettingsId e
                             =? settingsId)%string)
                  (notificationEmails d)) ++ emails.
Proof.
  unfold create_emails.
  induction emails as [|email rest IH]; intros d; simpl.
  - now rewrite app_nil_r.
  - rewrite IH. unfold fresh. tables. rewrite filter_app, map_app. simpl.
    rewrite String.eqb_refl. simpl. now rewrite <- app_assoc.
Qed.

Lemma create_rules_emails logicId rules d :
  notificationEmails (create_rules uuid logicId rules d)
  = notificationEmails d.
Proof. unfold create_rules. now apply fold_frame. Qed.

Lemma process_question_emails formId d question :
  notificationEmails (process_question uuid formId d question)
  = notificationEmails d.
Proof.
  unfold process_question, update_logic, create_logic, fresh.
  destruct (is_existing_id (QuestionEntry.id question)).
  - destruct (find _ (questions d)); [|reflexivity]. cbv zeta.
    destruct (QuestionEntry.conditionalLogic question) as [logic|];
      [|now destruct (_ && _)].
    destruct (find _ (conditionalLogics _)), (LogicBody.enabled logic),
             (LogicBody.rules logic);
      rewrite ?create_rules_emails; now destruct (_ && _).
  - cbv zeta.
    destruct (QuestionEntry.conditionalLogic question) as [logic|];
      [destruct (LogicBody.enabled logic), (LogicBody.rules logic)|];
      now rewrite ?create_rules_emails.
Qed.

Lemma reconcile_questions_emails formId entries d :
  notificationEmails (reconcile_questions uuid formId entries d)
  = notificationEmails d.
Proof.
  unfold reconcile_questions. cbv zeta.
  assert (E : notificationEmails
                (fold_left (process_question uuid formId) entries d)
              = notificationEmails d)
    by (apply (fold_frame notificationEmails); intros;
        apply process_question_emails).
  now destruct (0 <? _)%Z.
Qed.

(** X17.  When the form has settings and the request names notification
    e-mails: when the transaction commits, which it does when the request
    has no [questions] array or every [order] in it fits the 32-bit column,
    [updateForm] answers 200 and leaves the settings row with exactly the
    e-mails of the request, in their order, the earlier ones being gone; when
    a write of a question is refused, it answers 500 and the store, the old
    e-mails included, is as it was. *)
Theorem updateForm_replaces_emails (d : DB) (id userId : string)
    (form : Form.t) (old : FormSettings.t) (body : UpdateFormBody.t)
    (settings : SettingsBody.t) (emails : list string) :
  find (fun f => (Form.id f =? id)%string && (Form.userId f =? userId)%string)
       (forms d) = Some form ->
  find (fun s => (FormSettings.formId s =? id)%string) (formSettings d)
    = Some old ->
  UpdateFormBody.settings body = Some settings ->
  SettingsBody.notificationEmails settings = Some emails ->
  (commits uuid d id body = true ->
   status (fst (updateForm uuid d id userId body)) = 200
   /\ map NotificationEmail.email
          (filter (fun e => (NotificationEmail.formSettingsId e
                             =? FormSettings.id old)%string)
                  (notificationEmails (snd (updateForm uuid d id userId body))))
      = emails)
  /\ (commits uuid d id body = false ->
      updateForm uuid d id userId body
      = (Failure 500 "Value out of range for the type", d))
  /\ ((forall entries, UpdateFormBody.questions body = Some entries ->
         Forall (fun question =>
                   fits_Int (QuestionEntry.order question) = true) entries) ->
      commits uuid d id body = true).
Proof.
  intros Hform Hold Hs He.
  split; [|split; [apply (updateForm_refused uuid d id userId body form Hform)
                  |apply commits_fits]].
  intros C.
  rewrite (updateForm_committed uuid d id userId body form Hform C).
  cbn [fst snd status]. split; [reflexivity|].
  assert (E : notificationEmails
                (match UpdateFormBody.questions body with
                 | Some entries =>
                     reconcile_questions uuid id entries
                       (reconcile_fields uuid d id body)
                 | None => reconcile_fields uuid d id body
                 end)
              = notificationEmails (reconcile_fields uuid d id body))
    by (destruct (UpdateFormBody.questions body);
        [apply reconcile_questions_emails|reflexivity]).
  rewrite E. unfold reconcile_fields. cbv zeta. rewrite Hold, Hs.
  unfold reconcile_settings. rewrite He. cbv zeta.
  set (sid := FormSettings.id old).
  set (d2 := set_notificationEmails _ _).
  assert (E2 : filter (fun e => (NotificationEmail.formSettingsId e
                                 =? sid)%string) (notificationEmails d2)
               = []).
  { unfold d2. tables. apply filter_none. intros e Hin.
    apply filter_In in Hin. now apply negb_true_iff. }
  destruct (0 <? Z.of_nat (length emails))%Z eqn:Hlen.
  - now rewrite create_emails_stored, E2.
  - rewrite E2. destruct emails; [reflexivity|].
    apply Z.ltb_ge in Hlen. cbn [length] in Hlen. lia.
Qed.

End Settings.

Lemma createForm_settings_as_stored_witness :
  notificationEmails
    (snd (createForm Sample.uuid emptyDB "owner" Cases.with_settings)) = []
  /\ map FormSettings.showProgressBar
         (formSettings
            (snd (createForm Sample.uuid emptyDB "owner" Cases.with_settings)))
     = [true].
Proof.
  destruct (createForm_settings_as_stored Sample.uuid emptyDB "owner"
              Cases.with_settings Cases.quiet_settings eq_refl) as [He _].
  split; [exact He|reflexivity].
Defined.

Lemma updateForm_replaces_emails_witness :
  map NotificationEmail.email
      (filter (fun e => (NotificationEmail.formSettingsId e =? "S1")%string)
              (notificationEmails
                 (snd (updateForm Sample.uuid Cases.notified "F" "owner"
                         Cases.renotified))))
  = ["new@example.org"; "other@example.org"].
Proof.
  exact (proj2
           (proj1 (updateForm_replaces_emails Sample.uuid Cases.notified "F"
                     "owner" Sample.F
                     (FormSettings.mk "S1" "F" false false true false "Thanks"
                        None true)
                     Cases.renotified
                     (SettingsBody.mk None None None None None Undefined None
                        (Some ["new@example.org"; "other@example.org"]))
                     ["new@example.org"; "other@example.org"]
                     eq_refl eq_refl eq_refl eq_refl)
              eq_refl)).
Defined.

(** ** Answers are read back *)

Lemma find_refine {A : Type} (p q : A -> bool) (l : list A) (x : A) :
  find p l = Some x -> q x = true -> find (fun y => p y && q y) l = Some x.
Proof.
  induction l as [|y r IH]; simpl; [discriminate|].
  destruct (p y) eqn:E.
  - intros [= ->] Hq. now rewrite Hq.
  - exact IH.
Qed.

Lemma find_map_same {A : Type} (p : A -> bool) (g : A -> A) (l : list A) :
  (forall x, p (g x) = p x) ->
  find p (map g l) = option_map g (find p l).
Proof.
  intros H. induction l as [|x r IH]; simpl; [reflexivity|].
  rewrite H. now destruct (p x).
Qed.

Lemma all_some_In {A B : Type} (f : A -> option B) (l : list A) (vs : list B)
    (x : A) :
  all_some (map f l) = Some vs -> In x l ->
  exists v, f x = Some v /\ In v vs.
Proof.
  revert vs. induction l as [|y r IH]; intros vs E Hin; [destruct Hin|].
  simpl in E. destruct (f y) as [w|] eqn:Ey; [|discriminate].
  destruct (all_some (map f r)) as [ws|] eqn:Er; [|discriminate].
  injection E as <-. destruct Hin as [<-|Hin].
  - exists w. split; [exact Ey|now left].
  - destruct (IH ws eq_refl Hin) as (v & Ev & Hv). exists v.
    split; [exact Ev|now right].
Qed.

Lemma upsert_answer_row (uuid : nat -> string) (d : DB)
    (responseId questionId : string) (value fileUrl : field string) :
  let up := upsert_answer uuid d responseId questionId value fileUrl in
  In (fst up) (answers (snd up))
  /\ Answer.responseId (fst up) = responseId
  /\ Answer.questionId (fst up) = questionId
  /\ questions (snd up) = questions d
  /\ forms (snd up) = forms d.
Proof.
  unfold upsert_answer.
  destruct (find _ (answers d)) as [existing|] eqn:E; cbn [fst snd]; tables.
  - apply find_some in E. destruct E as [Hin Hp].
    apply andb_true_iff in Hp. destruct Hp as [H1 H2].
    apply String.eqb_eq in H1, H2.
    destruct (answer_update_pair (Answer.id existing) value fileUrl existing)
      as [-> ->].
    repeat split; try assumption. now apply in_map.
  - repeat split. apply in_or_app. right. now left.
Qed.

(** X18.  Round trip: in a store whose foreign keys hold, after
    [submitAnswer] has answered 200, [getResponse] with the respondent
    identifier of the response answers 200 and lists an answer for the
    submitted question with the value and the file of the answer that
    [submitAnswer] returned; it reports the response completed when the
    question was the last one or the response was completed before. *)
Theorem submitAnswer_then_getResponse (uuid : nat -> string) (d : DB)
    (responseId : string) (body : SubmitBody.t) (now : Z)
    (response : Response.t) (data : SubmitData.t) :
  linked d ->
  find (fun r => (Response.id r =? responseId)%string) (responses d)
    = Some response ->
  Response.respondentId response <> "" ->
  fst (submitAnswer uuid d responseId body now) = Success 200 data ->
  exists view v,
    getResponse (snd (submitAnswer uuid d responseId body now)) responseId
      (Some (Response.respondentId response)) = Success 200 view
    /\ ResponseView.isCompleted view
       = SubmitData.isLastQuestion data || Response.isCompleted response
    /\ In v (ResponseView.answers view)
    /\ Some (AnswerView.questionId v) = SubmitBody.questionId body
    /\ AnswerView.value v = Answer.value (SubmitData.answer data)
    /\ AnswerView.fileUrl v = Answer.fileUrl (SubmitData.answer data).
Proof.
  intros H Hr Hrid Hok.
  pose proof (submitAnswer_linked uuid d responseId body now H) as H'.
  destruct (find (id_is (SubmitBody.questionId body))
                 (questions_asc d (Response.formId response)))
    as [question|] eqn:Hq.
  2:{ rewrite (submitAnswer_no_question uuid d responseId body now _ Hr Hq)
        in Hok. discriminate. }
  destruct (submitAnswer_found uuid d responseId body now _ _ Hr Hq)
    as (i & _ & _ & E).
  rewrite E in Hok, H' |- *. cbn [fst snd] in Hok, H' |- *.
  injection Hok as <-. cbn [SubmitData.isLastQuestion SubmitData.answer].
  destruct (upsert_answer_row uuid d responseId (Question.id question)
              (SubmitBody.value body) (SubmitBody.fileUrl body))
    as (Hin & Har & Haq & Equ & Efo).
  pose proof (upsert_answer_responses uuid d responseId (Question.id question)
                (SubmitBody.value body) (SubmitBody.fileUrl body)) as Ere.
  set (up := upsert_answer uuid d responseId (Question.id question)
               (SubmitBody.value body) (SubmitBody.fileUrl body)) in *.
  assert (Hqid : SubmitBody.questionId body = Some (Question.id question)).
  { apply find_some in Hq. destruct Hq as [_ Hq]. unfold id_is in Hq.
    destruct (SubmitBody.questionId body) as [s|]; [|discriminate].
    apply String.eqb_eq in Hq. now rewrite Hq. }
  set (rid := Response.respondentId response) in *.
  set (p := fun r => (Response.id r =? responseId)%string
                     && (Response.respondentId r =? rid)%string).
  assert (Hfind : find p (responses d) = Some response)
    by (apply find_refine; [exact Hr|apply String.eqb_refl]).
  set (last := (S i =? length (questions_asc d (Response.formId response)))%nat)
    in *.
  set (d' := if last
             then set_responses
                    (map (response_complete responseId now)
                         (responses (snd up))) (snd up)
             else snd up) in *.
  assert (Hd' : answers d' = answers (snd up) /\ questions d' = questions d
                /\ forms d' = forms d)
    by (unfold d'; destruct last; now repeat split).
  destruct Hd' as (Ea & Eq' & Ef').
  assert (Hres : exists r',
             find p (responses d') = Some r'
             /\ Response.id r' = responseId
             /\ Response.respondentId r' = rid
             /\ Response.formId r' = Response.formId response
             /\ Response.isCompleted r'
                = last || Response.isCompleted response).
  { apply find_some in Hr. destruct Hr as [_ Hid].
    apply String.eqb_eq in Hid. unfold d'. destruct last.
    - tables. rewrite Ere, find_map_same, Hfind.
      + eexists. split; [reflexivity|]. unfold response_complete.
        rewrite Hid, String.eqb_refl. now repeat split.
      + intros r. unfold p, response_complete.
        destruct (Response.id r =? responseId)%string eqn:Er;
          cbn [Response.id Response.respondentId]; now rewrite ?Er.
    - rewrite Ere, Hfind. exists response. now repeat split. }
  destruct Hres as (r' & Er' & Hid' & Hrid' & Hf' & Hc').
  unfold getResponse.
  destruct (rid =? "")%string eqn:Erid;
    [now apply String.eqb_eq in Erid|].
  fold p. rewrite Er'. cbv zeta.
  assert (Hin' : In r' (responses d'))
    by (apply find_some in Er'; tauto).
  destruct (response_rows_found d' r' H' Hin') as [Hform Hviews].
  destruct (find (fun f => (Form.id f =? Response.formId r')%string)
                 (forms d')) as [f|]; [|now elim Hform].
  match goal with
  | |- context [all_some (map ?g ?rows)] =>
      destruct (all_some (map g rows)) as [vs|] eqn:Ev; [|now elim Hviews];
      destruct (all_some_In g rows vs (fst up) Ev) as (v & Egv & Hv)
  end.
  { apply filter_In. split; [now rewrite Ea|].
    rewrite Har, Hid'. apply String.eqb_refl. }
  cbv beta in Egv.
  destruct (find _ (questions d')) as [q0|]; [|discriminate].
  injection Egv as <-.
  eexists. eexists. split; [reflexivity|].
  cbn [ResponseView.isCompleted ResponseView.answers AnswerView.questionId
       AnswerView.value AnswerView.fileUrl].
  split; [exact Hc'|]. split; [exact Hv|]. rewrite Haq, Hqid.
  now repeat split.
Qed.

Lemma submitAnswer_then_getResponse_witness :
  exists view v,
    getResponse Sample.answered "id-1" (Some "id-0") = Success 200 view
    /\ In v (ResponseView.answers view)
    /\ AnswerView.questionId v = "Q1"
    /\ AnswerView.value v = Some "a"
    /\ AnswerView.fileUrl v = Some "u".
Proof.
  assert (H : linked Sample.started) by (apply linkedb_linked; reflexivity).
  assert (Hne : Response.respondentId
                  (Response.mk "id-1" "F" "id-0" false 1000 None) <> "")
    by discriminate.
  destruct (submitAnswer_then_getResponse Sample.uuid Sample.started "id-1"
              (Sample.answer "Q1" (Val "a") (Val "u")) 1001
              (Response.mk "id-1" "F" "id-0" false 1000 None)
              (SubmitData.mk (Answer.mk "id-2" "Q1" "id-1" (Some "a")
                                (Some "u"))
                 (Some Sample.Q2) false)
              H eq_refl Hne eq_refl)
    as (view & v & E & _ & Hv & Hq & Hval & Hfile).
  exists view, v. split; [exact E|]. split; [exact Hv|].
  split; [now injection Hq|]. split; [exact Hval|exact Hfile].
Defined.

(** ** The responses of a form, keyed by question title *)

Section Objects.

Context {V : Type}.

Lemma get_set_same (key : string) (cell : V) (obj : list (string * V)) :
  key <> "__proto__" ->
  get_property key (set_property key cell obj) = Some cell.
Proof.
  intros Hk. apply String.eqb_neq in Hk.
  induction obj as [|[k v] rest IH]; simpl; rewrite Hk; simpl.
  - now rewrite String.eqb_refl.
  - destruct (k =? key)%string eqn:E; simpl; rewrite E; [reflexivity|].
    exact IH.
Qed.

Lemma get_set_other (k key : string) (cell : V) (obj : list (string * V)) :
  k <> key ->
  get_property k (set_property key cell obj) = get_property k obj.
Proof.
  intros Hk.
  induction obj as [|[k0 v] rest IH]; simpl;
    destruct (key =? "__proto__")%string; try reflexivity.
  - simpl. apply String.eqb_neq in Hk. rewrite String.eqb_sym in Hk.
    now rewrite Hk.
  - destruct (k0 =? key)%string eqn:E; simpl.
    + apply String.eqb_eq in E. subst k0.
      apply String.eqb_neq in Hk. rewrite String.eqb_sym in Hk.
      now rewrite Hk.
    + now rewrite IH.
Qed.

Lemma set_property_keys (key : string) (cell : V) (obj : list (string * V)) :
  forall k, In k (map fst (set_property key cell obj)) ->
            In k (map fst obj) \/ (k = key /\ key <> "__proto__").
Proof.
  induction obj as [|[k0 v] rest IH]; simpl; intros k;
    destruct (key =? "__proto__")%string eqn:Ep; simpl; try tauto.
  - apply String.eqb_neq in Ep. intros [<-|[]]. now right.
  - destruct (k0 =? key)%string eqn:E; simpl; [tauto|].
    intros [H|H]; [tauto|]. destruct (IH k H); tauto.
Qed.

Lemma set_property_NoDup (key : string) (cell : V) (obj : list (string * V)) :
  NoDup (map fst obj) -> NoDup (map fst (set_property key cell obj)).
Proof.
  induction obj as [|[k0 v] rest IH]; simpl; intros Hnd;
    destruct (key =? "__proto__")%string eqn:Ep; simpl; try assumption.
  - constructor; [intros []|constructor].
  - inversion Hnd as [|? ? Hnotin Hrest]; subst.
    destruct (k0 =? key)%string eqn:E; simpl; [now constructor|].
    constructor; [|now apply IH].
    intros Hin. apply set_property_keys in Hin.
    destruct Hin as [Hin|[Hin _]]; [contradiction|].
    subst k0. now rewrite String.eqb_refl in E.
Qed.

End Objects.

Lemma answersMap_app (rows rows' : list (Answer.t * option Question.t)) :
  forall obj,
    answersMap (rows ++ rows') obj
    = match answersMap rows obj with
      | Some o => answersMap rows' o
      | None => None
      end.
Proof.
  induction rows as [|[a [q|]] rest IH]; intros obj; simpl;
    [reflexivity| |reflexivity].
  apply IH.
Qed.

Lemma answersMap_keys (rows : list (Answer.t * option Question.t)) :
  forall obj obj',
    answersMap rows obj = Some obj' ->
    (NoDup (map fst obj) -> NoDup (map fst obj'))
    /\ (~ In "__proto__" (map fst obj) -> ~ In "__proto__" (map fst obj')).
Proof.
  induction rows as [|[a [q|]] rest IH]; intros obj obj' E; simpl in E.
  - injection E as <-. tauto.
  - destruct (IH _ _ E) as [H1 H2]. split.
    + intros Hnd. now apply H1, set_property_NoDup.
    + intros Hn. apply H2. intros Hin. apply set_property_keys in Hin.
      destruct Hin as [Hin|[Hk Hp]]; [contradiction|]. now elim Hp.
  - discriminate.
Qed.

Lemma answersMap_sound (rows : list (Answer.t * option Question.t)) :
  forall obj obj' key cell,
    answersMap rows obj = Some obj' ->
    get_property key obj' = Some cell ->
    get_property key obj = Some cell
    \/ exists a q, In (a, Some q) rows /\ Question.title q = key
                   /\ cell = (Answer.value a, Question.type q).
Proof.
  induction rows as [|[a [q|]] rest IH]; intros obj obj' key cell E G;
    simpl in E.
  - injection E as <-. now left.
  - destruct (IH _ _ key cell E G) as [H|(a' & q' & Hin & Ht & Hc)].
    + destruct (String.eqb_spec key (Question.title q)) as [->|Hne].
      * destruct (String.eqb_spec (Question.title q) "__proto__") as [Ep|Ep].
        -- left. rewrite Ep in H.
           assert (Es : forall o : list (string * (option string * string)),
                      set_property "__proto__"
                        (Answer.value a, Question.type q) o = o)
             by (intros [|[? ?] ?]; reflexivity).
           rewrite Es in H. now rewrite Ep.
        -- rewrite get_set_same in H by exact Ep. injection H as <-.
           right. exists a, q. split; [now left|]. now split.
      * rewrite get_set_other in H by exact Hne. now left.
    + right. exists a', q'. split; [now right|]. now split.
  - discriminate.
Qed.

Lemma answersMap_untitled (rows : list (Answer.t * option Question.t))
    (key : string) :
  (forall a q, In (a, Some q) rows -> Question.title q <> key) ->
  forall obj obj',
    answersMap rows obj = Some obj' ->
    get_property key obj' = get_property key obj.
Proof.
  induction rows as [|[a [q|]] rest IH]; intros Hne obj obj' E; simpl in E.
  - now injection E as <-.
  - rewrite (IH (fun a' q' H => Hne a' q' (or_intror H)) _ _ E).
    apply get_set_other. intros Ek. symmetry in Ek.
    now apply (Hne a q (or_introl eq_refl)).
  - discriminate.
Qed.

Lemma all_some_from {A B : Type} (f : A -> option B) (l : list A)
    (vs : list B) (v : B) :
  all_some (map f l) = Some vs -> In v vs ->
  exists x, In x l /\ f x = Some v.
Proof.
  revert vs. induction l as [|y r IH]; intros vs E Hin; simpl in E.
  - injection E as <-. destruct Hin.
  - destruct (f y) as [w|] eqn:Ey; [|discriminate].
    destruct (all_some (map f r)) as [ws|] eqn:Er; [|discriminate].
    injection E as <-. destruct Hin as [<-|Hin].
    + exists y. split; [now left|exact Ey].
    + destruct (IH ws eq_refl Hin) as (x & Hx & Ex). exists x.
      split; [now right|exact Ex].
Qed.

(** X19.  In each element of a 200 reply of [getFormResponses] the answers
    are keyed by question title: no key is repeated, none is [__proto__],
    every key holds the value of an answer of that response and the type of
    its question, and for a title other than [__proto__] it is the last
    answer of the response to a question of that title: answers to
    questions of the same title fall on one key. *)
Theorem getFormResponses_keys_by_title (d : DB) (id userId : string)
    (rows : list ResponseRow.t) (row : ResponseRow.t) :
  getFormResponses d id userId = Success 200 rows ->
  In row rows ->
  NoDup (map fst (ResponseRow.answers row))
  /\ ~ In "__proto__" (map fst (ResponseRow.answers row))
  /\ (forall key cell,
         get_property key (ResponseRow.answers row) = Some cell ->
         exists a q,
           In (a, Some q) (answers_with_question d (ResponseRow.id row))
           /\ Question.title q = key
           /\ cell = (Answer.value a, Question.type q))
  /\ (forall before a q after,
         answers_with_question d (ResponseRow.id row)
         = before ++ (a, Some q) :: after ->
         Question.title q <> "__proto__" ->
         (forall a' q', In (a', Some q') after ->
                        Question.title q' <> Question.title q) ->
         get_property (Question.title q) (ResponseRow.answers row)
         = Some (Answer.value a, Question.type q)).
Proof.
  unfold getFormResponses.
  destruct (find _ (forms d)); [|discriminate]. cbv zeta.
  match goal with
  | |- context [all_some (map ?g ?l)] =>
      destruct (all_some (map g l)) as [vs|] eqn:Ev; [|discriminate];
      intros E Hin; injection E as <-;
      destruct (all_some_from g l vs row Ev Hin) as (response & _ & Er)
  end.
  cbv beta in Er.
  destruct (answersMap (answers_with_question d (Response.id response)) [])
    as [obj|] eqn:Em; [|discriminate].
  injection Er as <-. cbn [ResponseRow.answers ResponseRow.id].
  destruct (answersMap_keys _ _ _ Em) as [Hnd Hproto].
  split; [apply Hnd; constructor|]. split; [apply Hproto; intros []|].
  split.
  - intros key cell G.
    destruct (answersMap_sound _ _ _ key cell Em G) as [H|H];
      [discriminate|exact H].
  - intros before a q after Erows Hp Hafter. rewrite Erows in Em.
    rewrite answersMap_app in Em.
    destruct (answersMap before []) as [o|]; [|discriminate].
    simpl in Em.
    rewrite (answersMap_untitled after (Question.title q) Hafter _ _ Em).
    now apply get_set_same.
Qed.

(** Two answered questions titled "Name": one key, with the second
    answer. *)
Lemma getFormResponses_keys_by_title_witness :
  getFormResponses Cases.same_titles "F" "owner"
  = Success 200
      [ResponseRow.mk "r1" "a" true 10 (Some 20%Z)
         [("Name", (Some "second", "paragraph"))]]
  /\ NoDup (map fst [("Name", (Some "second", "paragraph"))]).
Proof.
  split; [reflexivity|].
  exact (proj1
           (getFormResponses_keys_by_title Cases.same_titles "F" "owner"
              [ResponseRow.mk "r1" "a" true 10 (Some 20%Z)
                 [("Name", (Some "second", "paragraph"))]]
              (ResponseRow.mk "r1" "a" true 10 (Some 20%Z)
                 [("Name", (Some "second", "paragraph"))])
              eq_refl (or_introl eq_refl))).
Defined.

(** ** Counting responses *)

Lemma all_some_length {A : Type} (l : list (option A)) (vs : list A) :
  all_some l = Some vs -> length vs = length l.
Proof.
  revert vs. induction l as [|[a|] r IH]; intros vs E; simpl in E.
  - now injection E as <-.
  - destruct (all_some r) as [ws|]; [|discriminate]. injection E as <-.
    simpl. now rewrite (IH ws eq_refl).
  - discriminate.
Qed.

Lemma ascending_of_map {A : Type} (key : A -> Z) (l : list A) :
  ascending (fun z => z) (map key l) -> ascending key l.
Proof.
  induction l as [|x r IH]; simpl; intros H; [constructor|].
  inversion H as [|? ? Hs Hall]; subst. constructor; [now apply IH|].
  rewrite Forall_forall in *. intros y Hy. apply Hall. now apply in_map.
Qed.

(** X20.  In a store whose foreign keys hold, the number that
    [getFormResponseCount] reports is the [responses] of
    [getFormAnalytics], the response count of [getForm] and the number of
    elements of [getFormResponses], whose elements come latest start
    first. *)
Theorem response_count_is_shared (d : DB) (id userId : string) (n : nat) :
  linked d ->
  getFormResponseCount d id userId = Success 200 n ->
  (exists a, getFormAnalytics d id userId = Success 200 a
             /\ Analytics.responses a = n)
  /\ (exists view, getForm d id userId = Success 200 (view, n))
  /\ (exists rows, getFormResponses d id userId = Success 200 rows
                   /\ length rows = n
                   /\ ascending (fun row => (- ResponseRow.startedAt row)%Z)
                                rows).
Proof.
  intros H.
  unfold getFormResponseCount, getFormAnalytics, getForm, getFormResponses.
  destruct (find _ (forms d)) as [form|] eqn:E; [|discriminate].
  destruct (find_form_In d id userId form E) as (_ & Hid & _).
  cbv zeta. intros Hn. injection Hn as <-. repeat split.
  - eexists. split; reflexivity.
  - rewrite Hid. eexists. reflexivity.
  - set (sorted := orderBy (fun r => (- Response.startedAt r)%Z)
                     (filter (fun r => (Response.formId r =? id)%string)
                             (responses d))) in *.
    match goal with
    | |- context [all_some (map ?g sorted)] =>
        destruct (all_some (map g sorted)) as [rows|] eqn:Ev;
          [|exfalso; revert Ev; apply all_some_map; intros response _;
            destruct (answersMap _ _) eqn:Em; [discriminate|];
            now elim (answers_have_questions d (Response.id response) [] H)];
        assert (Hrows : map (fun row => (- ResponseRow.startedAt row)%Z) rows
                        = map (fun r => (- Response.startedAt r)%Z) sorted)
    end.
    { revert rows Ev.
      induction sorted as [|r rest IH]; intros rows Ev; simpl in Ev.
      - now injection Ev as <-.
      - destruct (answersMap _ _); [|discriminate].
        destruct (all_some _) as [ws|]; [|discriminate].
        injection Ev as <-. simpl. now rewrite (IH ws eq_refl). }
    exists rows. split; [reflexivity|]. split.
    + rewrite (all_some_length _ _ Ev), length_map. unfold sorted.
      apply Permutation_length, orderBy_perm.
    + apply ascending_of_map. rewrite Hrows.
      apply (ascending_map (fun r => (- Response.startedAt r)%Z)).
      apply orderBy_sorted.
Qed.

Lemma response_count_is_shared_witness :
  getFormResponseCount Sample.polled "F" "owner" = Success 200 4
  /\ exists rows,
       getFormResponses Sample.polled "F" "owner" = Success 200 rows
       /\ length rows = 4.
Proof.
  split; [reflexivity|].
  destruct (response_count_is_shared Sample.polled "F" "owner" 4
              (linkedb_linked Sample.polled eq_refl) eq_refl)
    as (_ & _ & rows & E & Hl & _).
  exists rows. split; [exact E|exact Hl].
Defined.

(** ** A started response *)

(** X21.  Round trip: when foreign keys hold, form identifiers are unique,
    and the generator's next two identifiers are a non-empty respondent
    identifier and a response identifier not in use, a response that
    [startResponse] has opened is read back by [getResponse] with the
    returned identifiers: not completed, started at the time of the
    request, without answers; and [getFormResponseCount] counts one response
    more. *)
Theorem startResponse_then_getResponse (uuid : nat -> string) (d : DB)
    (formId : string) (now : Z) (data : StartData.t) :
  linked d ->
  NoDup (map Form.id (forms d)) ->
  uuid (seed d) <> "" ->
  ~ In (uuid (S (seed d))) (map Response.id (responses d)) ->
  fst (startResponse uuid d formId now) = Success 201 data ->
  let d' := snd (startResponse uuid d formId now) in
  getResponse d' (StartData.response_id data)
    (Some (StartData.response_respondentId data))
  = Success 200
      (ResponseView.mk (StartData.response_id data)
         (StartData.response_respondentId data)
         (StartData.form_title data) (StartData.form_description data)
         false now None [])
  /\ forall userId n,
       getFormResponseCount d formId userId = Success 200 n ->
       getFormResponseCount d' formId userId = Success 200 (S n).
Proof.
  intros H Hforms Hrid Hfresh. unfold startResponse.
  destruct (find _ (forms d)) as [form|] eqn:E; [|discriminate].
  cbv zeta. cbn [fst snd]. intros Hd. injection Hd as <-.
  cbn [StartData.response_id StartData.response_respondentId
       StartData.form_title StartData.form_description Response.id
       Response.respondentId].
  apply find_some in E. destruct E as [Hin Hp].
  apply andb_true_iff in Hp. destruct Hp as [Hid _].
  apply String.eqb_eq in Hid. split.
  - unfold getResponse. apply String.eqb_neq in Hrid. rewrite Hrid. tables.
    rewrite find_app_none.
    2:{ destruct (find _ (responses d)) as [r|] eqn:Er; [|reflexivity].
        apply find_some in Er. destruct Er as [Hr Hp].
        apply andb_true_iff in Hp. destruct Hp as [Hp _].
        apply String.eqb_eq in Hp. elim Hfresh. rewrite <- Hp.
        now apply in_map. }
    simpl find. rewrite !String.eqb_refl. cbn [andb]. cbv zeta.
    cbn [Response.formId Response.id Response.respondentId
         Response.isCompleted Response.startedAt Response.completedAt].
    assert (Ef : find (fun f => (Form.id f =? formId)%string) (forms d)
                 = Some form).
    { destruct (find (fun f => (Form.id f =? formId)%string) (forms d))
        as [f|] eqn:Ef.
      - apply find_some in Ef. destruct Ef as [Hf Ef].
        apply String.eqb_eq in Ef. f_equal.
        apply (NoDup_map_injective Form.id (forms d)); congruence.
      - pose proof (find_none _ _ Ef form Hin) as N. cbv beta in N.
        rewrite Hid, String.eqb_refl in N. discriminate. }
    rewrite Ef, filter_none; [reflexivity|].
    intros a Ha. apply String.eqb_neq. intros Ea. apply Hfresh.
    rewrite <- Ea. open_linked H. now apply Lar.
  - intros userId n. unfold getFormResponseCount. tables.
    destruct (find _ (forms d)); [|discriminate].
    intros En. injection En as <-. rewrite filter_app, length_app. simpl.
    rewrite String.eqb_refl. simpl. now rewrite Nat.add_1_r.
Qed.

Lemma startResponse_then_getResponse_witness :
  getResponse Sample.started "id-1" (Some "id-0")
  = Success 200
      (ResponseView.mk "id-1" "id-0" "Survey" None false 1000 None []).
Proof.
  assert (Hne : Sample.uuid (seed Sample.scenario) <> "") by discriminate.
  assert (Hfresh : ~ In (Sample.uuid (S (seed Sample.scenario)))
                        (map Response.id (responses Sample.scenario)))
    by (apply includes_false; reflexivity).
  exact (proj1
           (startResponse_then_getResponse Sample.uuid Sample.scenario "F"
              1000
              (StartData.mk "id-1" "id-0" "F" "Survey" None 3
                 (Some Sample.Q1))
              (linkedb_linked Sample.scenario eq_refl)
              (distinct_NoDup (map Form.id (forms Sample.scenario)) eq_refl)
              Hne Hfresh eq_refl)).
Defined.

(** ** What a write leaves alone *)

(** X22.  When answer identifiers are unique, a [submitAnswer] that answers
    200 leaves the answer rows of every other pair of response and question
    as they were; it completes the response rows of its identifier when the
    question is the last one, setting [completedAt] to the time of the
    request also on a response already completed, and otherwise leaves the
    responses alone; forms, questions, logic, rules and visits are
    unchanged. *)
Theorem submitAnswer_writes_its_pair_only (uuid : nat -> string) (d : DB)
    (responseId : string) (body : SubmitBody.t) (now : Z)
    (data : SubmitData.t) :
  NoDup (map Answer.id (answers d)) ->
  fst (submitAnswer uuid d responseId body now) = Success 200 data ->
  let d' := snd (submitAnswer uuid d responseId body now) in
  (forall r q,
      (r, Some q) <> (responseId, SubmitBody.questionId body) ->
      answers_for d' r q = answers_for d r q)
  /\ responses d'
     = (if SubmitData.isLastQuestion data
        then map (response_complete responseId now) (responses d)
        else responses d)
  /\ forms d' = forms d /\ questions d' = questions d
  /\ conditionalLogics d' = conditionalLogics d
  /\ conditionalRules d' = conditionalRules d
  /\ formVisits d' = formVisits d.
Proof.
  intros Hids Hok d'. subst d'.
  destruct (find (fun r => (Response.id r =? responseId)%string) (responses d))
    as [response|] eqn:Hr.
  2:{ rewrite (submitAnswer_no_response uuid d responseId body now Hr) in Hok.
      discriminate. }
  destruct (find (id_is (SubmitBody.questionId body))
                 (questions_asc d (Response.formId response)))
    as [question|] eqn:Hq.
  2:{ rewrite (submitAnswer_no_question uuid d responseId body now _ Hr Hq)
        in Hok. discriminate. }
  destruct (submitAnswer_found uuid d responseId body now _ _ Hr Hq)
    as (i & _ & _ & E).
  set (last := (S i =? length (questions_asc d (Response.formId response)))%nat)
    in *.
  rewrite E in Hok |- *. cbn [fst snd] in Hok |- *. injection Hok as <-.
  cbn [SubmitData.isLastQuestion].
  assert (Hqid : SubmitBody.questionId body = Some (Question.id question)).
  { apply find_some in Hq. destruct Hq as [_ Hq]. unfold id_is in Hq.
    destruct (SubmitBody.questionId body) as [s|]; [|discriminate].
    apply String.eqb_eq in Hq. now rewrite Hq. }
  rewrite Hqid.
  set (up := upsert_answer uuid d responseId (Question.id question)
               (SubmitBody.value body) (SubmitBody.fileUrl body)).
  assert (Hup : (forall r q,
                    (r, Some q) <> (responseId, Some (Question.id question)) ->
                    answers_for (snd up) r q = answers_for d r q)
                /\ responses (snd up) = responses d
                /\ forms (snd up) = forms d
                /\ questions (snd up) = questions d
                /\ conditionalLogics (snd up) = conditionalLogics d
                /\ conditionalRules (snd up) = conditionalRules d
                /\ formVisits (snd up) = formVisits d).
  { unfold up, upsert_answer.
    destruct (find _ (answers d)) as [existing|] eqn:Ee; cbn [snd]; tables;
      (split; [|now repeat split]); intros r q Hne; unfold answers_for;
      tables.
    - apply find_some in Ee. destruct Ee as [Hin Hp].
      apply andb_true_iff in Hp. destruct Hp as [H1 H2].
      apply String.eqb_eq in H1, H2.
      rewrite filter_map_same
        by (intros a; now destruct (answer_update_pair (Answer.id existing)
                                      (SubmitBody.value body)
                                      (SubmitBody.fileUrl body) a)
                            as [-> ->]).
      rewrite <- (map_id (filter _ (answers d))) at 2.
      apply map_ext_in. intros a Ha. apply filter_In in Ha.
      destruct Ha as [Ha Hp]. apply andb_true_iff in Hp.
      destruct Hp as [H3 H4]. apply String.eqb_eq in H3, H4.
      unfold answer_update.
      destruct (Answer.id a =? Answer.id existing)%string eqn:Eid;
        [|reflexivity].
      apply String.eqb_eq in Eid.
      assert (a = existing)
        by (apply (NoDup_map_injective Answer.id (answers d)); assumption).
      subst a. elim Hne. congruence.
    - rewrite filter_app. simpl.
      destruct ((responseId =? r)%string
                && (Question.id question =? q)%string) eqn:Ep.
      + apply andb_true_iff in Ep. destruct Ep as [H1 H2].
        apply String.eqb_eq in H1, H2. elim Hne. congruence.
      + apply app_nil_r. }
  destruct Hup as (Ha & Hre & Hrest).
  destruct last; unfold answers_for in *; tables.
  - rewrite Hre. split; [exact Ha|]. split; [reflexivity|exact Hrest].
  - split; [exact Ha|]. split; [exact Hre|exact Hrest].
Qed.

Lemma submitAnswer_writes_its_pair_only_witness :
  answers_for
    (snd (submitAnswer Sample.uuid Sample.answered "id-1"
            (Sample.answer "Q2" (Val "b") Undefined) 1002)) "id-1" "Q1"
  = [Answer.mk "id-2" "Q1" "id-1" (Some "a") (Some "u")].
Proof.
  assert (Hids : NoDup (map Answer.id (answers Sample.answered)))
    by (apply distinct_NoDup; reflexivity).
  destruct (submitAnswer_writes_its_pair_only Sample.uuid Sample.answered
              "id-1" (Sample.answer "Q2" (Val "b") Undefined) 1002
              (SubmitData.mk (Answer.mk "id-3" "Q2" "id-1" (Some "b") None)
                 (Some Sample.Q3) false)
              Hids eq_refl) as [H _].
  rewrite H; [reflexivity|discriminate].
Defined.

(** X23.  When question identifiers are unique, an [updateQuestion] that
    answers 200 replaces the one row of that identifier by the question it
    returns and writes nothing else; the row keeps its identifier, form and
    order, and keeps its stored options or validation when the request
    gives a falsy value such as null for them. *)
Theorem updateQuestion_writes_one_row (d : DB) (formId id userId : string)
    (body : QuestionBody.t) (updated : Question.t) :
  NoDup (map Question.id (questions d)) ->
  fst (updateQuestion d formId id userId body) = Success 200 updated ->
  snd (updateQuestion d formId id userId body)
  = set_questions
      (map (fun q => if (Question.id q =? id)%string then updated else q)
           (questions d)) d
  /\ exists existing,
       In existing (questions d)
       /\ Question.id existing = id
       /\ Question.id updated = id
       /\ Question.formId existing = formId
       /\ Question.formId updated = formId
       /\ Question.order updated = Question.order existing
       /\ (truthy (QuestionBody.options body) = false ->
           Question.options updated = Question.options existing)
       /\ (truthy (QuestionBody.validation body) = false ->
           Question.validation updated = Question.validation existing).
Proof.
  intros Hids. unfold updateQuestion.
  destruct (find _ (forms d)); [|discriminate].
  destruct (find _ (questions d)) as [existing|] eqn:E; [|discriminate].
  cbv zeta. cbn [fst snd]. intros Hu.
  apply find_some in E. destruct E as [Hin Hp].
  apply andb_true_iff in Hp. destruct Hp as [H1 H2].
  pose proof H1 as H1'. apply String.eqb_eq in H1, H2.
  rewrite H1' in Hu. injection Hu as <-. split.
  - f_equal. apply map_ext_in. intros q Hq.
    destruct (Question.id q =? id)%string eqn:Eq; [|reflexivity].
    apply String.eqb_eq in Eq.
    assert (q = existing)
      by (apply (NoDup_map_injective Question.id (questions d)); congruence).
    now subst q.
  - exists existing. cbn [Question.id Question.formId Question.order
                          Question.options Question.validation].
    unfold json_or. repeat split; try assumption.
    + now intros ->.
    + now intros ->.
Qed.

Lemma updateQuestion_writes_one_row_witness :
  map (fun q => (Question.id q, Question.title q, Question.order q))
      (questions (snd (updateQuestion Sample.scenario "F" "Q2" "owner"
                         Cases.retitled)))
  = [("Q1", "Q1", 0%Z); ("Q2", "Renamed", 1%Z); ("Q3", "Q3", 2%Z)].
Proof.
  rewrite (proj1
             (updateQuestion_writes_one_row Sample.scenario "F" "Q2" "owner"
                Cases.retitled
                (Question.mk "Q2" "F" "Renamed" None "shortText" false None 1
                   None)
                (distinct_NoDup (map Question.id (questions Sample.scenario))
                   eq_refl)
                eq_refl)).
  reflexivity.
Defined.

(** ** A form is read back *)

Lemma find_unique {A : Type} (id : A -> string) (p : A -> bool) (s : string)
    (l : list A) (x : A) :
  NoDup (map id l) ->
  find (fun y => (id y =? s)%string && p y) l = Some x ->
  find (fun y => (id y =? s)%string) l = Some x.
Proof.
  intros Hnd E. apply find_some in E. destruct E as [Hin Hp].
  apply andb_true_iff in Hp. destruct Hp as [Hid _].
  destruct (find (fun y => (id y =? s)%string) l) as [y|] eqn:Ey.
  - apply find_some in Ey. destruct Ey as [Hy Ey].
    apply String.eqb_eq in Hid, Ey. f_equal.
    apply (NoDup_map_injective id l); congruence.
  - pose proof (find_none _ _ Ey x Hin) as N. cbv beta in N. congruence.
Qed.

(** X27.  Round trip: when form identifiers are unique, the form that a
    200 reply of [updateForm] returns is the form that [getForm] returns
    for the same owner right after, with the number of responses the form
    had before the update. *)
Theorem updateForm_then_getForm (uuid : nat -> string) (d : DB)
    (id userId : string) (body : UpdateFormBody.t)
    (view : option FormView.t) :
  NoDup (map Form.id (forms d)) ->
  fst (updateForm uuid d id userId body) = Success 200 view ->
  exists v,
    view = Some v
    /\ getForm (snd (updateForm uuid d id userId body)) id userId
       = Success 200
           (v, length (filter (fun r => (Response.formId r =? id)%string)
                              (responses d)))
    /\ Form.id (FormView.form v) = id
    /\ Form.userId (FormView.form v) = userId.
Proof.
  intros Hnd Hok.
  destruct (find (fun f => (Form.id f =? id)%string
                           && (Form.userId f =? userId)%string) (forms d))
    as [existing|] eqn:E.
  2:{ unfold updateForm in Hok. rewrite E in Hok. discriminate. }
  destruct (commits uuid d id body) eqn:C.
  2:{ rewrite (updateForm_refused uuid d id userId body existing E C) in Hok.
      discriminate. }
  destruct (updateForm_forms uuid d id userId body existing E C)
    as (view0 & Ev & Ef).
  pose proof (updateForm_committed uuid d id userId body existing E C) as Hc.
  cbv zeta in Hc.
  assert (Er : responses (snd (updateForm uuid d id userId body))
               = responses d).
  { rewrite Hc. cbn [snd].
    destruct (reconcile_fields_forms uuid d id body) as (_ & R & _).
    destruct (UpdateFormBody.questions body) as [entries|]; [|exact R].
    rewrite <- R. unfold reconcile_questions. cbv zeta.
    assert (R' : responses
                   (fold_left (process_question uuid id) entries
                      (reconcile_fields uuid d id body))
                 = responses (reconcile_fields uuid d id body))
      by (apply (same_core_fold (process_question uuid id)); intros;
          apply process_question_core).
    now destruct (0 <? _)%Z. }
  rewrite Ev in Hok. injection Hok as <-.
  assert (El : view0 = loadForm (snd (updateForm uuid d id userId body)) id).
  { revert Ev. rewrite Hc. cbn [fst snd]. now intros [= <-]. }
  rewrite El. clear El Ev Hc.
  set (d' := snd (updateForm uuid d id userId body)) in *.
  destruct (find_form_In d id userId existing E) as (_ & Hid & Hu).
  assert (Hkeys : forall f, Form.id (form_update id body f) = Form.id f
                            /\ Form.userId (form_update id body f)
                               = Form.userId f)
    by (intros f; unfold form_update; now destruct (_ =? _)%string).
  assert (E1 : find (fun f => (Form.id f =? id)%string) (forms d')
               = Some (form_update id body existing)).
  { rewrite Ef, find_map_same
      by (intros f; now destruct (Hkeys f) as [-> _]).
    now rewrite (find_unique Form.id _ id (forms d) existing Hnd E). }
  assert (E2 : find (fun f => (Form.id f =? id)%string
                              && (Form.userId f =? userId)%string) (forms d')
               = Some (form_update id body existing)).
  { rewrite Ef, find_map_same
      by (intros f; now destruct (Hkeys f) as [-> ->]).
    now rewrite E. }
  unfold loadForm, getForm. rewrite E1, E2.
  destruct (Hkeys existing) as [Hi' Hu'].
  eexists. split; [reflexivity|]. cbn [FormView.form].
  rewrite Hi', Hid, Er, Hu', Hu. now repeat split.
Qed.

Lemma updateForm_then_getForm_witness :
  exists v,
    fst (updateForm Sample.uuid Cases.notified "F" "owner" Cases.renotified)
    = Success 200 (Some v)
    /\ getForm
         (snd (updateForm Sample.uuid Cases.notified "F" "owner"
                 Cases.renotified)) "F" "owner"
       = Success 200 (v, 0).
Proof.
  destruct (updateForm_then_getForm Sample.uuid Cases.notified "F" "owner"
              Cases.renotified _
              (distinct_NoDup (map Form.id (forms Cases.notified)) eq_refl)
              eq_refl) as (v & Ev & Eg & _).
  exists v. split; [now rewrite <- Ev|exact Eg].
Defined.

Lemma filter_foreign {A : Type} (key : A -> string) (s : string)
    (rows : list A) (ids : list string) :
  (forall x, In x rows -> In (key x) ids) -> ~ In s ids ->
  filter (fun x => (key x =? s)%string) rows = [].
Proof.
  intros H Hs. apply filter_none. intros x Hx. apply String.eqb_neq.
  intros E. apply Hs. rewrite <- E. now apply H.
Qed.

(** X28.  Round trip: in a store whose foreign keys hold and where the
    generator's next identifier is not yet the identifier of a form, the
    form that [createForm] has created is read back by [getForm] for its
    owner: the same form row, no question, no response, a theme exactly
    when the request had one, and settings exactly when the request had
    some. *)
Theorem createForm_then_getForm (uuid : nat -> string) (d : DB)
    (userId : string) (body : CreateFormBody.t) (form : Form.t) :
  linked d ->
  ~ In (uuid (seed d)) (map Form.id (forms d)) ->
  fst (createForm uuid d userId body) = Success 201 form ->
  exists view,
    getForm (snd (createForm uuid d userId body)) (Form.id form) userId
    = Success 200 (view, 0)
    /\ FormView.form view = form
    /\ FormView.questions view = []
    /\ (FormView.theme view = None <-> CreateFormBody.theme body = None)
    /\ (FormView.settings view = None
        <-> CreateFormBody.settings body = None).
Proof.
  intros H Hfresh. unfold createForm, fresh. cbv zeta. cbn [fst snd].
  intros [= <-]. cbn [Form.id].
  set (id := uuid (seed d)) in *.
  set (form := Form.mk id _ _ _ userId).
  set (d1 := set_forms (forms (set_seed (S (seed d)) d) ++ [form])
               (set_seed (S (seed d)) d)).
  set (d2 := match CreateFormBody.theme body with
             | Some theme => create_theme uuid id theme d1
             | None => d1
             end).
  set (d3 := match CreateFormBody.settings body with
             | Some settings => create_settings uuid id settings false d2
             | None => d2
             end).
  open_linked H.
  assert (T2 : forms d2 = forms d ++ [form] /\ questions d2 = questions d
               /\ responses d2 = responses d
               /\ formSettings d2 = formSettings d
               /\ notificationEmails d2 = notificationEmails d
               /\ conditionalLogics d2 = conditionalLogics d
               /\ conditionalRules d2 = conditionalRules d
               /\ themes d2
                  = themes d ++ match CreateFormBody.theme body with
                                | Some theme =>
                                    [Theme.mk (uuid (S (seed d))) id
                                       (or_string (ThemeBody.primaryColor theme)
                                          "#3b82f6")
                                       (or_string (ThemeBody.backgroundColor theme)
                                          "#f8fafc")
                                       (or_string (ThemeBody.fontFamily theme)
                                          "Inter, sans-serif")]
                                | None => []
                                end).
  { unfold d2, d1. destruct (CreateFormBody.theme body); cbn;
      rewrite ?app_nil_r; now repeat split. }
  destruct T2 as (F2 & Q2 & R2 & S2 & N2 & L2 & U2 & T2).
  assert (T3 : forms d3 = forms d ++ [form] /\ questions d3 = questions d
               /\ responses d3 = responses d /\ themes d3 = themes d2
               /\ conditionalLogics d3 = conditionalLogics d
               /\ conditionalRules d3 = conditionalRules d
               /\ notificationEmails d3 = notificationEmails d
               /\ exists rows,
                    formSettings d3 = formSettings d ++ rows
                    /\ (rows = [] <-> CreateFormBody.settings body = None)
                    /\ forall s, In s rows -> FormSettings.formId s = id).
  { unfold d3. destruct (CreateFormBody.settings body) as [settings|].
    - unfold create_settings, fresh. cbv zeta.
      destruct (SettingsBody.notificationEmails settings); tables;
        rewrite F2, Q2, R2, S2, N2, L2, U2;
        (repeat (split; [reflexivity|])); eexists;
        (split; [reflexivity|]);
        (split; [split; discriminate|]); now intros s [<-|[]].
    - rewrite F2, Q2, R2, S2, N2, L2, U2. repeat (split; [reflexivity|]).
      exists []. rewrite app_nil_r. now repeat split. }
  destruct T3 as (F3 & Q3 & R3 & T3 & L3 & U3 & N3 & rows & S3 & Hrows & Hsid).
  unfold getForm. rewrite F3.
  rewrite find_app_none.
  2:{ destruct (find _ (forms d)) as [f|] eqn:Ef; [|reflexivity].
      apply find_some in Ef. destruct Ef as [Hin Hp].
      apply andb_true_iff in Hp. destruct Hp as [Hp _].
      apply String.eqb_eq in Hp. elim Hfresh. rewrite <- Hp.
      now apply in_map. }
  simpl find. rewrite !String.eqb_refl. cbn [andb Form.id].
  fold form. change (Form.id form) with id.
  unfold questions_asc, questions_of.
  rewrite Q3, R3, T3, T2, S3.
  rewrite (filter_foreign Question.formId id (questions d) _ Lq Hfresh).
  rewrite (filter_foreign Response.formId id (responses d) _ Lp Hfresh).
  cbn [orderBy fold_right map length].
  assert (Eth : find (fun t => (Theme.formId t =? id)%string) (themes d)
                = None).
  { destruct (find _ (themes d)) as [t|] eqn:Et; [|reflexivity].
    apply find_some in Et. destruct Et as [Hin Hp].
    apply String.eqb_eq in Hp. elim Hfresh. rewrite <- Hp. now apply Lt. }
  assert (Ese : find (fun s => (FormSettings.formId s =? id)%string)
                     (formSettings d) = None).
  { destruct (find _ (formSettings d)) as [t|] eqn:Et; [|reflexivity].
    apply find_some in Et. destruct Et as [Hin Hp].
    apply String.eqb_eq in Hp. elim Hfresh. rewrite <- Hp. now apply Ls. }
  rewrite !find_app_none by assumption.
  eexists. split; [reflexivity|].
  cbn [FormView.form FormView.questions FormView.theme FormView.settings].
  split; [reflexivity|]. split; [reflexivity|]. split.
  - destruct (CreateFormBody.theme body); simpl.
    + rewrite String.eqb_refl. split; discriminate.
    + tauto.
  - destruct rows as [|s rest].
    + simpl. tauto.
    + simpl. rewrite (Hsid s (or_introl eq_refl)), String.eqb_refl.
      split; [discriminate|]. intros Hn. apply Hrows in Hn. discriminate.
Qed.

Lemma createForm_then_getForm_witness :
  exists view,
    getForm (snd (createForm Sample.uuid emptyDB "owner" Cases.with_settings))
      "id-0" "owner" = Success 200 (view, 0)
    /\ FormView.form view = Form.mk "id-0" "Survey" None false "owner"
    /\ FormView.questions view = []
    /\ FormView.theme view = None.
Proof.
  destruct (createForm_then_getForm Sample.uuid emptyDB "owner"
              Cases.with_settings (Form.mk "id-0" "Survey" None false "owner")
              (linkedb_linked emptyDB eq_refl) (fun H => H) eq_refl)
    as (view & E & Hf & Hq & Ht & _).
  exists view. split; [exact E|]. split; [exact Hf|]. split; [exact Hq|].
  now apply Ht.
Defined.

(** ** The middleware *)

Lemma prefix_app (p s : string) :
  String.prefix p s = true -> exists t, s = (p ++ t)%string.
Proof.
  revert s. induction p as [|c p IH]; intros s H.
  - now exists s.
  - destruct s as [|c' s]; [discriminate|]. simpl in H.
    destruct (Ascii.ascii_dec c c') as [<-|]; [|discriminate].
    destruct (IH s H) as [t ->]. now exists t.
Qed.

Lemma split_space_app (a b : string) :
  split_space (a ++ String (Ascii.ascii_of_nat 32) b)
  = split_space a ++ split_space b.
Proof.
  unfold split_space. induction a as [|c a IH].
  - simpl. now destruct (split_space_from b).
  - cbn [String.append split_space_from].
    destruct (split_space_from (a ++ String (Ascii.ascii_of_nat 32) b))
      as [h t].
    destruct (split_space_from a) as [h' t']. cbn [fst snd] in IH.
    injection IH as -> ->.
    now destruct (Ascii.eqb c (Ascii.ascii_of_nat 32)).
Qed.

Lemma split_space_concat (s : string) :
  String.concat " " (split_space s) = s.
Proof.
  unfold split_space. induction s as [|c s IH]; [reflexivity|].
  cbn [split_space_from]. destruct (split_space_from s) as [h t].
  cbn [fst snd] in IH.
  destruct (Ascii.eqb_spec c (Ascii.ascii_of_nat 32)) as [->|Hc];
    cbn [fst snd].
  - change (String.concat " " ("" :: h :: t))
      with (String (Ascii.ascii_of_nat 32) (String.concat " " (h :: t))).
    now rewrite IH.
  - destruct t as [|x t].
    + simpl in *. now rewrite IH.
    + change (String.concat " " (String c h :: x :: t))
        with (String c (String.concat " " (h :: x :: t))).
      now rewrite IH.
Qed.

(** What [authenticate] does with a header that starts with [Bearer ]:
    everything is decided by the text up to the next space. *)
Lemma authenticate_bearer (verifyToken : string -> verification)
    (findUser : string -> option User.t) (tail : string) :
  authenticate verifyToken findUser (Some ("Bearer " ++ tail)%string)
  = let token := fst (split_space_from tail) in
    if (token =? "")%string then Unauthorized "Invalid token format"
    else
      match verifyToken token with
      | Payload (Some userId) =>
          if (userId =? "")%string then Unauthorized "Invalid token"
          else match findUser userId with
               | Some user => Next user
               | None => Unauthorized "User not found"
               end
      | Payload None => Unauthorized "Invalid token"
      | JsonWebTokenError | TokenExpiredError =>
          Unauthorized "Invalid or expired token"
      | OtherError => NextError
      end.
Proof.
  unfold authenticate.
  assert (Ep : String.prefix "Bearer " ("Bearer " ++ tail) = true).
  { simpl. repeat (destruct (Ascii.ascii_dec _ _); [|congruence]).
    now destruct tail. }
  rewrite Ep.
  assert (Es : split_space ("Bearer " ++ tail)
               = "Bearer" :: split_space tail)
    by apply (split_space_app "Bearer" tail).
  rewrite Es. reflexivity.
Qed.

(** X24.  [authenticate] lets a request through as a user only when the
    header starts with [Bearer ], the text up to the next space is a
    non-empty token that [verifyToken] decodes to a payload with a
    non-empty [userId], and that user is in the table. *)
Theorem authenticate_admits_token_holders
    (verifyToken : string -> verification)
    (findUser : string -> option User.t) (authorization : option string)
    (user : User.t) :
  authenticate verifyToken findUser authorization = Next user ->
  exists tail userId,
    authorization = Some ("Bearer " ++ tail)%string
    /\ fst (split_space_from tail) <> ""
    /\ verifyToken (fst (split_space_from tail)) = Payload (Some userId)
    /\ userId <> ""
    /\ findUser userId = Some user.
Proof.
  destruct authorization as [authHeader|]; [|discriminate].
  destruct (String.prefix "Bearer " authHeader) eqn:Ep.
  - destruct (prefix_app _ _ Ep) as [tail ->].
    rewrite authenticate_bearer. cbv zeta.
    destruct (String.eqb_spec (fst (split_space_from tail)) "") as [|Ht];
      [discriminate|].
    destruct (verifyToken _) as [[userId|]| | |] eqn:Ev; try discriminate.
    destruct (String.eqb_spec userId "") as [|Hu]; [discriminate|].
    destruct (findUser userId) as [u|] eqn:Eu; [|discriminate].
    intros [= ->]. now exists tail, userId.
  - unfold authenticate. rewrite Ep. rewrite orb_true_r. discriminate.
Qed.

Lemma authenticate_admits_token_holders_witness :
  authenticate Cases.verifyToken Cases.findUser (Some "Bearer good")
  = Next (User.mk "u1" "u1@example.org" None)
  /\ exists tail userId,
       "Bearer good" = ("Bearer " ++ tail)%string
       /\ Cases.verifyToken (fst (split_space_from tail))
          = Payload (Some userId)
       /\ Cases.findUser userId = Some (User.mk "u1" "u1@example.org" None).
Proof.
  split; [reflexivity|].
  destruct (authenticate_admits_token_holders Cases.verifyToken
              Cases.findUser (Some "Bearer good")
              (User.mk "u1" "u1@example.org" None) eq_refl)
    as (tail & userId & E & _ & Hv & _ & Hf).
  exists tail, userId. split; [congruence|]. split; [exact Hv|exact Hf].
Defined.

(** X25.  [authenticate] reads the token as the second element of the
    header split at spaces: whatever follows a space after the token is
    ignored. *)
Theorem authenticate_ignores_trailing_text
    (verifyToken : string -> verification)
    (findUser : string -> option User.t) (token rest : string) :
  split_space token = [token] ->
  authenticate verifyToken findUser
    (Some ("Bearer " ++ token ++ " " ++ rest)%string)
  = authenticate verifyToken findUser (Some ("Bearer " ++ token)%string).
Proof.
  intros Ht.
  change (token ++ " " ++ rest)%string
    with (token ++ String (Ascii.ascii_of_nat 32) rest)%string.
  rewrite !authenticate_bearer. cbv zeta.
  assert (E : fst (split_space_from
                     (token ++ String (Ascii.ascii_of_nat 32) rest))
              = fst (split_space_from token)).
  { pose proof (split_space_app token rest) as Es. rewrite Ht in Es.
    unfold split_space in Es, Ht. injection Es as Es _.
    injection Ht as Ht _. congruence. }
  now rewrite E.
Qed.

Lemma authenticate_ignores_trailing_text_witness :
  authenticate Cases.verifyToken Cases.findUser
    (Some "Bearer good and more")
  = Next (User.mk "u1" "u1@example.org" None).
Proof.
  exact (eq_trans
           (authenticate_ignores_trailing_text Cases.verifyToken
              Cases.findUser "good" "and more" eq_refl)
           eq_refl).
Defined.

(** X26.  In production, [errorHandler] answers any two errors of status
    500 (or without a status) that carry the same [errors] with the same
    reply: the generic message, and neither the message nor the stack of
    the error. *)
Theorem errorHandler_hides_server_errors (e1 e2 : Err.t) :
  ErrorReply.status (errorHandler (Some "production") e1) = 500%Z ->
  ErrorReply.status (errorHandler (Some "production") e2) = 500%Z ->
  Err.errors e1 = Err.errors e2 ->
  errorHandler (Some "production") e1 = errorHandler (Some "production") e2
  /\ ErrorReply.message (errorHandler (Some "production") e1)
     = "An unexpected error occurred"
  /\ ErrorReply.stack (errorHandler (Some "production") e1) = None.
Proof.
  unfold errorHandler. cbv zeta. cbn [ErrorReply.status].
  rewrite String.eqb_refl. cbn [andb negb].
  intros -> -> ->. now repeat split.
Qed.

Lemma errorHandler_hides_server_errors_witness :
  errorHandler (Some "production") Cases.failure
  = errorHandler (Some "production") Cases.other_failure
  /\ errorHandler (Some "production") Cases.failure
     = ErrorReply.mk 500 "An unexpected error occurred" None None.
Proof.
  split; [|reflexivity].
  exact (proj1
           (errorHandler_hides_server_errors Cases.failure Cases.other_failure
              eq_refl eq_refl eq_refl)).
Defined.
